(** * sol_swap: a shallow embedding of [src/sol_swap.py]

    The program is a sequence of HTTP requests, JSON look-ups, a local
    signing step and a polling loop.  It is embedded as follows.

    - Python values that travel through the program (JSON documents, the
      [int]/[float] amounts) are inductive types; [float] is IEEE binary64,
      taken from the Standard Library's executable specification
      [SpecFloat] with [prec = 53] and [emax = 1024].
    - Effects are explicit: a computation is a function from a [state]
      (a request counter and the trace of observable events) to a
      [result] and a new state.  [raise]/[try ... except Exception] are the
      error part of that monad.
    - The outside world (the two HTTP services, the [solders], [base58]
      and [base64] libraries, and the two Python builtins that are not
      modelled bit by bit) are fields of type classes, so every theorem
      holds for every behaviour of the network and of the libraries. *)

From Stdlib Require Import ZArith List String Ascii Bool Lia QArith Qround.
From Stdlib Require Import Floats.SpecFloat DecimalString.
Import ListNotations.

Set Warnings "-register-all".

Local Open Scope string_scope.
Local Open Scope list_scope.
Local Open Scope Z_scope.

(* ================================================================= *)
(** ** Python numbers *)

(** Python's [float]: IEEE binary64 without NaN payloads. *)
Definition float : Type := spec_float.

Module Float64.

Definition prec : Z := 53.
Definition emax : Z := 1024.

(** [float(n)] for an [int] that fits; rounding is to nearest even. *)
Definition of_Z (z : Z) : float := binary_normalize prec emax z 0 false.

Definition mul : float -> float -> float := SFmul prec emax.
Definition div : float -> float -> float := SFdiv prec emax.

Definition is_zero (f : float) : bool :=
  match f with S754_zero _ => true | _ => false end.

Definition is_nan (f : float) : bool :=
  match f with S754_nan => true | _ => false end.

Definition is_infinite (f : float) : bool :=
  match f with S754_infinity _ => true | _ => false end.

(** The integer part of [m * 2^e], for [m] positive. *)
Definition trunc_mag (m : positive) (e : Z) : Z :=
  if 0 <=? e then Z.pos m * 2 ^ e else Z.pos m / 2 ^ (- e).

(** The three-way comparison of a float with an exact integer, as
    Python compares a [float] with an [int] (no rounding of the
    integer); [None] when the float is a NaN. *)
Definition compare_Z (f : float) (z : Z) : option comparison :=
  match f with
  | S754_nan => None
  | S754_zero _ => Some (0 ?= z)
  | S754_infinity s => Some (if s then Lt else Gt)
  | S754_finite s m e =>
      let sm := cond_Zopp s (Z.pos m) in
      if 0 <=? e then Some (sm * 2 ^ e ?= z)
      else Some (sm ?= z * 2 ^ (- e))
  end.

(** The exact rational value of a finite float. *)
Definition to_Q (f : float) : option Q :=
  match f with
  | S754_zero _ => Some (0 # 1)%Q
  | S754_finite s m e =>
      let sm := cond_Zopp s (Z.pos m) in
      if 0 <=? e then Some (inject_Z (sm * 2 ^ e))
      else Some (Qmake sm (Z.to_pos (2 ^ (- e))))
  | _ => None
  end.

(** Literals of the program. *)
Definition lit_1e9 : float := of_Z 1000000000.
(** [0.002]: the double nearest to 2/1000, which is what a correctly
    rounded division of the two exact doubles 2 and 1000 returns. *)
Definition lit_0_002 : float := div (of_Z 2) (of_Z 1000).
Definition lit_0_5 : float := S754_finite false 4503599627370496 (-53).
Definition lit_1_0 : float := of_Z 1.

End Float64.

(** A Python number: [int] is unbounded, [float] is binary64. *)
Inductive pynum :=
| PInt (z : Z)
| PFloat (f : float).

(* ================================================================= *)
(** ** JSON documents, as [response.json()] returns them and as the
       program builds them for request bodies *)

Inductive json :=
| JNull
| JBool (b : bool)
| JInt (z : Z)
| JFloat (f : float)
| JStr (s : string)
| JList (l : list json)
| JDict (kv : list (string * json)).

(** The parts of an f-string: literal text and formatted values. *)
Inductive fpart :=
| FLit (s : string)
| FNum (n : pynum)
| FJson (j : json).

(** Exceptions, all subclasses of [Exception]. *)
Inductive exn :=
| RequestException (detail : string)   (* raised by [requests] *)
| HTTPError (status : Z)               (* [raise_for_status] *)
| JSONDecodeError                      (* [response.json()] on text that is not JSON *)
| EOFError                             (* [input()] at the end of the input *)
| KeyError (k : json)
| IndexError
| TypeError
| AttributeError
| ValueError
| OverflowError
| ZeroDivisionError
| LibraryError (detail : string)       (* [base58], [base64], [solders] *)
| PyException (msg : list fpart).      (* [raise Exception(f"...")] *)

Inductive result (A : Type) :=
| Ok (a : A)
| Raise (e : exn).
Arguments Ok {A} a.
Arguments Raise {A} e.

Module Py.

Fixpoint lookup (k : string) (kv : list (string * json)) : option json :=
  match kv with
  | [] => None
  | (k', v) :: rest => if String.eqb k k' then Some v else lookup k rest
  end.

(** [bool(x)] *)
Definition truthy (j : json) : bool :=
  match j with
  | JNull => false
  | JBool b => b
  | JInt z => negb (z =? 0)
  | JFloat f => negb (Float64.is_zero f)
  | JStr s => negb (String.eqb s "")
  | JList l => match l with [] => false | _ => true end
  | JDict kv => match kv with [] => false | _ => true end
  end.

Definition is_None (j : json) : bool :=
  match j with JNull => true | _ => false end.

(** [o.get(k)]: only a [dict] has the method. *)
Definition get (o : json) (k : string) : result json :=
  match o with
  | JDict kv => Ok (match lookup k kv with Some v => v | None => JNull end)
  | _ => Raise AttributeError
  end.

(** [o.get(k, d)] *)
Definition get_default (o : json) (k : string) (d : json) : result json :=
  match o with
  | JDict kv => Ok (match lookup k kv with Some v => v | None => d end)
  | _ => Raise AttributeError
  end.

Fixpoint is_prefix (p s : string) : bool :=
  match p, s with
  | EmptyString, _ => true
  | String a p', String b s' => Ascii.eqb a b && is_prefix p' s'
  | String _ _, EmptyString => false
  end.

Fixpoint is_substring (p s : string) : bool :=
  is_prefix p s ||
  match s with
  | EmptyString => false
  | String _ s' => is_substring p s'
  end.

(** [k in o], for a string [k]: key of a dict, element of a list,
    substring of a string; other values are not iterable. *)
Definition contains (k : string) (o : json) : result bool :=
  match o with
  | JDict kv => Ok (match lookup k kv with Some _ => true | None => false end)
  | JList l =>
      Ok (existsb (fun x => match x with
                            | JStr s => String.eqb k s
                            | _ => false
                            end) l)
  | JStr s => Ok (is_substring k s)
  | _ => Raise TypeError
  end.

(** [o[k]], for a string [k]. *)
Definition getitem (o : json) (k : string) : result json :=
  match o with
  | JDict kv =>
      match lookup k kv with
      | Some v => Ok v
      | None => Raise (KeyError (JStr k))
      end
  | _ => Raise TypeError
  end.

(** [o[0]] *)
Definition getitem0 (o : json) : result json :=
  match o with
  | JList l => match l with x :: _ => Ok x | [] => Raise IndexError end
  | JStr s =>
      match s with
      | String a _ => Ok (JStr (String a EmptyString))
      | EmptyString => Raise IndexError
      end
  | JDict _ => Raise (KeyError (JInt 0))
  | _ => Raise TypeError
  end.

(** [float(n)] for an [int]: an [int] beyond the binary64 range
    raises. *)
Definition float_of_int (z : Z) : result float :=
  let f := Float64.of_Z z in
  if Float64.is_infinite f then Raise OverflowError else Ok f.

(** [int(x)]: truncation toward zero. *)
Definition int_of_float (f : float) : result Z :=
  match f with
  | S754_zero _ => Ok 0
  | S754_finite s m e => Ok (cond_Zopp s (Float64.trunc_mag m e))
  | S754_infinity _ => Raise OverflowError
  | S754_nan => Raise ValueError
  end.

Definition int (n : pynum) : result Z :=
  match n with
  | PInt z => Ok z
  | PFloat f => int_of_float f
  end.

(** [str(n)] for an [int]. *)
Definition str_of_int (z : Z) : string :=
  NilZero.string_of_int (Z.to_int z).

Definition cmp_to (c : option comparison) (want : comparison -> bool) : bool :=
  match c with Some x => want x | None => false end.

Definition compare (a b : pynum) : option comparison :=
  match a, b with
  | PInt x, PInt y => Some (x ?= y)
  | PFloat x, PFloat y => SFcompare x y
  | PFloat x, PInt y => Float64.compare_Z x y
  | PInt x, PFloat y => option_map CompOpp (Float64.compare_Z y x)
  end.

Definition lt (a b : pynum) : bool :=
  cmp_to (compare a b) (fun c => match c with Lt => true | _ => false end).
Definition gt (a b : pynum) : bool := lt b a.
Definition le (a b : pynum) : bool :=
  cmp_to (compare a b) (fun c => match c with Gt => false | _ => true end).
Definition eq (a b : pynum) : bool :=
  cmp_to (compare a b) (fun c => match c with Eq => true | _ => false end).

(** [a * b] *)
Definition mul (a b : pynum) : result pynum :=
  match a, b with
  | PInt x, PInt y => Ok (PInt (x * y))
  | PFloat x, PFloat y => Ok (PFloat (Float64.mul x y))
  | PFloat x, PInt y =>
      match float_of_int y with
      | Ok fy => Ok (PFloat (Float64.mul x fy))
      | Raise e => Raise e
      end
  | PInt x, PFloat y =>
      match float_of_int x with
      | Ok fx => Ok (PFloat (Float64.mul fx y))
      | Raise e => Raise e
      end
  end.

(** [x / d] for a [float] numerator. *)
Definition float_truediv (x : float) (d : pynum) : result float :=
  match (match d with PInt z => float_of_int z | PFloat f => Ok f end) with
  | Ok fd =>
      if Float64.is_zero fd then Raise ZeroDivisionError
      else Ok (Float64.div x fd)
  | Raise e => Raise e
  end.

End Py.

(* ================================================================= *)
(** ** The network, the observable events and the effect monad *)

Inductive request :=
| GET (url : string)
| POST (url : string) (body : json) (headers : list (string * string)).

Definition request_url (r : request) : string :=
  match r with GET u => u | POST u _ _ => u end.

(** [json_error] is what [response.json()] raises when it does not
    return: [JSONDecodeError] on text that is not JSON, and whatever the
    [json] module itself raises on text that is, such as the plain
    [ValueError] of an integer literal beyond the interpreter's limit of
    digits. *)
Record response := Response {
  status_code : Z;
  text : string;              (* [response.text] *)
  json_body : option json;    (* [response.json()], [None] when it raises *)
  json_error : exn            (* what it raises then *)
}.

(** A response whose body, when it cannot be decoded, is not JSON. *)
Definition mkResponse (status : Z) (body_text : string) (body : option json)
  : response :=
  Response status body_text body JSONDecodeError.

Inductive level := WARNING | ERROR.

(** What a log line or a printed line is made of. *)
Inductive piece :=
| Lit (s : string)
| Fmt (p : fpart)
| StrExn (e : exn).    (* [str(e)] *)

Inductive event :=
| EvRequest (r : request)
| EvSleep (seconds : Z)
| EvLog (l : level) (line : list piece)
| EvPrint (line : list piece).

(** [sent] counts the requests issued so far; [trace] lists the events,
    oldest first. *)
Record state := mkState {
  sent : nat;
  trace : list event
}.

(** The world the program talks to: the answer to the [n]-th request. An
    answer is a response or an exception of [requests]. *)
Class Network := {
  answer : nat -> request -> result response
}.

Definition M (A : Type) : Type := state -> result A * state.

Definition ret {A} (a : A) : M A := fun st => (Ok a, st).

Definition raise {A} (e : exn) : M A := fun st => (Raise e, st).

Definition bind {A B} (m : M A) (k : A -> M B) : M B :=
  fun st =>
    match m st with
    | (Ok a, st') => k a st'
    | (Raise e, st') => (Raise e, st')
    end.

(** [try: m  except Exception as e: h e] *)
Definition try_except {A} (m : M A) (h : exn -> M A) : M A :=
  fun st =>
    match m st with
    | (Ok a, st') => (Ok a, st')
    | (Raise e, st') => h e st'
    end.

(** A pure step that may raise. *)
Definition lift {A} (r : result A) : M A := fun st => (r, st).

Definition emit (ev : event) : M unit :=
  fun st => (Ok tt, mkState (sent st) (trace st ++ [ev])).

Declare Scope py_scope.
Delimit Scope py_scope with py.
Notation "x <- m ;; k" := (bind m (fun x => k))
  (at level 61, m at next level, right associativity) : py_scope.
Notation "m ;; k" := (bind m (fun _ => k))
  (at level 61, right associativity) : py_scope.
Local Open Scope py_scope.

Definition sleep (seconds : Z) : M unit := emit (EvSleep seconds).
Definition log (l : level) (line : list piece) : M unit := emit (EvLog l line).
Definition print (line : list piece) : M unit := emit (EvPrint line).

Section Requests.
Context {net : Network}.

(** [requests.get] / [requests.post]: the request is observed, then the
    world answers. *)
Definition send (r : request) : M response :=
  fun st =>
    (answer (sent st) r,
     mkState (S (sent st)) (trace st ++ [EvRequest r])).

Definition requests_post (url : string) (body : json)
           (headers : list (string * string)) : M response :=
  send (POST url body headers).

Definition requests_get (url : string) : M response := send (GET url).

End Requests.

(** [response.json()] *)
Definition response_json (r : response) : M json :=
  match json_body r with
  | Some j => ret j
  | None => raise (json_error r)
  end.

(** [response.raise_for_status()] *)
Definition raise_for_status (r : response) : M unit :=
  if (400 <=? status_code r) && (status_code r <? 600)
  then raise (HTTPError (status_code r))
  else ret tt.

(* ================================================================= *)
(** ** What the program imports and does not define *)

Definition bytes : Type := list Byte.byte.

(** The two builtins whose results are not modelled bit by bit:
    [float(s)] on a string and [x ** y] on floats (the C library's
    [pow]). *)
Class Builtins := {
  float_of_str : string -> result float;
  float_pow : float -> float -> result float
}.

(** [base58], [base64] and [solders]. *)
Class Libraries := {
  keypair : Type;
  message : Type;
  transaction : Type;
  signature : Type;
  b58decode : string -> result bytes;
  Keypair_from_bytes : bytes -> result keypair;
  pubkey_str : keypair -> string;                 (* [str(kp.pubkey())] *)
  sign_message : keypair -> bytes -> signature;
  b64decode : string -> result bytes;
  b64encode : bytes -> string;                    (* [b64encode(b).decode()] *)
  VersionedTransaction_from_bytes : bytes -> result transaction;
  VersionedTransaction_populate : message -> list signature -> transaction;
  tx_message : transaction -> message;            (* [tx.message] *)
  tx_signatures : transaction -> list signature;  (* [tx.signatures] *)
  message_bytes : message -> bytes;               (* [bytes(msg)] *)
  transaction_bytes : transaction -> bytes        (* [bytes(tx)] *)
}.

(* ================================================================= *)
(** ** The program *)

Module SolSwap.
Section Program.
Context {net : Network} {builtins : Builtins} {libs : Libraries}.

Definition HELIUS_URL : string :=
  "https://mainnet.helius-rpc.com/?api-key=2ea68573-e4c1-48ec-a2bd-7baa385c7698".
Definition SOL_ADDRESS : string :=
  "So11111111111111111111111111111111111111112".

Definition JUPITER_SEND_URL : string := "https://worker.jup.ag/send-transaction".
Definition JUPITER_SWAP_URL : string := "https://quote-api.jup.ag/v6/swap".
Definition JUPITER_QUOTE_URL : string := "https://quote-api.jup.ag/v6/quote".

(** The JSON-RPC envelope the program writes out at each call. *)
Definition jsonrpc (method : string) (params : list json) : json :=
  JDict [("jsonrpc", JStr "2.0"); ("id", JInt 1);
         ("method", JStr method); ("params", JList params)].

(** [float(x)] on a value taken from a JSON document. *)
Definition float_of_json (j : json) : result float :=
  match j with
  | JInt z => Py.float_of_int z
  | JFloat f => Ok f
  | JBool b => Ok (Float64.of_Z (if b then 1 else 0))
  | JStr s => float_of_str s
  | _ => Raise TypeError
  end.

(** [10 ** d] on a value taken from a JSON document: an [int] for a
    non-negative [int] exponent, a [float] otherwise. *)
Definition pow10 (d : json) : result pynum :=
  match d with
  | JInt z =>
      if 0 <=? z then Ok (PInt (10 ^ z))
      else match float_pow (Float64.of_Z 10) (Float64.of_Z z) with
           | Ok f => Ok (PFloat f)
           | Raise e => Raise e
           end
  | JBool b => Ok (PInt (if b then 10 else 1))
  | JFloat f =>
      match float_pow (Float64.of_Z 10) f with
      | Ok r => Ok (PFloat r)
      | Raise e => Raise e
      end
  | _ => Raise TypeError
  end.

(** Lines 21-41. *)
Definition get_sol_balance (public_key : string) : M pynum :=
  r <- try_except
         (response <- requests_post HELIUS_URL
                        (jsonrpc "getBalance" [JStr public_key]) [];;
          if status_code response =? 200 then
            result <- response_json response;;
            has <- lift (Py.contains "result" result);;
            if (has : bool) then
              r1 <- lift (Py.getitem result "result");;
              v <- lift (Py.getitem r1 "value");;
              f <- lift (float_of_json v);;
              q <- lift (Py.float_truediv f (PFloat Float64.lit_1e9));;
              ret (Some (PFloat q))
            else ret None
          else ret None)
         (fun e =>
            log ERROR [Lit "Failed to get SOL balance: "; StrExn e];;
            ret None);;
  match r with
  | Some v => ret v
  | None => ret (PInt 0)
  end.

(** One turn of the loop of lines 45-72, up to the [time.sleep(1)]:
    [Some b] when the body executes [return b]. *)
Definition poll_once (signature : json) : M (option bool) :=
  try_except
    (response <- requests_post HELIUS_URL
                   (jsonrpc "getTransaction"
                      [signature;
                       JDict [("maxSupportedTransactionVersion", JInt 0)]])
                   [];;
     if status_code response =? 200 then
       body <- response_json response;;
       result <- lift (Py.get body "result");;
       if Py.truthy result then
         meta <- lift (Py.get_default result "meta" (JDict []));;
         err <- lift (Py.get meta "err");;
         if Py.is_None err then ret (Some true)
         else
           m <- lift (Py.getitem result "meta");;
           e <- lift (Py.getitem m "err");;
           log ERROR [Lit "Transaction failed: "; Fmt (FJson e)];;
           ret (Some false)
       else ret None
     else ret None)
    (fun e =>
       log WARNING [Lit "Error checking transaction status: "; StrExn e];;
       ret None).

(** [for _ in range(n): ...] followed by [return False]. *)
Fixpoint wait_loop (n : nat) (signature : json) : M bool :=
  match n with
  | O => ret false
  | S k =>
      r <- poll_once signature;;
      match r with
      | Some b => ret b
      | None => sleep 1;; wait_loop k signature
      end
  end.

(** Lines 43-74. *)
Definition wait_for_transaction_confirmation
           (signature : json) (max_retries : Z) : M bool :=
  wait_loop (Z.to_nat max_retries) signature.

(** The default of [max_retries] (line 43); both callers rely on it. *)
Definition default_max_retries : Z := 30.

(** Lines 76-85. *)
Definition get_quote (input_mint output_mint amount : string) : M json :=
  try_except
    (let quote_url :=
       (JUPITER_QUOTE_URL ++ "?inputMint=" ++ input_mint
          ++ "&outputMint=" ++ output_mint
          ++ "&amount=" ++ amount
          ++ "&restrictIntermediateTokens=true")%string in
     response <- requests_get quote_url;;
     raise_for_status response;;
     response_json response)
    (fun e =>
       log ERROR [Lit "Quote failed: "; StrExn e];;
       raise e).

(** Lines 87-105. *)
Definition create_swap_data (quote_response : json)
           (sender_public_key : string) : json :=
  JDict [
    ("quoteResponse", quote_response);
    ("userPublicKey", JStr sender_public_key);
    ("wrapUnwrapSOL", JBool true);
    ("useVersionedTransaction", JBool true);
    ("dynamicComputeUnitLimit", JBool true);
    ("dynamicSlippage", JDict [("maxBps", JInt 300)]);
    ("prioritizationFeeLamports",
      JDict [("priorityLevelWithMaxLamports",
        JDict [("maxLamports", JInt 10000000);
               ("priorityLevel", JStr "veryHigh");
               ("global", JBool false)])])
  ].

(** The body of the fallback request, lines 121-133. *)
Definition rpc_request (encoded_tx : string) : json :=
  jsonrpc "sendTransaction"
    [JStr encoded_tx;
     JDict [("encoding", JStr "base64");
            ("skipPreflight", JBool true);
            ("maxRetries", JInt 3)]].

Definition json_headers : list (string * string) :=
  [("Content-Type", "application/json")].

(** Lines 107-152. *)
Definition send_transaction (encoded_tx : string) : M json :=
  try_except
    (send_response <- requests_post JUPITER_SEND_URL
                        (JDict [("transaction", JStr encoded_tx)])
                        json_headers;;
     if status_code send_response =? 200 then
       body <- response_json send_response;;
       lift (Py.get body "txid")
     else
       response <- requests_post HELIUS_URL (rpc_request encoded_tx)
                     json_headers;;
       (if negb (status_code response =? 200)
        then raise (PyException [FLit "Send failed: "; FLit (text response)])
        else ret tt);;
       result <- response_json response;;
       has_error <- lift (Py.contains "error" result);;
       (if (has_error : bool)
        then raise (PyException [FLit "Send failed: "; FJson result])
        else ret tt);;
       lift (Py.getitem result "result"))
    (fun e =>
       log ERROR [Lit "Failed to send transaction: "; StrExn e];;
       raise e).

(** The signing step, written twice in the source (lines 183-188 in
    [buy_tokens], lines 265-270 in [sell_tokens]) with the same text. *)
Definition sign_transaction (sender_keypair : keypair)
           (swap_instruction : json) : result string :=
  match (match swap_instruction with
         | JStr s => b64decode s
         | _ => Raise TypeError
         end) with
  | Raise e => Raise e
  | Ok raw =>
      match VersionedTransaction_from_bytes raw with
      | Raise e => Raise e
      | Ok unsigned_tx =>
          let signature :=
            sign_message sender_keypair (message_bytes (tx_message unsigned_tx)) in
          let signed_tx :=
            VersionedTransaction_populate (tx_message unsigned_tx) [signature] in
          Ok (b64encode (transaction_bytes signed_tx))
      end
  end.

(** [if c: raise e] *)
Definition raise_if (c : bool) (e : exn) : M unit :=
  if c then raise e else ret tt.

(** Lines 154-204. *)
Definition buy_tokens (contract_address : string) (amount : float)
           (private_key : string) : M json :=
  try_except
    (private_key_bytes <- lift (b58decode private_key);;
     sender_keypair <- lift (Keypair_from_bytes private_key_bytes);;
     let sender_public_key := pubkey_str sender_keypair in
     sol_balance <- get_sol_balance sender_public_key;;
     raise_if (Py.lt sol_balance (PFloat amount))
       (PyException [FLit "Insufficient SOL balance. You have ";
                     FNum sol_balance;
                     FLit " SOL but trying to spend ";
                     FNum (PFloat amount); FLit " SOL"]);;
     scaled <- lift (Py.mul (PFloat amount) (PInt (10 ^ 9)));;
     units <- lift (Py.int scaled);;
     let amount_in_lamports := Py.str_of_int units in
     quote_response <- get_quote SOL_ADDRESS contract_address
                         amount_in_lamports;;
     let swap_data := create_swap_data quote_response sender_public_key in
     swap_response <- requests_post JUPITER_SWAP_URL swap_data [];;
     raise_if (negb (status_code swap_response =? 200))
       (PyException [FLit "Swap transaction failed: ";
                     FLit (text swap_response)]);;
     swap_json <- response_json swap_response;;
     swap_instruction <- lift (Py.getitem swap_json "swapTransaction");;
     encoded_tx <- lift (sign_transaction sender_keypair swap_instruction);;
     tx_signature <- send_transaction encoded_tx;;
     print [Lit "Transaction submitted. Waiting for confirmation..."];;
     confirmed <- wait_for_transaction_confirmation tx_signature
                    default_max_retries;;
     if (confirmed : bool) then
       print [Lit "Transaction confirmed! View details: https://solscan.io/tx/";
              Fmt (FJson tx_signature)];;
       ret tx_signature
     else
       print [Lit "Transaction failed or timed out!"];;
       ret JNull)
    (fun e =>
       print [Lit "Error: "; StrExn e];;
       ret JNull).

(** Lines 235-236: the amount the sale goes on with. *)
Definition resolve_amount (amount : pynum) (current_balance : float) : pynum :=
  if Py.eq amount (PInt 0) || Py.gt amount (PFloat current_balance)
  then PFloat current_balance
  else amount.

(** The path into the token account of the first entry,
    [data["result"]["value"][0]]. *)
Definition first_account (data : json) : result json :=
  match Py.getitem data "result" with
  | Raise e => Raise e
  | Ok r =>
      match Py.getitem r "value" with
      | Raise e => Raise e
      | Ok v => Py.getitem0 v
      end
  end.

(** [x["account"]["data"]["parsed"]["info"]["tokenAmount"][k]] *)
Definition token_amount_field (x : json) (k : string) : result json :=
  match Py.getitem x "account" with
  | Raise e => Raise e
  | Ok a =>
  match Py.getitem a "data" with
  | Raise e => Raise e
  | Ok d =>
  match Py.getitem d "parsed" with
  | Raise e => Raise e
  | Ok p =>
  match Py.getitem p "info" with
  | Raise e => Raise e
  | Ok i =>
  match Py.getitem i "tokenAmount" with
  | Raise e => Raise e
  | Ok t => Py.getitem t k
  end end end end end.

(** Lines 206-306. *)
Definition sell_tokens (contract_address : string) (amount : pynum)
           (private_key : string) : M json :=
  try_except
    (private_key_bytes <- lift (b58decode private_key);;
     sender_keypair <- lift (Keypair_from_bytes private_key_bytes);;
     let sender_public_key := pubkey_str sender_keypair in
     response <- requests_post HELIUS_URL
                   (jsonrpc "getTokenAccountsByOwner"
                      [JStr sender_public_key;
                       JDict [("mint", JStr contract_address)];
                       JDict [("encoding", JStr "jsonParsed")]])
                   [];;
     data <- response_json response;;
     has_result <- lift (Py.contains "result" data);;
     (if negb has_result then raise (PyException [FLit "No token account found"])
      else
        r <- lift (Py.getitem data "result");;
        v <- lift (Py.getitem r "value");;
        raise_if (negb (Py.truthy v))
          (PyException [FLit "No token account found"]));;
     acc <- lift (first_account data);;
     token_account <- lift (Py.getitem acc "pubkey");;
     acc1 <- lift (first_account data);;
     token_decimals <- lift (token_amount_field acc1 "decimals");;
     acc2 <- lift (first_account data);;
     raw_amount <- lift (token_amount_field acc2 "amount");;
     raw_float <- lift (float_of_json raw_amount);;
     scale <- lift (pow10 token_decimals);;
     current_balance <- lift (Py.float_truediv raw_float scale);;
     let amount := resolve_amount amount current_balance in
     raise_if (Py.le amount (PInt 0))
       (PyException [FLit "No tokens to sell"]);;
     print [Lit "Selling "; Fmt (FNum amount); Lit " tokens..."];;
     sol_balance <- get_sol_balance sender_public_key;;
     raise_if (Py.lt sol_balance (PFloat Float64.lit_0_002))
       (PyException
          [FLit "Insufficient SOL balance for transaction fees. You have ";
           FNum sol_balance; FLit " SOL"]);;
     scale' <- lift (pow10 token_decimals);;
     scaled <- lift (Py.mul amount scale');;
     units <- lift (Py.int scaled);;
     let amount_in_smallest_unit := Py.str_of_int units in
     quote_response <- get_quote contract_address SOL_ADDRESS
                         amount_in_smallest_unit;;
     let swap_data := create_swap_data quote_response sender_public_key in
     swap_response <- requests_post JUPITER_SWAP_URL swap_data [];;
     raise_if (negb (status_code swap_response =? 200))
       (PyException [FLit "Swap transaction failed: ";
                     FLit (text swap_response)]);;
     swap_json <- response_json swap_response;;
     swap_instruction <- lift (Py.getitem swap_json "swapTransaction");;
     encoded_tx <- lift (sign_transaction sender_keypair swap_instruction);;
     tx_signature <- send_transaction encoded_tx;;
     print [Lit "Transaction submitted. Waiting for confirmation..."];;
     confirmed <- wait_for_transaction_confirmation tx_signature
                    default_max_retries;;
     if (confirmed : bool) then
       print [Lit "Transaction confirmed! View details: https://solscan.io/tx/";
              Fmt (FJson tx_signature)];;
       sleep 2;;
       verify_response <- requests_post HELIUS_URL
                            (jsonrpc "getTokenAccountBalance" [token_account])
                            [];;
       verify_json <- response_json verify_response;;
       has <- lift (Py.contains "result" verify_json);;
       (if (has : bool) then
          verify_json' <- response_json verify_response;;
          vr <- lift (Py.getitem verify_json' "result");;
          vv <- lift (Py.getitem vr "value");;
          va <- lift (Py.getitem vv "amount");;
          vf <- lift (float_of_json va);;
          scale'' <- lift (pow10 token_decimals);;
          new_balance <- lift (Py.float_truediv vf scale'');;
          if Py.lt (PFloat new_balance) (PFloat current_balance) then
            print [Lit "Balance reduced from ";
                   Fmt (FNum (PFloat current_balance)); Lit " to ";
                   Fmt (FNum (PFloat new_balance))]
          else
            print [Lit "Warning: Token balance did not decrease as expected"]
        else ret tt);;
       ret tx_signature
     else
       print [Lit "Transaction failed or timed out!"];;
       ret JNull)
    (fun e =>
       print [Lit "Error: "; StrExn e];;
       ret JNull).

(** [except ValueError] also catches its subclass [JSONDecodeError]. *)
Definition is_ValueError (e : exn) : bool :=
  match e with
  | ValueError | JSONDecodeError => true
  | _ => false
  end.

(** The prompt of [input(prompt)], written to the same output as the
    printed lines. *)
Definition write_prompt (p : string) : M unit := print [Lit p].

(** [choice not in ["1", "2"]] *)
Definition not_buy_or_sell (choice : string) : bool :=
  negb (String.eqb choice "1" || String.eqb choice "2").

(** [if not tx_sig: print("Transaction failed")] *)
Definition report_failure (tx_sig : json) : M unit :=
  if negb (Py.truthy tx_sig) then print [Lit "Transaction failed"] else ret tt.

(** [except ValueError: print("Invalid amount")] *)
Definition invalid_amount (e : exn) : M unit :=
  if is_ValueError e then print [Lit "Invalid amount"] else raise e.

(** The [while True] loop of lines 312-347; [inputs] are the lines that
    [input] will read, in order.  When no line is left, [input] raises
    [EOFError], which nothing in [main] catches. *)
Fixpoint main_loop (private_key : string) (inputs : list string)
  : M unit :=
  print [Lit (String "010" "1. Buy tokens")];;
  print [Lit "2. Sell tokens"];;
  print [Lit "3. Exit"];;
  write_prompt "Enter choice (1-3): ";;
  match inputs with
  | [] => raise EOFError
  | choice :: inputs1 =>
      if String.eqb choice "3" then
        print [Lit "Thank you for using Solana Token Trader!"];;
        ret tt
      else if not_buy_or_sell choice then
        print [Lit "Invalid choice"];;
        main_loop private_key inputs1
      else
        write_prompt "Enter token contract address: ";;
        match inputs1 with
        | [] => raise EOFError
        | contract_address :: inputs2 =>
            if String.eqb choice "1" then
              write_prompt "Enter SOL amount: ";;
              match inputs2 with
              | [] => raise EOFError
              | amount_input :: inputs3 =>
                  try_except
                    (amount <- lift (float_of_str amount_input);;
                     print [Lit (String "010" "Initiating buy of tokens for ");
                            Fmt (FNum (PFloat amount)); Lit " SOL..."];;
                     tx_sig <- buy_tokens contract_address amount private_key;;
                     report_failure tx_sig)
                    invalid_amount;;
                  main_loop private_key inputs3
              end
            else
              write_prompt "Enter token amount (or press Enter for all): ";;
              match inputs2 with
              | [] => raise EOFError
              | amount_input :: inputs3 =>
                  try_except
                    (amount <- (if String.eqb amount_input ""
                                then ret (PInt 0)
                                else f <- lift (float_of_str amount_input);;
                                     ret (PFloat f));;
                     print [Lit (String "010" "Initiating sell of tokens...")];;
                     tx_sig <- sell_tokens contract_address amount private_key;;
                     report_failure tx_sig)
                    invalid_amount;;
                  main_loop private_key inputs3
              end
        end
  end.

(** Lines 308-347. *)
Definition main (inputs : list string) : M unit :=
  print [Lit "Welcome to Solana Token Trader!"];;
  write_prompt "Enter your private key: ";;
  match inputs with
  | [] => raise EOFError
  | private_key :: inputs1 => main_loop private_key inputs1
  end.

End Program.
End SolSwap.

(* ================================================================= *)
(** ** Vocabulary of the specification *)

(** The requests of a trace, oldest first. *)
Fixpoint requests_of (tr : list event) : list request :=
  match tr with
  | [] => []
  | EvRequest r :: rest => r :: requests_of rest
  | _ :: rest => requests_of rest
  end.

Definition is_log (ev : event) : bool :=
  match ev with EvLog _ _ => true | _ => false end.

Definition is_sleep1 (ev : event) : bool :=
  match ev with EvSleep 1 => true | _ => false end.

Definition logs_of (tr : list event) : list event := filter is_log tr.

(** The number of one-second sleeps of a trace. *)
Definition sleeps_of (tr : list event) : nat := List.length (filter is_sleep1 tr).

(** A computation only adds to the trace. *)
Definition extends {A} (m : M A) : Prop :=
  forall st, exists suffix, trace (snd (m st)) = trace st ++ suffix.

(** A computation returns, whatever the state: no exception leaves
    it. *)
Definition never_raises {A} (m : M A) : Prop :=
  forall st, exists a, fst (m st) = Ok a.

(** The state after one request and the events [more] that followed it. *)
Definition after_request (st : state) (r : request) (more : list event) : state :=
  mkState (S (sent st)) (trace st ++ EvRequest r :: more).

Definition initial : state := mkState 0 [].

Module Spec.
Import SolSwap.

Definition balance_request (public_key : string) : request :=
  POST HELIUS_URL (jsonrpc "getBalance" [JStr public_key]) [].

Definition poll_request (signature : json) : request :=
  POST HELIUS_URL
    (jsonrpc "getTransaction"
       [signature; JDict [("maxSupportedTransactionVersion", JInt 0)]]) [].

Definition quote_request (input_mint output_mint amount : string) : request :=
  GET (JUPITER_QUOTE_URL ++ "?inputMint=" ++ input_mint
         ++ "&outputMint=" ++ output_mint
         ++ "&amount=" ++ amount
         ++ "&restrictIntermediateTokens=true")%string.

Definition swap_request (quote_response : json) (public_key : string) : request :=
  POST JUPITER_SWAP_URL (create_swap_data quote_response public_key) [].

Definition relay_request (encoded_tx : string) : request :=
  POST JUPITER_SEND_URL (JDict [("transaction", JStr encoded_tx)]) json_headers.

Definition fallback_request (encoded_tx : string) : request :=
  POST HELIUS_URL (rpc_request encoded_tx) json_headers.

Definition token_accounts_request (public_key contract_address : string) : request :=
  POST HELIUS_URL
    (jsonrpc "getTokenAccountsByOwner"
       [JStr public_key;
        JDict [("mint", JStr contract_address)];
        JDict [("encoding", JStr "jsonParsed")]]) [].

(** The error field that line 63 reads in a result: [meta.err], [null]
    when [meta] or [err] is absent.  There is one to read when the
    result is a non-empty object whose [meta], when present, is an
    object; there is none ([None]) in an empty value, and none either in
    a result that line 63 cannot read: a non-empty value that is not an
    object, or an object whose [meta] is present and is not an object,
    such as [null]. *)
Definition error_field (result : json) : option json :=
  match result with
  | JDict [] => None
  | JDict rkv =>
      match Py.lookup "meta" rkv with
      | None => Some JNull
      | Some (JDict mkv) =>
          Some (match Py.lookup "err" mkv with Some e => e | None => JNull end)
      | Some _ => None
      end
  | _ => None
  end.

(** The error field of the transaction result that a poll returns and
    the program reads: the answer has status 200 and the [result] member
    of its body has an error field to read.  [None] stands both for an
    answer without result and for one whose result cannot be read. *)
Definition transaction_result (a : result response) : option json :=
  match a with
  | Ok resp =>
      if status_code resp =? 200 then
        match json_body resp with
        | Some (JDict kv) =>
            match Py.lookup "result" kv with
            | Some r => error_field r
            | None => None
            end
        | _ => None
        end
      else None
  | Raise _ => None
  end.

(** A poll has no result yet: the request raised, or the status is not
    200, or the body cannot be decoded or is not an object, or its
    [result] member is absent or counts as false ([null], an empty
    object).  An answer whose [result] is present and cannot be read is
    neither this nor a [transaction_result]. *)
Definition no_result_yet (a : result response) : bool :=
  match a with
  | Raise _ => true
  | Ok resp =>
      if status_code resp =? 200 then
        match json_body resp with
        | Some (JDict kv) =>
            match Py.lookup "result" kv with
            | Some r => negb (Py.truthy r)
            | None => true
            end
        | _ => true
        end
      else true
  end.

Definition poll_warning (e : exn) : event :=
  EvLog WARNING [Lit "Error checking transaction status: "; StrExn e].

Definition balance_log (e : exn) : event :=
  EvLog ERROR [Lit "Failed to get SOL balance: "; StrExn e].

Definition send_log (e : exn) : event :=
  EvLog ERROR [Lit "Failed to send transaction: "; StrExn e].

Definition quote_log (e : exn) : event :=
  EvLog ERROR [Lit "Quote failed: "; StrExn e].

(** What the top-level handler of [buy_tokens] and [sell_tokens]
    prints. *)
Definition error_print (e : exn) : event :=
  EvPrint [Lit "Error: "; StrExn e].

Definition insufficient_sol (sol_balance : pynum) (amount : float) : exn :=
  PyException [FLit "Insufficient SOL balance. You have ";
               FNum sol_balance;
               FLit " SOL but trying to spend ";
               FNum (PFloat amount); FLit " SOL"].

Definition no_tokens_to_sell : exn := PyException [FLit "No tokens to sell"].

Definition selling_print (amount : pynum) : event :=
  EvPrint [Lit "Selling "; Fmt (FNum amount); Lit " tokens..."].

Definition submitted_print : event :=
  EvPrint [Lit "Transaction submitted. Waiting for confirmation..."].

(** The outcome of the fallback, once the relay has answered with a
    status other than 200. *)
Definition fallback_outcome (a : result response) : result json :=
  match a with
  | Raise e => Raise e
  | Ok resp =>
      if status_code resp =? 200 then
        match json_body resp with
        | None => Raise (json_error resp)
        | Some body =>
            match Py.contains "error" body with
            | Raise e => Raise e
            | Ok true => Raise (PyException [FLit "Send failed: "; FJson body])
            | Ok false => Py.getitem body "result"
            end
        end
      else Raise (PyException [FLit "Send failed: "; FLit (text resp)])
  end.


(** Lines 228-233 succeed on [data] and find the token account
    [token_account] with [decimals] and the balance [current_balance]. *)
Definition discovered {builtins : Builtins}
           (data token_account decimals : json)
           (current_balance : float) : Prop :=
  exists r v acc raw rawf scale,
    Py.contains "result" data = Ok true
    /\ Py.getitem data "result" = Ok r
    /\ Py.getitem r "value" = Ok v
    /\ Py.truthy v = true
    /\ Py.getitem0 v = Ok acc
    /\ Py.getitem acc "pubkey" = Ok token_account
    /\ token_amount_field acc "decimals" = Ok decimals
    /\ token_amount_field acc "amount" = Ok raw
    /\ float_of_json raw = Ok rawf
    /\ pow10 decimals = Ok scale
    /\ Py.float_truediv rawf scale = Ok current_balance.

Definition verify_request (token_account : json) : request :=
  POST HELIUS_URL (jsonrpc "getTokenAccountBalance" [token_account]) [].

Definition confirmed_print (tx_signature : json) : event :=
  EvPrint [Lit "Transaction confirmed! View details: https://solscan.io/tx/";
           Fmt (FJson tx_signature)].

Definition unconfirmed_print : event :=
  EvPrint [Lit "Transaction failed or timed out!"].

Definition no_fee_error (sol_balance : pynum) : exn :=
  PyException [FLit "Insufficient SOL balance for transaction fees. You have ";
               FNum sol_balance; FLit " SOL"].

Definition balance_reduced_print (current_balance new_balance : float) : event :=
  EvPrint [Lit "Balance reduced from "; Fmt (FNum (PFloat current_balance));
           Lit " to "; Fmt (FNum (PFloat new_balance))].

Definition balance_warning_print : event :=
  EvPrint [Lit "Warning: Token balance did not decrease as expected"].

(** The state in which [sell_tokens] asks for the new token balance:
    the confirmation has been printed and two seconds have passed. *)
Definition before_verification (st : state) (tx_signature : json) : state :=
  mkState (sent st) (trace st ++ [confirmed_print tx_signature; EvSleep 2]).

(** What the check of lines 292-297 prints, for the answer [a] to the
    balance query, or the exception that leaves it. *)
Definition verification {builtins : Builtins} (a : result response)
           (token_decimals : json) (current_balance : float)
  : result (list event) :=
  match a with
  | Raise e => Raise e
  | Ok resp =>
      match json_body resp with
      | None => Raise (json_error resp)
      | Some vj =>
          match Py.contains "result" vj with
          | Raise e => Raise e
          | Ok false => Ok []
          | Ok true =>
              match Py.getitem vj "result" with
              | Raise e => Raise e
              | Ok vr =>
              match Py.getitem vr "value" with
              | Raise e => Raise e
              | Ok vv =>
              match Py.getitem vv "amount" with
              | Raise e => Raise e
              | Ok va =>
              match float_of_json va with
              | Raise e => Raise e
              | Ok vf =>
              match pow10 token_decimals with
              | Raise e => Raise e
              | Ok factor =>
              match Py.float_truediv vf factor with
              | Raise e => Raise e
              | Ok new_balance =>
                  Ok [if Py.lt (PFloat new_balance) (PFloat current_balance)
                      then balance_reduced_print current_balance new_balance
                      else balance_warning_print]
              end end end end end end
          end
      end
  end.

(** What each turn of the loop of [main] writes before it reads the
    choice. *)
Definition menu_events : list event :=
  [EvPrint [Lit (String "010" "1. Buy tokens")];
   EvPrint [Lit "2. Sell tokens"];
   EvPrint [Lit "3. Exit"];
   EvPrint [Lit "Enter choice (1-3): "]].

Definition contract_prompt : event :=
  EvPrint [Lit "Enter token contract address: "].

Definition buy_amount_prompt : event := EvPrint [Lit "Enter SOL amount: "].

Definition sell_amount_prompt : event :=
  EvPrint [Lit "Enter token amount (or press Enter for all): "].

Definition invalid_amount_print : event := EvPrint [Lit "Invalid amount"].

Definition buy_start_print (amount : float) : event :=
  EvPrint [Lit (String "010" "Initiating buy of tokens for ");
           Fmt (FNum (PFloat amount)); Lit " SOL..."].

Definition sell_start_print : event :=
  EvPrint [Lit (String "010" "Initiating sell of tokens...")].

(** What [main] prints after an operation that returned [tx_sig]. *)
Definition report_events (tx_sig : json) : list event :=
  if Py.truthy tx_sig then [] else [EvPrint [Lit "Transaction failed"]].

Definition add_events (st : state) (evs : list event) : state :=
  mkState (sent st) (trace st ++ evs).

(** The amount that [main] hands to [sell_tokens]: the [int] 0 for an
    empty line, the parsed float otherwise. *)
Definition sell_amount_of {builtins : Builtins} (s : string) : result pynum :=
  if String.eqb s "" then Ok (PInt 0)
  else match float_of_str s with
       | Ok f => Ok (PFloat f)
       | Raise e => Raise e
       end.

End Spec.

(** The serialised form of a transaction, in the terms of [solders]: a
    transaction is written as its signatures followed by its message,
    and the message is written by [to_bytes_versioned]
    ([solders.message.to_bytes_versioned]).  [is_versioned] tells a
    version-0 message ([MessageV0]) from a legacy one ([Message]). *)
Class WireFormat (libs : Libraries) := {
  is_versioned : message -> bool;
  to_bytes_versioned : message -> bytes;
  signatures_bytes : list signature -> bytes
}.

(** What [base64] and [solders] do: decoding inverts encoding, parsing
    inverts serialisation, [populate] stores the message and the
    signatures it is given, a transaction is laid out as its signatures
    and its message, and the written form of a version-0 message starts
    with the version byte [0x80], which [bytes(msg)] leaves out; for a
    legacy message the two are the same bytes. *)
Class LibraryLaws (libs : Libraries) (wire : WireFormat libs) : Prop := {
  b64decode_b64encode : forall b, b64decode (b64encode b) = Ok b;
  from_bytes_to_bytes :
    forall t, VersionedTransaction_from_bytes (transaction_bytes t) = Ok t;
  message_populate :
    forall m sigs, tx_message (VersionedTransaction_populate m sigs) = m;
  signatures_populate :
    forall m sigs, tx_signatures (VersionedTransaction_populate m sigs) = sigs;
  transaction_layout :
    forall t,
      transaction_bytes t
      = signatures_bytes (tx_signatures t) ++ to_bytes_versioned (tx_message t);
  versioned_message_bytes :
    forall m,
      to_bytes_versioned m
      = if is_versioned m then Byte.x80 :: message_bytes m else message_bytes m
}.

(* ================================================================= *)
(** ** Concrete worlds and libraries, to run the program on *)

Module Example.
Import SolSwap.

(** The [n]-th request gets the [n]-th answer of the script; past the
    script the connection fails. *)
Definition scripted (answers : list (result response)) : Network :=
  {| answer n _ := nth n answers (Raise (RequestException "connection refused")) |}.

(** Every request gets the same answer. *)
Definition always (a : result response) : Network :=
  {| answer _ _ := a |}.

Definition json_response (status : Z) (body : json) : response :=
  mkResponse status "" (Some body).

Definition rpc_result (r : json) : json :=
  JDict [("jsonrpc", JStr "2.0"); ("id", JInt 1); ("result", r)].

Definition digit_of (a : ascii) : option Z :=
  let n := Z.of_nat (nat_of_ascii a) in
  if (48 <=? n) && (n <=? 57) then Some (n - 48) else None.

Fixpoint digits (s : string) (acc : Z) : option Z :=
  match s with
  | EmptyString => Some acc
  | String a rest =>
      match digit_of a with
      | Some d => digits rest (10 * acc + d)
      | None => None
      end
  end.

(** [float(s)] on strings of decimal digits; [**] on floats is left
    out. *)
Definition builtins : Builtins := {|
  float_of_str s :=
    match s with
    | EmptyString => Raise ValueError
    | _ => match digits s 0 with
           | Some z => Py.float_of_int z
           | None => Raise ValueError
           end
    end;
  float_pow _ _ := Raise OverflowError
|}.

Definition checksum (b : bytes) : Byte.byte :=
  match Byte.of_N (fold_right (fun x acc => (Byte.to_N x + acc) mod 256)%N 0%N b) with
  | Some c => c
  | None => Byte.x00
  end.

(** A small wire format: each signature is one byte, written after a
    [01] marker; a [00] byte ends the signatures and the message
    follows.  The messages of this format are legacy messages: they are
    written without a version byte. *)
Definition write_signatures (sigs : list Byte.byte) : bytes :=
  flat_map (fun s => [Byte.x01; s]) sigs ++ [Byte.x00].

Definition serialize (t : list Byte.byte * bytes) : bytes :=
  flat_map (fun s => [Byte.x01; s]) (fst t) ++ Byte.x00 :: snd t.

Fixpoint parse (b : bytes) : result (list Byte.byte * bytes) :=
  match b with
  | Byte.x00 :: msg => Ok ([], msg)
  | Byte.x01 :: s :: rest =>
      match parse rest with
      | Ok (sigs, msg) => Ok (s :: sigs, msg)
      | Raise e => Raise e
      end
  | _ => Raise (LibraryError "malformed transaction")
  end.

(** Stand-ins for [base58], [base64] and [solders]: a key is its secret
    bytes, a signature is a one-byte checksum of key and message, and
    the text encodings carry one byte per character. *)
Definition libraries : Libraries := {|
  keypair := bytes;
  message := bytes;
  transaction := list Byte.byte * bytes;
  signature := Byte.byte;
  b58decode s := Ok (list_byte_of_string s);
  Keypair_from_bytes b :=
    match b with
    | [] => Raise (LibraryError "empty key")
    | _ => Ok b
    end;
  pubkey_str kp := string_of_list_byte (rev kp);
  sign_message kp msg := checksum (kp ++ msg);
  b64decode s := Ok (list_byte_of_string s);
  b64encode b := string_of_list_byte b;
  VersionedTransaction_from_bytes := parse;
  VersionedTransaction_populate m sigs := (sigs, m);
  tx_message t := snd t;
  tx_signatures t := fst t;
  message_bytes m := m;
  transaction_bytes := serialize
|}.

Definition wire : WireFormat libraries :=
  @Build_WireFormat libraries
    (fun _ => false) (fun m : bytes => m) write_signatures.

(** The same format with version-0 messages, as the aggregator returns
    them when [useVersionedTransaction] is set: the message is written
    after the version byte [80]. *)
Definition serialize_v0 (t : list Byte.byte * bytes) : bytes :=
  flat_map (fun s => [Byte.x01; s]) (fst t) ++ Byte.x00 :: Byte.x80 :: snd t.

Fixpoint parse_v0 (b : bytes) : result (list Byte.byte * bytes) :=
  match b with
  | Byte.x00 :: Byte.x80 :: msg => Ok ([], msg)
  | Byte.x01 :: s :: rest =>
      match parse_v0 rest with
      | Ok (sigs, msg) => Ok (s :: sigs, msg)
      | Raise e => Raise e
      end
  | _ => Raise (LibraryError "malformed transaction")
  end.

(** [bytes(msg)] of a version-0 message is the message without the
    version byte. *)
Definition libraries_v0 : Libraries := {|
  keypair := bytes;
  message := bytes;
  transaction := list Byte.byte * bytes;
  signature := Byte.byte;
  b58decode s := Ok (list_byte_of_string s);
  Keypair_from_bytes b :=
    match b with
    | [] => Raise (LibraryError "empty key")
    | _ => Ok b
    end;
  pubkey_str kp := string_of_list_byte (rev kp);
  sign_message kp msg := checksum (kp ++ msg);
  b64decode s := Ok (list_byte_of_string s);
  b64encode b := string_of_list_byte b;
  VersionedTransaction_from_bytes := parse_v0;
  VersionedTransaction_populate m sigs := (sigs, m);
  tx_message t := snd t;
  tx_signatures t := fst t;
  message_bytes m := m;
  transaction_bytes := serialize_v0
|}.

Definition wire_v0 : WireFormat libraries_v0 :=
  @Build_WireFormat libraries_v0
    (fun _ => true) (fun m : bytes => Byte.x80 :: m) write_signatures.

(** The wallet of the examples and what the libraries derive from
    it. *)
Definition wallet_key : string := "secret".
Definition wallet_pubkey : string := "terces".
Definition mint : string := "MINT".

Definition balance_answer (lamports : Z) : result response :=
  Ok (json_response 200
        (rpc_result (JDict [("context", JDict [("slot", JInt 1)]);
                            ("value", JInt lamports)]))).

(** A wallet holding 1.5 SOL. *)
Definition balance_world : Network := always (balance_answer 1500000000).

Definition unavailable : result response :=
  Ok (mkResponse 503 "Service Unavailable" None).

Definition timed_out : result response :=
  Raise (RequestException "read timed out").

Definition confirmed_answer : result response :=
  Ok (json_response 200
        (rpc_result (JDict [("slot", JInt 7);
                            ("meta", JDict [("err", JNull); ("fee", JInt 5000)])]))).

(** A transaction that shows up at the fourth poll. *)
Definition poll_world : Network :=
  scripted [unavailable; timed_out;
            Ok (json_response 200 (rpc_result JNull));
            confirmed_answer].

(** An RPC provider that answers 503 to everything. *)
Definition unavailable_world : Network := always unavailable.

(** An unsigned transaction, as the aggregator sends it. *)
Definition unsigned_blob : string :=
  @b64encode libraries
    (@transaction_bytes libraries ([], [Byte.x68; Byte.x69])).

(** A version-0 transaction with the message [68 69], unsigned, as the
    aggregator sends it. *)
Definition unsigned_blob_v0 : string :=
  @b64encode libraries_v0
    (@transaction_bytes libraries_v0 ([], [Byte.x68; Byte.x69])).

(** The same transaction, signed by the wallet of the examples. *)
Definition signed_blob : string :=
  @b64encode libraries
    (@transaction_bytes libraries
       ([checksum (list_byte_of_string wallet_key ++ [Byte.x68; Byte.x69])],
        [Byte.x68; Byte.x69])).

Definition quote_answer : result response :=
  Ok (json_response 200
        (JDict [("inputMint", JStr SOL_ADDRESS); ("outAmount", JStr "12345")])).

Definition swap_answer : result response :=
  Ok (json_response 200 (JDict [("swapTransaction", JStr unsigned_blob)])).

(** A relay that accepts the transaction without naming it. *)
Definition relay_without_txid : result response :=
  Ok (json_response 200 (JDict [("status", JStr "accepted")])).

(** A buy by a wallet holding 1 SOL: balance, quote, swap, relay, then
    the polls. *)
Definition buy_world : Network :=
  scripted [balance_answer 1000000000; quote_answer; swap_answer;
            relay_without_txid; confirmed_answer].

(** No service can be reached. *)
Definition offline_world : Network := always timed_out.

(** The relay answers 502 and the RPC provider accepts the
    transaction. *)
Definition fallback_world : Network :=
  scripted [Ok (mkResponse 502 "Bad Gateway" None);
            Ok (json_response 200 (rpc_result (JStr "5sig")))].

(** The relay cannot be reached; the RPC provider would accept the
    transaction. *)
Definition relay_down_world : Network :=
  scripted [timed_out; Ok (json_response 200 (rpc_result (JStr "5sig")))].

(** A wallet holding 100 tokens of a mint with 6 decimals. *)
Definition token_accounts_answer : result response :=
  Ok (json_response 200
        (rpc_result
           (JDict [("context", JDict [("slot", JInt 1)]);
                   ("value",
                    JList [JDict [("pubkey", JStr "TokenAccount");
                                  ("account",
                                   JDict [("data",
                                     JDict [("parsed",
                                       JDict [("info",
                                         JDict [("tokenAmount",
                                           JDict [("amount", JStr "100000000");
                                                  ("decimals", JInt 6)])])])])])]])]))).

(** A sale: token accounts, balance, quote, swap, relay, then the
    polls. *)
Definition sell_world : Network :=
  scripted [token_accounts_answer; balance_answer 1000000000; quote_answer;
            swap_answer; relay_without_txid; confirmed_answer].

(** A relay that names the transaction. *)
Definition relay_answer : result response :=
  Ok (json_response 200 (JDict [("txid", JStr "5sig")])).

(** A transaction that landed and failed on chain. *)
Definition failed_answer : result response :=
  Ok (json_response 200
        (rpc_result
           (JDict [("slot", JInt 7);
                   ("meta",
                    JDict [("err", JDict [("InstructionError", JInt 0)])])]))).

(** A buy that goes through: balance, quote, swap, relay, one poll. *)
Definition buy_confirmed_world : Network :=
  scripted [balance_answer 1000000000; quote_answer; swap_answer;
            relay_answer; confirmed_answer].

(** A buy whose transaction fails on chain. *)
Definition buy_failed_world : Network :=
  scripted [balance_answer 1000000000; quote_answer; swap_answer;
            relay_answer; failed_answer].

(** The token balance after the sale. *)
Definition verify_answer : result response :=
  Ok (json_response 200
        (rpc_result (JDict [("context", JDict [("slot", JInt 8)]);
                            ("value", JDict [("amount", JStr "0");
                                             ("decimals", JInt 6)])]))).

(** A sale that goes through and is verified. *)
Definition sell_confirmed_world : Network :=
  scripted [token_accounts_answer; balance_answer 1000000000; quote_answer;
            swap_answer; relay_answer; confirmed_answer; verify_answer].

(** A sale that goes through, after which the RPC provider cannot be
    reached. *)
Definition sell_unverified_world : Network :=
  scripted [token_accounts_answer; balance_answer 1000000000; quote_answer;
            swap_answer; relay_answer; confirmed_answer].

(** The aggregator refuses to build the swap. *)
Definition swap_refused_world : Network :=
  scripted [balance_answer 1000000000; quote_answer;
            Ok (mkResponse 400 "Bad Request" None)].

(** A wallet without an account for the mint. *)
Definition no_account_world : Network :=
  always (Ok (json_response 200
                (rpc_result (JDict [("context", JDict [("slot", JInt 1)]);
                                    ("value", JList [])])))).

(** A wallet holding tokens and 0.001 SOL. *)
Definition no_fee_world : Network :=
  scripted [token_accounts_answer; balance_answer 1000000].

(** [float(s)] on strings of decimal digits, with [inf] past the range
    of binary64 and [ValueError] on anything else. *)
Definition parsing_builtins : Builtins := {|
  float_of_str s :=
    match s with
    | EmptyString => Raise ValueError
    | _ => match digits s 0 with
           | Some z => Ok (Float64.of_Z z)
           | None => Raise ValueError
           end
    end;
  float_pow _ _ := Raise OverflowError
|}.

(** The aggregator has no quote for the pair. *)
Definition quote_refused_world : Network :=
  scripted [balance_answer 1000000000; Ok (mkResponse 404 "Not Found" None)].

End Example.

(* ================================================================= *)
(** ** Running computations: equations of the monad *)

Lemma run_bind_ok {A B} (m : M A) (k : A -> M B) st a st' :
  m st = (Ok a, st') -> bind m k st = k a st'.
Proof. intros H. unfold bind. now rewrite H. Qed.

Lemma run_bind_raise {A B} (m : M A) (k : A -> M B) st e st' :
  m st = (Raise e, st') -> bind m k st = (Raise e, st').
Proof. intros H. unfold bind. now rewrite H. Qed.

Lemma run_try_ok {A} (m : M A) (h : exn -> M A) st a st' :
  m st = (Ok a, st') -> try_except m h st = (Ok a, st').
Proof. intros H. unfold try_except. now rewrite H. Qed.

Lemma run_try_raise {A} (m : M A) (h : exn -> M A) st e st' :
  m st = (Raise e, st') -> try_except m h st = h e st'.
Proof. intros H. unfold try_except. now rewrite H. Qed.

Lemma run_emit ev st :
  emit ev st = (Ok tt, mkState (sent st) (trace st ++ [ev])).
Proof. reflexivity. Qed.

Lemma run_send {net : Network} r st :
  send r st = (answer (sent st) r, mkState (S (sent st)) (trace st ++ [EvRequest r])).
Proof. reflexivity. Qed.

(** Unfolds the monad down to the states. *)
Ltac run_monad :=
  unfold try_except, bind, requests_post, requests_get, send, lift, log, print,
    sleep, emit, response_json, raise_for_status, SolSwap.raise_if, ret, raise;
  cbn.

Ltac close_run :=
  repeat eexists; rewrite <- ?app_assoc; cbn; reflexivity.

Lemma requests_of_app tr1 tr2 :
  requests_of (tr1 ++ tr2) = requests_of tr1 ++ requests_of tr2.
Proof.
  induction tr1 as [|ev tr1 IH]; [reflexivity|].
  destruct ev; cbn; now rewrite ?IH.
Qed.

Lemma sleeps_of_app tr1 tr2 :
  sleeps_of (tr1 ++ tr2) = (sleeps_of tr1 + sleeps_of tr2)%nat.
Proof. unfold sleeps_of. now rewrite filter_app, List.length_app. Qed.

Lemma logs_of_app tr1 tr2 : logs_of (tr1 ++ tr2) = logs_of tr1 ++ logs_of tr2.
Proof. apply filter_app. Qed.

Lemma after_request_facts st r logs :
  sleeps_of logs = 0%nat -> requests_of logs = [] ->
  sent (after_request st r logs) = S (sent st)
  /\ sleeps_of (trace (after_request st r logs)) = sleeps_of (trace st)
  /\ requests_of (trace (after_request st r logs)) = requests_of (trace st) ++ [r].
Proof.
  intros Hs Hr. unfold after_request. cbn [sent trace].
  change (EvRequest r :: logs) with ([EvRequest r] ++ logs).
  rewrite !sleeps_of_app, !requests_of_app, Hs, Hr.
  cbn. repeat split. lia.
Qed.

Lemma extends_ret {A} (a : A) : extends (ret a).
Proof. intros st. exists []. cbn. now rewrite app_nil_r. Qed.

Lemma extends_raise {A} e : extends (@raise A e).
Proof. intros st. exists []. cbn. now rewrite app_nil_r. Qed.

Lemma extends_lift {A} (r : result A) : extends (lift r).
Proof. intros st. exists []. cbn. now rewrite app_nil_r. Qed.

Lemma extends_emit ev : extends (emit ev).
Proof. intros st. now exists [ev]. Qed.

Lemma extends_send {net : Network} r : extends (send r).
Proof. intros st. now exists [EvRequest r]. Qed.

Lemma extends_bind {A B} (m : M A) (k : A -> M B) :
  extends m -> (forall a, extends (k a)) -> extends (bind m k).
Proof.
  intros Hm Hk st. unfold bind.
  destruct (Hm st) as [s1 H1].
  destruct (m st) as [[a|e] st1]; cbn in *.
  - destruct (Hk a st1) as [s2 H2]. exists (s1 ++ s2).
    now rewrite H2, H1, app_assoc.
  - now exists s1.
Qed.

Lemma extends_try {A} (m : M A) (h : exn -> M A) :
  extends m -> (forall e, extends (h e)) -> extends (try_except m h).
Proof.
  intros Hm Hh st. unfold try_except.
  destruct (Hm st) as [s1 H1].
  destruct (m st) as [[a|e] st1]; cbn in *.
  - now exists s1.
  - destruct (Hh e st1) as [s2 H2]. exists (s1 ++ s2).
    now rewrite H2, H1, app_assoc.
Qed.

Lemma extends_response_json r : extends (response_json r).
Proof.
  unfold response_json. destruct (json_body r);
    [apply extends_ret | apply extends_raise].
Qed.

Lemma extends_raise_for_status r : extends (raise_for_status r).
Proof.
  unfold raise_for_status.
  destruct ((400 <=? status_code r) && (status_code r <? 600));
    [apply extends_raise | apply extends_ret].
Qed.

Lemma extends_raise_if c e : extends (SolSwap.raise_if c e).
Proof. destruct c; [apply extends_raise | apply extends_ret]. Qed.

Ltac extends_tac :=
  repeat first
    [ progress intros
    | apply extends_ret
    | apply extends_raise
    | apply extends_lift
    | apply extends_emit
    | apply extends_send
    | apply extends_response_json
    | apply extends_raise_for_status
    | apply extends_raise_if
    | apply extends_bind
    | apply extends_try
    | match goal with
      | |- extends (if ?c then _ else _) => destruct c
      | |- extends (match ?x with _ => _ end) => destruct x
      end ].

(** Stepping through [try: x = m; ...  except Exception as e: ...]. *)
Lemma try_bind_ok {A B} (m : M A) (k : A -> M B) (h : exn -> M B) st a st' :
  m st = (Ok a, st') ->
  try_except (bind m k) h st = try_except (k a) h st'.
Proof. intros H. unfold try_except, bind. now rewrite H. Qed.

Lemma try_bind_raise {A B} (m : M A) (k : A -> M B) (h : exn -> M B) st e st' :
  m st = (Raise e, st') ->
  try_except (bind m k) h st = h e st'.
Proof. intros H. unfold try_except, bind. now rewrite H. Qed.

Lemma run_lift {A} (r : result A) st : lift r st = (r, st).
Proof. reflexivity. Qed.

Lemma run_raise_if_false c e st :
  c = false -> SolSwap.raise_if c e st = (Ok tt, st).
Proof. now intros ->. Qed.

Lemma run_raise_if_true c e st :
  c = true -> SolSwap.raise_if c e st = (Raise e, st).
Proof. now intros ->. Qed.

Ltac step_with H := erewrite try_bind_ok by exact H.
Ltac step_lift H := erewrite try_bind_ok by (rewrite run_lift, H; reflexivity).

(* ================================================================= *)
(** ** The balance checker and the confirmation poller, step by step *)

Section Steps.
Context {net : Network} {builtins : Builtins}.
Import SolSwap Spec.

Lemma get_sol_balance_run pk st :
  exists v logs,
    get_sol_balance pk st
    = (Ok v, mkState (S (sent st))
               (trace st ++ EvRequest (balance_request pk) :: logs))
    /\ requests_of logs = [] /\ sleeps_of logs = 0%nat.
Proof.
  unfold get_sol_balance. run_monad.
  fold (balance_request pk).
  destruct (answer (sent st) (balance_request pk)) as [resp|e]; cbn;
    [|close_run].
  destruct (status_code resp =? 200); cbn; [|close_run].
  destruct (json_body resp) as [body|]; cbn; [|close_run].
  destruct (Py.contains "result" body) as [[|]|]; cbn; [|close_run..].
  destruct (Py.getitem body "result") as [r|]; cbn; [|close_run].
  destruct (Py.getitem r "value") as [v|]; cbn; [|close_run].
  destruct (float_of_json v) as [f|]; cbn; [|close_run].
  close_run.
Qed.

Lemma get_sol_balance_success pk st resp body r z :
  answer (sent st) (balance_request pk) = Ok resp ->
  status_code resp = 200 ->
  json_body resp = Some body ->
  Py.getitem body "result" = Ok r ->
  Py.getitem r "value" = Ok (JInt z) ->
  Float64.is_infinite (Float64.of_Z z) = false ->
  get_sol_balance pk st
  = (Ok (PFloat (Float64.div (Float64.of_Z z) Float64.lit_1e9)),
     mkState (S (sent st)) (trace st ++ [EvRequest (balance_request pk)])).
Proof.
  intros Ha Hs Hb Hr Hv Hfin.
  unfold get_sol_balance. run_monad. fold (balance_request pk).
  rewrite Ha; cbn. rewrite Hs; cbn. rewrite Hb; cbn.
  assert (Hc : Py.contains "result" body = Ok true).
  { destruct body; cbn in Hr |- *; try discriminate.
    now destruct (Py.lookup "result" kv). }
  rewrite Hc; cbn. rewrite Hr; cbn. rewrite Hv; cbn.
  unfold Py.float_of_int. rewrite Hfin. cbn. reflexivity.
Qed.
Lemma error_field_get r err :
  error_field r = Some err ->
  Py.truthy r = true /\
  exists meta,
    Py.get_default r "meta" (JDict []) = Ok meta /\
    Py.get meta "err" = Ok err /\
    (Py.is_None err = false ->
     Py.getitem r "meta" = Ok meta /\ Py.getitem meta "err" = Ok err).
Proof.
  destruct r as [| | | | | |rkv]; try discriminate.
  destruct rkv as [|p rkv']; [discriminate|].
  remember (p :: rkv') as rkv eqn:E.
  intros H. split; [subst; reflexivity|].
  assert (H' : match Py.lookup "meta" rkv with
               | None => Some JNull
               | Some (JDict mkv) =>
                   Some (match Py.lookup "err" mkv with
                         | Some e => e | None => JNull end)
               | Some _ => None
               end = Some err) by (subst; exact H).
  clear H E. cbn.
  destruct (Py.lookup "meta" rkv) as [m|].
  - destruct m as [| | | | | |mkv]; try discriminate.
    injection H' as <-. eexists. split; [reflexivity|]. cbn.
    split; [reflexivity|].
    destruct (Py.lookup "err" mkv); [now split|discriminate].
  - injection H' as <-. eexists. split; [reflexivity|]. cbn.
    split; [reflexivity|discriminate].
Qed.

Lemma poll_once_result sig st err :
  transaction_result (answer (sent st) (poll_request sig)) = Some err ->
  exists logs,
    poll_once sig st
    = (Ok (Some (Py.is_None err)), after_request st (poll_request sig) logs)
    /\ sleeps_of logs = 0%nat /\ requests_of logs = []
    /\ (Py.is_None err = false ->
        logs = [EvLog ERROR [Lit "Transaction failed: "; Fmt (FJson err)]])
    /\ (Py.is_None err = true -> logs = []).
Proof.
  intros H. unfold poll_once. run_monad. fold (poll_request sig).
  unfold transaction_result in H.
  destruct (answer (sent st) (poll_request sig)) as [resp|e]; [|discriminate].
  cbn. destruct (status_code resp =? 200); [|discriminate].
  destruct (json_body resp) as [[| | | | | |kv]|]; try discriminate.
  cbn. destruct (Py.lookup "result" kv) as [r|]; [|discriminate].
  apply error_field_get in H. destruct H as (Ht & meta & Hm & He & Hfail).
  rewrite Ht, Hm. cbn. rewrite He. cbn.
  destruct (Py.is_None err) eqn:Hn.
  - eexists. repeat split; try reflexivity. discriminate.
  - destruct (Hfail eq_refl) as [-> ->]. cbn.
    eexists. split; [close_run|]. repeat split; try reflexivity; discriminate.
Qed.

Lemma poll_once_none sig st :
  transaction_result (answer (sent st) (poll_request sig)) = None ->
  exists logs,
    poll_once sig st = (Ok None, after_request st (poll_request sig) logs)
    /\ sleeps_of logs = 0%nat /\ requests_of logs = []
    /\ (forall e, answer (sent st) (poll_request sig) = Raise e ->
                  logs = [poll_warning e])
    /\ (forall resp, answer (sent st) (poll_request sig) = Ok resp ->
                     status_code resp <> 200 -> logs = []).
Proof.
  intros H. unfold poll_once. run_monad. fold (poll_request sig).
  unfold transaction_result in H.
  destruct (answer (sent st) (poll_request sig)) as [resp|e]; cbn.
  2:{ eexists. split; [close_run|]. repeat split; try reflexivity.
      - intros e' [= <-]. reflexivity.
      - intros; discriminate. }
  destruct (status_code resp =? 200) eqn:Hs; cbn.
  2:{ eexists; repeat split; try reflexivity; intros; discriminate. }
  assert (Hlog : forall logs : list event,
             (forall e, Ok resp = Raise e -> logs = [poll_warning e]) /\
             (forall resp0, Ok resp = Ok resp0 ->
                            status_code resp0 <> 200 -> logs = [])).
  { intros logs. split; [intros; discriminate|].
    intros resp0 [= <-] Hne. apply Z.eqb_eq in Hs. contradiction. }
  destruct (json_body resp) as [body|]; cbn.
  2:{ eexists. split; [close_run|]. repeat split; try reflexivity; apply Hlog. }
  destruct body as [| | | | | |kv]; cbn;
    try (eexists; split; [close_run|]; repeat split; try reflexivity; apply Hlog).
  destruct (Py.lookup "result" kv) as [r|]; cbn.
  2:{ eexists; repeat split; try reflexivity; apply Hlog. }
  destruct (Py.truthy r) eqn:Ht.
  2:{ eexists; repeat split; try reflexivity; apply Hlog. }
  destruct r as [| | | | | |rkv]; cbn;
    try (eexists; split; [close_run|]; repeat split; try reflexivity; apply Hlog).
  destruct rkv as [|p rkv']; [discriminate|].
  remember (p :: rkv') as rkv eqn:E.
  assert (H' : match Py.lookup "meta" rkv with
               | None => Some JNull
               | Some (JDict mkv) =>
                   Some (match Py.lookup "err" mkv with
                         | Some e => e | None => JNull end)
               | Some _ => None
               end = None) by (subst; exact H).
  clear H E.
  destruct (Py.lookup "meta" rkv) as [m|]; [|discriminate].
  destruct m; try discriminate; cbn;
    (eexists; split; [close_run|]; repeat split; try reflexivity; apply Hlog).
Qed.

Lemma wait_loop_result k : forall n sig st err,
  (k < n)%nat ->
  (forall i, (i < k)%nat ->
     transaction_result (answer (sent st + i) (poll_request sig)) = None) ->
  transaction_result (answer (sent st + k) (poll_request sig)) = Some err ->
  exists st',
    wait_loop n sig st = (Ok (Py.is_None err), st')
    /\ sent st' = (sent st + S k)%nat
    /\ sleeps_of (trace st') = (sleeps_of (trace st) + k)%nat
    /\ requests_of (trace st')
       = requests_of (trace st) ++ repeat (poll_request sig) (S k).
Proof.
  induction k as [|k IH]; intros n sig st err Hk Hnone Hres.
  - destruct n as [|n]; [lia|]. cbn [wait_loop].
    rewrite Nat.add_0_r in Hres.
    destruct (poll_once_result sig st err Hres) as (logs & Hrun & Hsl & Hreq & _).
    rewrite (run_bind_ok _ _ _ _ _ Hrun). unfold ret. eexists. split; [reflexivity|].
    destruct (after_request_facts st (poll_request sig) logs Hsl Hreq)
      as (-> & -> & ->).
    cbn [repeat]. repeat split; lia.
  - destruct n as [|n]; [lia|]. cbn [wait_loop].
    assert (H0 : transaction_result (answer (sent st) (poll_request sig)) = None).
    { specialize (Hnone 0%nat). rewrite Nat.add_0_r in Hnone. apply Hnone. lia. }
    destruct (poll_once_none sig st H0) as (logs & Hrun & Hsl & Hreq & _).
    rewrite (run_bind_ok _ _ _ _ _ Hrun).
    unfold sleep. rewrite (run_bind_ok _ _ _ _ _ (run_emit _ _)).
    destruct (after_request_facts st (poll_request sig) logs Hsl Hreq)
      as (Es & Esl & Erq).
    set (st1 := mkState _ _).
    assert (Es1 : sent st1 = S (sent st)) by exact Es.
    assert (Esl1 : sleeps_of (trace st1) = S (sleeps_of (trace st))).
    { subst st1. cbn [trace]. rewrite sleeps_of_app, Esl. cbn. lia. }
    assert (Erq1 : requests_of (trace st1)
                   = requests_of (trace st) ++ [poll_request sig]).
    { subst st1. cbn [trace]. rewrite requests_of_app, Erq. cbn.
      now rewrite app_nil_r. }
    clearbody st1.
    destruct (IH n sig st1 err) as (st' & Hrun' & Hsent & Hsleeps & Hreqs).
    + lia.
    + intros i Hi. rewrite Es1.
      replace (S (sent st) + i)%nat with (sent st + S i)%nat by lia.
      apply Hnone. lia.
    + rewrite Es1.
      replace (S (sent st) + k)%nat with (sent st + S k)%nat by lia.
      exact Hres.
    + exists st'. split; [exact Hrun'|].
      rewrite Hsent, Hsleeps, Hreqs, Es1, Esl1, Erq1, <- app_assoc.
      repeat split; lia.
Qed.

Lemma wait_loop_timeout n : forall sig st,
  (forall i, (i < n)%nat ->
     transaction_result (answer (sent st + i) (poll_request sig)) = None) ->
  exists st',
    wait_loop n sig st = (Ok false, st')
    /\ sent st' = (sent st + n)%nat
    /\ sleeps_of (trace st') = (sleeps_of (trace st) + n)%nat
    /\ requests_of (trace st')
       = requests_of (trace st) ++ repeat (poll_request sig) n.
Proof.
  induction n as [|n IH]; intros sig st Hnone.
  - exists st. cbn [wait_loop repeat]. unfold ret. rewrite app_nil_r.
    repeat split; lia.
  - cbn [wait_loop].
    assert (H0 : transaction_result (answer (sent st) (poll_request sig)) = None).
    { specialize (Hnone 0%nat). rewrite Nat.add_0_r in Hnone. apply Hnone. lia. }
    destruct (poll_once_none sig st H0) as (logs & Hrun & Hsl & Hreq & _).
    rewrite (run_bind_ok _ _ _ _ _ Hrun).
    unfold sleep. rewrite (run_bind_ok _ _ _ _ _ (run_emit _ _)).
    destruct (after_request_facts st (poll_request sig) logs Hsl Hreq)
      as (Es & Esl & Erq).
    set (st1 := mkState _ _).
    assert (Es1 : sent st1 = S (sent st)) by exact Es.
    assert (Esl1 : sleeps_of (trace st1) = S (sleeps_of (trace st))).
    { subst st1. cbn [trace]. rewrite sleeps_of_app, Esl. cbn. lia. }
    assert (Erq1 : requests_of (trace st1)
                   = requests_of (trace st) ++ [poll_request sig]).
    { subst st1. cbn [trace]. rewrite requests_of_app, Erq. cbn.
      now rewrite app_nil_r. }
    clearbody st1.
    destruct (IH sig st1) as (st' & Hrun' & Hsent & Hsleeps & Hreqs).
    + intros i Hi. rewrite Es1.
      replace (S (sent st) + i)%nat with (sent st + S i)%nat by lia.
      apply Hnone. lia.
    + exists st'. split; [exact Hrun'|].
      rewrite Hsent, Hsleeps, Hreqs, Es1, Esl1, Erq1, <- app_assoc.
      repeat split; lia.
Qed.

End Steps.

(* ================================================================= *)
(** ** Facts about the numbers *)

Section Numbers.
Arguments Z.mul : simpl never.
Arguments Z.pow : simpl never.
Arguments Z.div : simpl never.

(** At the balance check of a buy, the failure value [0] and a genuine
    zero balance compare alike with every amount. *)
Lemma lt_zero_alike (s : bool) (amount : float) :
  Py.lt (PFloat (S754_zero s)) (PFloat amount) = Py.lt (PInt 0) (PFloat amount).
Proof.
  unfold Py.lt, Py.compare, Float64.compare_Z.
  destruct amount as [s'| s'| |s' m e]; cbn; try reflexivity.
  - destruct s, s'; reflexivity.
  - destruct (0 <=? e) eqn:He; cbn.
    + apply Z.leb_le in He.
      assert (H2 : 0 < 2 ^ e) by now apply Z.pow_pos_nonneg.
      destruct s'; cbn.
      * assert (Hn : Z.neg m * 2 ^ e < 0) by nia.
        apply Z.compare_lt_iff in Hn. rewrite Hn. now destruct s.
      * assert (Hn : 0 < Z.pos m * 2 ^ e) by nia.
        apply Z.compare_gt_iff in Hn. rewrite Hn. now destruct s.
    + destruct s', s; reflexivity.
Qed.

Lemma int_of_float_trunc (f : float) (n : Z) (q : Q) :
  Py.int_of_float f = Ok n ->
  Float64.to_Q f = Some q ->
  n = if Qle_bool 0 q then Qfloor q else Qceiling q.
Proof.
  destruct f as [s| s| |s m e]; cbn; try discriminate.
  - intros [= <-] [= <-]. reflexivity.
  - unfold Float64.trunc_mag.
    destruct (0 <=? e) eqn:He.
    + intros [= <-] [= <-].
      assert (Hc : cond_Zopp s (Z.pos m * 2 ^ e) = cond_Zopp s (Z.pos m) * 2 ^ e).
      { destruct s; cbn; lia. }
      rewrite Hc, Qceiling_Z, Qfloor_Z. now destruct (Qle_bool _ _).
    + intros [= <-] [= <-].
      apply Z.leb_gt in He.
      assert (H2 : 0 < 2 ^ (- e)) by (apply Z.pow_pos_nonneg; lia).
      unfold Qle_bool, Qceiling, Qfloor, Qopp. cbn [Qnum Qden].
      rewrite Z2Pos.id by exact H2.
      destruct s; cbn [cond_Zopp].
      * cbn. reflexivity.
      * cbn. reflexivity.
Qed.
End Numbers.

(* ================================================================= *)
(** ** The operations, step by step *)

Section Program.
Context {net : Network} {builtins : Builtins} {libs : Libraries}.
Import SolSwap Spec.

Lemma extends_get_sol_balance pk : extends (get_sol_balance pk).
Proof. unfold get_sol_balance, requests_post, log. extends_tac. Qed.

Lemma extends_poll_once sig : extends (poll_once sig).
Proof. unfold poll_once, requests_post, log. extends_tac. Qed.

Lemma extends_wait_loop n sig : extends (wait_loop n sig).
Proof.
  induction n as [|n IH]; cbn [wait_loop]; [apply extends_ret|].
  apply extends_bind; [apply extends_poll_once|].
  intros [b|]; [apply extends_ret|].
  apply extends_bind; [apply extends_emit|]. intros _. exact IH.
Qed.

Lemma extends_get_quote i o a : extends (get_quote i o a).
Proof.
  unfold get_quote, requests_get, log.
  extends_tac.
Qed.

Lemma extends_send_transaction enc : extends (send_transaction enc).
Proof.
  unfold send_transaction, requests_post, log.
  extends_tac.
Qed.

(** The balance check issues exactly one request. *)
Lemma get_sol_balance_requests pk st r st1 :
  get_sol_balance pk st = (r, st1) ->
  requests_of (trace st1) = requests_of (trace st) ++ [balance_request pk]
  /\ sent st1 = S (sent st).
Proof.
  destruct (get_sol_balance_run pk st) as (v & logs & -> & Hreq & _).
  intros [= <- <-]. cbn [trace sent].
  change (EvRequest (balance_request pk) :: logs)
    with ([EvRequest (balance_request pk)] ++ logs).
  rewrite !requests_of_app, Hreq. cbn. split; reflexivity.
Qed.

Lemma extends_wait sig n : extends (wait_for_transaction_confirmation sig n).
Proof. apply extends_wait_loop. Qed.

Ltac extends_program :=
  repeat first
    [ progress intros
    | apply extends_get_sol_balance
    | apply extends_get_quote
    | apply extends_send_transaction
    | apply extends_wait_loop
    | apply extends_wait
    | progress extends_tac ].

Lemma scale_lamports amount :
  Py.mul (PFloat amount) (PInt (10 ^ 9))
  = Ok (PFloat (Float64.mul amount Float64.lit_1e9)).
Proof. reflexivity. Qed.

Lemma buy_tokens_insufficient contract amount pk st kb kp bal st1 :
  b58decode pk = Ok kb ->
  Keypair_from_bytes kb = Ok kp ->
  get_sol_balance (pubkey_str kp) st = (Ok bal, st1) ->
  Py.lt bal (PFloat amount) = true ->
  buy_tokens contract amount pk st
  = (Ok JNull,
     mkState (sent st1)
       (trace st1 ++ [error_print (insufficient_sol bal amount)])).
Proof.
  intros Hkb Hkp Hbal Hlt. unfold buy_tokens.
  step_lift Hkb. step_lift Hkp. cbn zeta. step_with Hbal.
  erewrite try_bind_raise by (apply run_raise_if_true; exact Hlt).
  reflexivity.
Qed.


(** If [m] starts by emitting [evs], so does [try: x = m; k x except: h]. *)
Lemma try_bind_first {A B} (m : M A) (k : A -> M B) (h : exn -> M B) st evs :
  (exists more, trace (snd (m st)) = trace st ++ evs ++ more) ->
  (forall a, extends (k a)) -> (forall e, extends (h e)) ->
  exists suffix,
    trace (snd (try_except (bind m k) h st)) = trace st ++ evs ++ suffix.
Proof.
  intros [more Hm] Hk Hh. unfold try_except, bind.
  destruct (m st) as [[a|e] st2]; cbn in Hm.
  - destruct (Hk a st2) as [s2 H2].
    destruct (k a st2) as [[b|e] st3]; cbn in H2 |- *.
    + exists (more ++ s2). now rewrite H2, Hm, <- !app_assoc.
    + destruct (Hh e st3) as [s3 H3]. exists (more ++ s2 ++ s3).
      now rewrite H3, H2, Hm, <- !app_assoc.
  - destruct (Hh e st2) as [s3 H3]. exists (more ++ s3).
    now rewrite H3, Hm, <- !app_assoc.
Qed.

Lemma get_quote_first i o a st :
  exists more,
    trace (snd (get_quote i o a st))
    = trace st ++ [EvRequest (quote_request i o a)] ++ more.
Proof.
  unfold get_quote, requests_get. cbn zeta. fold (quote_request i o a).
  remember (quote_request i o a) as req. run_monad.
  destruct (answer (sent st) req) as [resp|e]; cbn; [|close_run].
  destruct ((400 <=? status_code resp) && (status_code resp <? 600)); cbn;
    [close_run|].
  destruct (json_body resp); cbn; close_run.
Qed.

Lemma get_quote_ok i o a st resp q :
  answer (sent st) (quote_request i o a) = Ok resp ->
  (400 <=? status_code resp) && (status_code resp <? 600) = false ->
  json_body resp = Some q ->
  get_quote i o a st = (Ok q, after_request st (quote_request i o a) []).
Proof.
  intros Ha Hs Hb. unfold get_quote, requests_get, after_request.
  cbn zeta. fold (quote_request i o a).
  remember (quote_request i o a) as req. run_monad.
  rewrite Ha. cbn. rewrite Hs. cbn. rewrite Hb. reflexivity.
Qed.

Lemma buy_tokens_reaches_quote contract amount pk st kb kp bal st1 units :
  b58decode pk = Ok kb ->
  Keypair_from_bytes kb = Ok kp ->
  get_sol_balance (pubkey_str kp) st = (Ok bal, st1) ->
  Py.lt bal (PFloat amount) = false ->
  Py.int_of_float (Float64.mul amount Float64.lit_1e9) = Ok units ->
  exists suffix,
    trace (snd (buy_tokens contract amount pk st))
    = trace st1
        ++ [EvRequest (quote_request SOL_ADDRESS contract (Py.str_of_int units))]
        ++ suffix.
Proof.
  intros Hkb Hkp Hbal Hlt Hunits. unfold buy_tokens.
  step_lift Hkb. step_lift Hkp. cbn zeta. step_with Hbal.
  erewrite try_bind_ok by (apply run_raise_if_false; exact Hlt).
  step_lift (scale_lamports amount).
  erewrite try_bind_ok by (rewrite run_lift; cbn [Py.int]; rewrite Hunits; reflexivity).
  cbn zeta.
  apply try_bind_first; [apply get_quote_first| |]; extends_program.
Qed.

Lemma buy_tokens_reaches_swap contract amount pk st kb kp bal st1 units rq q :
  b58decode pk = Ok kb ->
  Keypair_from_bytes kb = Ok kp ->
  get_sol_balance (pubkey_str kp) st = (Ok bal, st1) ->
  Py.lt bal (PFloat amount) = false ->
  Py.int_of_float (Float64.mul amount Float64.lit_1e9) = Ok units ->
  answer (sent st1) (quote_request SOL_ADDRESS contract (Py.str_of_int units))
  = Ok rq ->
  (400 <=? status_code rq) && (status_code rq <? 600) = false ->
  json_body rq = Some q ->
  exists suffix,
    trace (snd (buy_tokens contract amount pk st))
    = trace st1
        ++ [EvRequest (quote_request SOL_ADDRESS contract (Py.str_of_int units));
            EvRequest (swap_request q (pubkey_str kp))]
        ++ suffix.
Proof.
  intros Hkb Hkp Hbal Hlt Hunits Ha Hs Hq. unfold buy_tokens.
  step_lift Hkb. step_lift Hkp. cbn zeta. step_with Hbal.
  erewrite try_bind_ok by (apply run_raise_if_false; exact Hlt).
  step_lift (scale_lamports amount).
  erewrite try_bind_ok by (rewrite run_lift; cbn [Py.int]; rewrite Hunits; reflexivity).
  cbn zeta.
  step_with (get_quote_ok _ _ _ _ _ _ Ha Hs Hq).
  match goal with
  | |- exists _, trace (snd (try_except (bind ?m ?k) ?h ?s)) = _ =>
      destruct (try_bind_first m k h s
                  [EvRequest (swap_request q (pubkey_str kp))])
        as [suffix Hsuf]
  end.
  - exists []. reflexivity.
  - extends_program.
  - extends_program.
  - exists suffix. rewrite Hsuf. unfold after_request. cbn [trace].
    rewrite <- !app_assoc. reflexivity.
Qed.
Lemma send_relay_ok enc st resp kv :
  answer (sent st) (relay_request enc) = Ok resp ->
  status_code resp = 200 ->
  json_body resp = Some (JDict kv) ->
  send_transaction enc st
  = (Ok (match Py.lookup "txid" kv with Some v => v | None => JNull end),
     after_request st (relay_request enc) []).
Proof.
  intros Ha Hs Hb. unfold send_transaction, requests_post.
  fold (relay_request enc). remember (relay_request enc) as req.
  run_monad. rewrite Ha. cbn. rewrite Hs. cbn. rewrite Hb. reflexivity.
Qed.

Lemma send_relay_raise enc st e :
  answer (sent st) (relay_request enc) = Raise e ->
  send_transaction enc st
  = (Raise e, after_request st (relay_request enc) [send_log e]).
Proof.
  intros Ha. unfold send_transaction, requests_post.
  fold (relay_request enc). remember (relay_request enc) as req.
  run_monad. rewrite Ha. cbn. unfold after_request.
  rewrite <- app_assoc. reflexivity.
Qed.

Lemma send_fallback enc st resp :
  answer (sent st) (relay_request enc) = Ok resp ->
  status_code resp <> 200 ->
  let st1 := after_request st (relay_request enc) [] in
  let out := fallback_outcome (answer (S (sent st)) (fallback_request enc)) in
  send_transaction enc st
  = (out,
     after_request st1 (fallback_request enc)
       (match out with Raise e => [send_log e] | Ok _ => [] end)).
Proof.
  intros Ha Hs. apply Z.eqb_neq in Hs.
  unfold send_transaction, requests_post.
  fold (relay_request enc). remember (relay_request enc) as req.
  fold (fallback_request enc). remember (fallback_request enc) as req2.
  cbn zeta. run_monad. rewrite Ha. cbn. rewrite Hs. cbn.
  unfold after_request, fallback_outcome. cbn [sent trace].
  destruct (answer (S (sent st)) req2) as [r2|e]; cbn.
  2:{ rewrite <- !app_assoc. reflexivity. }
  destruct (status_code r2 =? 200); cbn.
  2:{ rewrite <- !app_assoc. reflexivity. }
  destruct (json_body r2) as [body|]; cbn.
  2:{ rewrite <- !app_assoc. reflexivity. }
  destruct (Py.contains "error" body) as [[|]|]; cbn;
    try (rewrite <- !app_assoc; reflexivity).
  destruct (Py.getitem body "result"); cbn; rewrite <- !app_assoc; reflexivity.
Qed.

(** The relay is asked first, and the RPC provider after it exactly
    when the relay answered with a status other than 200. *)
Lemma send_transaction_requests enc st :
  requests_of (trace (snd (send_transaction enc st)))
  = requests_of (trace st)
      ++ relay_request enc
      :: match answer (sent st) (relay_request enc) with
         | Ok resp =>
             if status_code resp =? 200 then [] else [fallback_request enc]
         | Raise _ => []
         end.
Proof.
  destruct (answer (sent st) (relay_request enc)) as [resp|e] eqn:Ha.
  - destruct (status_code resp =? 200) eqn:Hs.
    + apply Z.eqb_eq in Hs.
      unfold send_transaction, requests_post.
      fold (relay_request enc). remember (relay_request enc) as req.
      run_monad. rewrite Ha. cbn. rewrite Hs. cbn.
      destruct (json_body resp) as [body|]; cbn.
      * destruct (Py.get body "txid"); cbn;
          rewrite ?requests_of_app; cbn; rewrite ?app_nil_r; reflexivity.
      * rewrite !requests_of_app. cbn. now rewrite app_nil_r.
    + apply Z.eqb_neq in Hs.
      rewrite (send_fallback enc st resp Ha Hs). cbn [snd].
      unfold after_request. cbn [trace].
      rewrite !requests_of_app. cbn.
      destruct (fallback_outcome _); cbn; rewrite <- app_assoc; reflexivity.
  - rewrite (send_relay_raise enc st e Ha). cbn [snd].
    unfold after_request. cbn [trace]. rewrite requests_of_app. reflexivity.
Qed.

Lemma poll_once_first sig st :
  exists r logs,
    poll_once sig st = (Ok r, after_request st (poll_request sig) logs).
Proof.
  destruct (transaction_result (answer (sent st) (poll_request sig)))
    as [err|] eqn:H.
  - destruct (poll_once_result sig st err H) as (logs & Hrun & _).
    now exists (Some (Py.is_None err)), logs.
  - destruct (poll_once_none sig st H) as (logs & Hrun & _).
    now exists None, logs.
Qed.

Lemma wait_first sig max_retries st :
  0 < max_retries ->
  exists more,
    trace (snd (wait_for_transaction_confirmation sig max_retries st))
    = trace st ++ [EvRequest (poll_request sig)] ++ more.
Proof.
  intros Hpos. unfold wait_for_transaction_confirmation.
  destruct (Z.to_nat max_retries) as [|n] eqn:Hn; [lia|].
  cbn [wait_loop].
  destruct (poll_once_first sig st) as (r & logs & Hrun).
  rewrite (run_bind_ok _ _ _ _ _ Hrun).
  destruct r as [b|].
  - exists logs. reflexivity.
  - destruct (extends_bind (sleep 1) (fun _ => wait_loop n sig))
      with (st := after_request st (poll_request sig) logs) as [suffix Hsuf].
    + apply extends_emit.
    + intros _. apply extends_wait_loop.
    + rewrite Hsuf. exists (logs ++ suffix). unfold after_request. cbn [trace].
      rewrite <- !app_assoc. reflexivity.
Qed.

Lemma buy_tokens_reaches_poll contract amount pk st kb kp bal st1 units
      rq q rs sj blob enc sig st4 :
  b58decode pk = Ok kb ->
  Keypair_from_bytes kb = Ok kp ->
  get_sol_balance (pubkey_str kp) st = (Ok bal, st1) ->
  Py.lt bal (PFloat amount) = false ->
  Py.int_of_float (Float64.mul amount Float64.lit_1e9) = Ok units ->
  answer (sent st1) (quote_request SOL_ADDRESS contract (Py.str_of_int units))
  = Ok rq ->
  (400 <=? status_code rq) && (status_code rq <? 600) = false ->
  json_body rq = Some q ->
  answer (S (sent st1)) (swap_request q (pubkey_str kp)) = Ok rs ->
  status_code rs = 200 ->
  json_body rs = Some sj ->
  Py.getitem sj "swapTransaction" = Ok blob ->
  sign_transaction kp blob = Ok enc ->
  send_transaction enc
    (after_request
       (after_request st1
          (quote_request SOL_ADDRESS contract (Py.str_of_int units)) [])
       (swap_request q (pubkey_str kp)) [])
  = (Ok sig, st4) ->
  exists suffix,
    trace (snd (buy_tokens contract amount pk st))
    = trace st4 ++ [submitted_print; EvRequest (poll_request sig)] ++ suffix.
Proof.
  intros Hkb Hkp Hbal Hlt Hunits Ha Hs Hq Has Hss Hsj Hblob Hsign Hsend.
  unfold buy_tokens.
  step_lift Hkb. step_lift Hkp. cbn zeta. step_with Hbal.
  erewrite try_bind_ok by (apply run_raise_if_false; exact Hlt).
  step_lift (scale_lamports amount).
  erewrite try_bind_ok by (rewrite run_lift; cbn [Py.int]; rewrite Hunits; reflexivity).
  cbn zeta.
  step_with (get_quote_ok _ _ _ _ _ _ Ha Hs Hq).
  erewrite try_bind_ok.
  2:{ unfold requests_post. fold (swap_request q (pubkey_str kp)).
      rewrite run_send. cbn [sent after_request]. rewrite Has.
      fold (after_request
              (after_request st1
                 (quote_request SOL_ADDRESS contract (Py.str_of_int units)) [])
              (swap_request q (pubkey_str kp)) []).
      reflexivity. }
  erewrite try_bind_ok
    by (apply run_raise_if_false; rewrite Hss; reflexivity).
  erewrite try_bind_ok by (unfold response_json; rewrite Hsj; reflexivity).
  step_lift Hblob. step_lift Hsign. step_with Hsend.
  erewrite try_bind_ok by (apply run_emit).
  match goal with
  | |- exists _, trace (snd (try_except (bind ?m ?k) ?h ?s)) = _ =>
      destruct (try_bind_first m k h s [EvRequest (poll_request sig)])
        as [suffix Hsuf]
  end.
  - apply wait_first. reflexivity.
  - extends_program.
  - extends_program.
  - exists suffix. rewrite Hsuf. cbn [trace].
    rewrite <- !app_assoc. reflexivity.
Qed.

Lemma first_account_ok data r v acc :
  Py.getitem data "result" = Ok r -> Py.getitem r "value" = Ok v ->
  Py.getitem0 v = Ok acc -> first_account data = Ok acc.
Proof. intros H1 H2 H3. unfold first_account. now rewrite H1, H2. Qed.

Ltac sell_discovery kp contract Hkb Hkp Ha Hb Hd :=
  destruct Hd as (r & v & acc & raw & rawf & scale & Hc & Hr & Hv & Ht & Hx
                  & Hpub & Hdec & Hamt & Hf & Hscale & Hdiv);
  pose proof (first_account_ok _ _ _ _ Hr Hv Hx) as Hacc;
  unfold sell_tokens;
  step_lift Hkb; step_lift Hkp; cbn zeta;
  erewrite try_bind_ok
    by (unfold requests_post;
        fold (token_accounts_request (pubkey_str kp) contract);
        rewrite run_send, Ha; reflexivity);
  erewrite try_bind_ok by (unfold response_json; rewrite Hb; reflexivity);
  step_lift Hc;
  erewrite try_bind_ok
    by (cbn [negb];
        erewrite run_bind_ok by (rewrite run_lift, Hr; reflexivity);
        erewrite run_bind_ok by (rewrite run_lift, Hv; reflexivity);
        apply run_raise_if_false; rewrite Ht; reflexivity);
  step_lift Hacc; step_lift Hpub; step_lift Hacc; step_lift Hdec;
  step_lift Hacc; step_lift Hamt; step_lift Hf; step_lift Hscale;
  step_lift Hdiv; cbn zeta.

Lemma sell_tokens_no_tokens contract amount pk st kb kp resp data
      token_account decimals current_balance :
  b58decode pk = Ok kb ->
  Keypair_from_bytes kb = Ok kp ->
  answer (sent st) (token_accounts_request (pubkey_str kp) contract) = Ok resp ->
  json_body resp = Some data ->
  discovered data token_account decimals current_balance ->
  Py.le (resolve_amount amount current_balance) (PInt 0) = true ->
  sell_tokens contract amount pk st
  = (Ok JNull,
     after_request st (token_accounts_request (pubkey_str kp) contract)
       [error_print no_tokens_to_sell]).
Proof.
  intros Hkb Hkp Ha Hb Hd Hle.
  sell_discovery kp contract Hkb Hkp Ha Hb Hd.
  erewrite try_bind_raise by (apply run_raise_if_true; exact Hle).
  unfold after_request. cbn. rewrite <- app_assoc. reflexivity.
Qed.

Lemma get_sol_balance_first pk st :
  exists more,
    trace (snd (get_sol_balance pk st))
    = trace st ++ [EvRequest (balance_request pk)] ++ more.
Proof.
  destruct (get_sol_balance_run pk st) as (v & logs & -> & _).
  now exists logs.
Qed.

Lemma sell_tokens_proceeds contract amount pk st kb kp resp data
      token_account decimals current_balance :
  b58decode pk = Ok kb ->
  Keypair_from_bytes kb = Ok kp ->
  answer (sent st) (token_accounts_request (pubkey_str kp) contract) = Ok resp ->
  json_body resp = Some data ->
  discovered data token_account decimals current_balance ->
  Py.le (resolve_amount amount current_balance) (PInt 0) = false ->
  exists suffix,
    trace (snd (sell_tokens contract amount pk st))
    = trace st
        ++ [EvRequest (token_accounts_request (pubkey_str kp) contract);
            selling_print (resolve_amount amount current_balance);
            EvRequest (balance_request (pubkey_str kp))]
        ++ suffix.
Proof.
  intros Hkb Hkp Ha Hb Hd Hle.
  sell_discovery kp contract Hkb Hkp Ha Hb Hd.
  erewrite try_bind_ok by (apply run_raise_if_false; exact Hle).
  erewrite try_bind_ok by (apply run_emit).
  match goal with
  | |- exists _, trace (snd (try_except (bind ?m ?k) ?h ?s)) = _ =>
      destruct (try_bind_first m k h s
                  [EvRequest (balance_request (pubkey_str kp))])
        as [suffix Hsuf]
  end.
  - apply get_sol_balance_first.
  - extends_program.
  - extends_program.
  - exists suffix. rewrite Hsuf. cbn [trace sent].
    rewrite <- !app_assoc. reflexivity.
Qed.
(** *** The other ways out of the operations *)

Lemma get_quote_http_error i o a st resp :
  answer (sent st) (quote_request i o a) = Ok resp ->
  (400 <=? status_code resp) && (status_code resp <? 600) = true ->
  get_quote i o a st
  = (Raise (HTTPError (status_code resp)),
     after_request st (quote_request i o a)
       [quote_log (HTTPError (status_code resp))]).
Proof.
  intros Ha Hs. unfold get_quote, requests_get, after_request.
  cbn zeta. fold (quote_request i o a).
  remember (quote_request i o a) as req. run_monad.
  rewrite Ha. cbn. rewrite Hs. cbn. rewrite <- app_assoc. reflexivity.
Qed.

Lemma get_quote_network_error i o a st e :
  answer (sent st) (quote_request i o a) = Raise e ->
  get_quote i o a st
  = (Raise e, after_request st (quote_request i o a) [quote_log e]).
Proof.
  intros Ha. unfold get_quote, requests_get, after_request.
  cbn zeta. fold (quote_request i o a).
  remember (quote_request i o a) as req. run_monad.
  rewrite Ha. cbn. rewrite <- app_assoc. reflexivity.
Qed.

Lemma get_quote_bad_json i o a st resp :
  answer (sent st) (quote_request i o a) = Ok resp ->
  (400 <=? status_code resp) && (status_code resp <? 600) = false ->
  json_body resp = None ->
  get_quote i o a st
  = (Raise (json_error resp),
     after_request st (quote_request i o a) [quote_log (json_error resp)]).
Proof.
  intros Ha Hs Hb. unfold get_quote, requests_get, after_request.
  cbn zeta. fold (quote_request i o a).
  remember (quote_request i o a) as req. run_monad.
  rewrite Ha. cbn. rewrite Hs. cbn. rewrite Hb. cbn.
  rewrite <- app_assoc. reflexivity.
Qed.

(** [get_quote] issues one request and no other event than a log
    line. *)
Lemma get_quote_run i o a st :
  exists r logs,
    get_quote i o a st = (r, after_request st (quote_request i o a) logs)
    /\ requests_of logs = [] /\ sleeps_of logs = 0%nat.
Proof.
  destruct (answer (sent st) (quote_request i o a)) as [resp|e] eqn:Ha.
  - destruct ((400 <=? status_code resp) && (status_code resp <? 600)) eqn:Hs.
    + rewrite (get_quote_http_error _ _ _ _ _ Ha Hs). now eexists _, _.
    + destruct (json_body resp) as [q|] eqn:Hb.
      * rewrite (get_quote_ok _ _ _ _ _ _ Ha Hs Hb). now eexists _, _.
      * rewrite (get_quote_bad_json _ _ _ _ _ Ha Hs Hb). now eexists _, _.
  - rewrite (get_quote_network_error _ _ _ _ _ Ha). now eexists _, _.
Qed.

Lemma buy_tokens_bad_key contract amount pk st e :
  b58decode pk = Raise e
  \/ (exists kb, b58decode pk = Ok kb /\ Keypair_from_bytes kb = Raise e) ->
  buy_tokens contract amount pk st
  = (Ok JNull, mkState (sent st) (trace st ++ [error_print e])).
Proof.
  intros [H | (kb & Hkb & H)]; unfold buy_tokens.
  - erewrite try_bind_raise by (rewrite run_lift, H; reflexivity). reflexivity.
  - step_lift Hkb.
    erewrite try_bind_raise by (rewrite run_lift, H; reflexivity). reflexivity.
Qed.

Lemma sell_tokens_bad_key contract amount pk st e :
  b58decode pk = Raise e
  \/ (exists kb, b58decode pk = Ok kb /\ Keypair_from_bytes kb = Raise e) ->
  sell_tokens contract amount pk st
  = (Ok JNull, mkState (sent st) (trace st ++ [error_print e])).
Proof.
  intros [H | (kb & Hkb & H)]; unfold sell_tokens.
  - erewrite try_bind_raise by (rewrite run_lift, H; reflexivity). reflexivity.
  - step_lift Hkb.
    erewrite try_bind_raise by (rewrite run_lift, H; reflexivity). reflexivity.
Qed.

Lemma buy_tokens_swap_refused contract amount pk st kb kp bal st1 units rq q rs :
  b58decode pk = Ok kb ->
  Keypair_from_bytes kb = Ok kp ->
  get_sol_balance (pubkey_str kp) st = (Ok bal, st1) ->
  Py.lt bal (PFloat amount) = false ->
  Py.int_of_float (Float64.mul amount Float64.lit_1e9) = Ok units ->
  answer (sent st1) (quote_request SOL_ADDRESS contract (Py.str_of_int units))
  = Ok rq ->
  (400 <=? status_code rq) && (status_code rq <? 600) = false ->
  json_body rq = Some q ->
  answer (S (sent st1)) (swap_request q (pubkey_str kp)) = Ok rs ->
  status_code rs <> 200 ->
  buy_tokens contract amount pk st
  = (Ok JNull,
     after_request
       (after_request st1
          (quote_request SOL_ADDRESS contract (Py.str_of_int units)) [])
       (swap_request q (pubkey_str kp))
       [error_print
          (PyException [FLit "Swap transaction failed: "; FLit (text rs)])]).
Proof.
  intros Hkb Hkp Hbal Hlt Hunits Ha Hs Hq Has Hss. unfold buy_tokens.
  step_lift Hkb. step_lift Hkp. cbn zeta. step_with Hbal.
  erewrite try_bind_ok by (apply run_raise_if_false; exact Hlt).
  step_lift (scale_lamports amount).
  erewrite try_bind_ok by (rewrite run_lift; cbn [Py.int]; rewrite Hunits; reflexivity).
  cbn zeta.
  step_with (get_quote_ok _ _ _ _ _ _ Ha Hs Hq).
  erewrite try_bind_ok.
  2:{ unfold requests_post. fold (swap_request q (pubkey_str kp)).
      rewrite run_send. cbn [sent after_request]. rewrite Has. reflexivity. }
  erewrite try_bind_raise.
  2:{ apply run_raise_if_true. apply Z.eqb_neq in Hss. now rewrite Hss. }
  unfold after_request. cbn. rewrite <- !app_assoc. reflexivity.
Qed.

Lemma sell_tokens_no_account contract amount pk st kb kp resp data :
  b58decode pk = Ok kb ->
  Keypair_from_bytes kb = Ok kp ->
  answer (sent st) (token_accounts_request (pubkey_str kp) contract) = Ok resp ->
  json_body resp = Some data ->
  Py.contains "result" data = Ok false
  \/ (exists r v,
        Py.contains "result" data = Ok true
        /\ Py.getitem data "result" = Ok r
        /\ Py.getitem r "value" = Ok v
        /\ Py.truthy v = false) ->
  sell_tokens contract amount pk st
  = (Ok JNull,
     after_request st (token_accounts_request (pubkey_str kp) contract)
       [error_print (PyException [FLit "No token account found"])]).
Proof.
  intros Hkb Hkp Ha Hb Hcase. unfold sell_tokens.
  step_lift Hkb. step_lift Hkp. cbn zeta.
  erewrite try_bind_ok
    by (unfold requests_post;
        fold (token_accounts_request (pubkey_str kp) contract);
        rewrite run_send, Ha; reflexivity).
  erewrite try_bind_ok by (unfold response_json; rewrite Hb; reflexivity).
  destruct Hcase as [Hc | (r & v & Hc & Hr & Hv & Ht)].
  - step_lift Hc. erewrite try_bind_raise by reflexivity.
    unfold after_request. cbn. rewrite <- app_assoc. reflexivity.
  - step_lift Hc.
    erewrite try_bind_raise
      by (cbn [negb];
          erewrite run_bind_ok by (rewrite run_lift, Hr; reflexivity);
          erewrite run_bind_ok by (rewrite run_lift, Hv; reflexivity);
          apply run_raise_if_true; rewrite Ht; reflexivity).
    unfold after_request. cbn. rewrite <- app_assoc. reflexivity.
Qed.

Lemma sell_tokens_no_fee contract amount pk st kb kp resp data
      token_account decimals current_balance bal st3 :
  b58decode pk = Ok kb ->
  Keypair_from_bytes kb = Ok kp ->
  answer (sent st) (token_accounts_request (pubkey_str kp) contract) = Ok resp ->
  json_body resp = Some data ->
  discovered data token_account decimals current_balance ->
  Py.le (resolve_amount amount current_balance) (PInt 0) = false ->
  get_sol_balance (pubkey_str kp)
    (after_request st (token_accounts_request (pubkey_str kp) contract)
       [selling_print (resolve_amount amount current_balance)])
  = (Ok bal, st3) ->
  Py.lt bal (PFloat Float64.lit_0_002) = true ->
  sell_tokens contract amount pk st
  = (Ok JNull,
     mkState (sent st3)
       (trace st3
          ++ [error_print
                (PyException
                   [FLit "Insufficient SOL balance for transaction fees. You have ";
                    FNum bal; FLit " SOL"])])).
Proof.
  intros Hkb Hkp Ha Hb Hd Hle Hbal Hlt.
  sell_discovery kp contract Hkb Hkp Ha Hb Hd.
  erewrite try_bind_ok by (apply run_raise_if_false; exact Hle).
  erewrite try_bind_ok by (apply run_emit).
  erewrite try_bind_ok.
  2:{ unfold after_request in Hbal. cbn [sent trace].
      rewrite <- app_assoc. cbn [app]. exact Hbal. }
  erewrite try_bind_raise by (apply run_raise_if_true; exact Hlt).
  reflexivity.
Qed.

Lemma sell_tokens_reaches_quote contract amount pk st kb kp resp data
      token_account decimals current_balance bal st3 factor scaled units :
  b58decode pk = Ok kb ->
  Keypair_from_bytes kb = Ok kp ->
  answer (sent st) (token_accounts_request (pubkey_str kp) contract) = Ok resp ->
  json_body resp = Some data ->
  discovered data token_account decimals current_balance ->
  Py.le (resolve_amount amount current_balance) (PInt 0) = false ->
  get_sol_balance (pubkey_str kp)
    (after_request st (token_accounts_request (pubkey_str kp) contract)
       [selling_print (resolve_amount amount current_balance)])
  = (Ok bal, st3) ->
  Py.lt bal (PFloat Float64.lit_0_002) = false ->
  pow10 decimals = Ok factor ->
  Py.mul (resolve_amount amount current_balance) factor = Ok scaled ->
  Py.int scaled = Ok units ->
  exists suffix,
    trace (snd (sell_tokens contract amount pk st))
    = trace st3
        ++ [EvRequest (quote_request contract SOL_ADDRESS (Py.str_of_int units))]
        ++ suffix.
Proof.
  intros Hkb Hkp Ha Hb Hd Hle Hbal Hlt Hsc Hmul Hint.
  sell_discovery kp contract Hkb Hkp Ha Hb Hd.
  erewrite try_bind_ok by (apply run_raise_if_false; exact Hle).
  erewrite try_bind_ok by (apply run_emit).
  erewrite try_bind_ok.
  2:{ unfold after_request in Hbal. cbn [sent trace].
      rewrite <- app_assoc. cbn [app]. exact Hbal. }
  erewrite try_bind_ok by (apply run_raise_if_false; exact Hlt).
  step_lift Hsc. step_lift Hmul. step_lift Hint. cbn zeta.
  apply try_bind_first; [apply get_quote_first| |]; extends_program.
Qed.

(** *** From submission to the end *)

Lemma buy_tokens_after_submission contract amount pk st kb kp bal st1 units
      rq q rs sj blob enc sig st4 confirmed st5 :
  b58decode pk = Ok kb ->
  Keypair_from_bytes kb = Ok kp ->
  get_sol_balance (pubkey_str kp) st = (Ok bal, st1) ->
  Py.lt bal (PFloat amount) = false ->
  Py.int_of_float (Float64.mul amount Float64.lit_1e9) = Ok units ->
  answer (sent st1) (quote_request SOL_ADDRESS contract (Py.str_of_int units))
  = Ok rq ->
  (400 <=? status_code rq) && (status_code rq <? 600) = false ->
  json_body rq = Some q ->
  answer (S (sent st1)) (swap_request q (pubkey_str kp)) = Ok rs ->
  status_code rs = 200 ->
  json_body rs = Some sj ->
  Py.getitem sj "swapTransaction" = Ok blob ->
  sign_transaction kp blob = Ok enc ->
  send_transaction enc
    (after_request
       (after_request st1
          (quote_request SOL_ADDRESS contract (Py.str_of_int units)) [])
       (swap_request q (pubkey_str kp)) [])
  = (Ok sig, st4) ->
  wait_for_transaction_confirmation sig default_max_retries
    (mkState (sent st4) (trace st4 ++ [submitted_print]))
  = (Ok confirmed, st5) ->
  buy_tokens contract amount pk st
  = (Ok (if confirmed then sig else JNull),
     mkState (sent st5)
       (trace st5
          ++ [if confirmed then confirmed_print sig else unconfirmed_print])).
Proof.
  intros Hkb Hkp Hbal Hlt Hunits Ha Hs Hq Has Hss Hsj Hblob Hsign Hsend Hwait.
  unfold buy_tokens.
  step_lift Hkb. step_lift Hkp. cbn zeta. step_with Hbal.
  erewrite try_bind_ok by (apply run_raise_if_false; exact Hlt).
  step_lift (scale_lamports amount).
  erewrite try_bind_ok by (rewrite run_lift; cbn [Py.int]; rewrite Hunits; reflexivity).
  cbn zeta.
  step_with (get_quote_ok _ _ _ _ _ _ Ha Hs Hq).
  erewrite try_bind_ok.
  2:{ unfold requests_post. fold (swap_request q (pubkey_str kp)).
      rewrite run_send. cbn [sent after_request]. rewrite Has.
      fold (after_request
              (after_request st1
                 (quote_request SOL_ADDRESS contract (Py.str_of_int units)) [])
              (swap_request q (pubkey_str kp)) []).
      reflexivity. }
  erewrite try_bind_ok
    by (apply run_raise_if_false; rewrite Hss; reflexivity).
  erewrite try_bind_ok by (unfold response_json; rewrite Hsj; reflexivity).
  step_lift Hblob. step_lift Hsign. step_with Hsend.
  erewrite try_bind_ok by (apply run_emit).
  step_with Hwait.
  destruct confirmed.
  - erewrite run_try_ok; [reflexivity|].
    erewrite run_bind_ok by (apply run_emit). reflexivity.
  - erewrite run_try_ok; [reflexivity|].
    erewrite run_bind_ok by (apply run_emit). reflexivity.
Qed.

Lemma sell_tokens_after_confirmation contract amount pk st kb kp resp data
      token_account decimals current_balance bal st3 factor scaled units
      q st4 rs sj blob enc sig st6 st7 :
  b58decode pk = Ok kb ->
  Keypair_from_bytes kb = Ok kp ->
  answer (sent st) (token_accounts_request (pubkey_str kp) contract) = Ok resp ->
  json_body resp = Some data ->
  discovered data token_account decimals current_balance ->
  Py.le (resolve_amount amount current_balance) (PInt 0) = false ->
  get_sol_balance (pubkey_str kp)
    (after_request st (token_accounts_request (pubkey_str kp) contract)
       [selling_print (resolve_amount amount current_balance)])
  = (Ok bal, st3) ->
  Py.lt bal (PFloat Float64.lit_0_002) = false ->
  pow10 decimals = Ok factor ->
  Py.mul (resolve_amount amount current_balance) factor = Ok scaled ->
  Py.int scaled = Ok units ->
  get_quote contract SOL_ADDRESS (Py.str_of_int units) st3 = (Ok q, st4) ->
  answer (sent st4) (swap_request q (pubkey_str kp)) = Ok rs ->
  status_code rs = 200 ->
  json_body rs = Some sj ->
  Py.getitem sj "swapTransaction" = Ok blob ->
  sign_transaction kp blob = Ok enc ->
  send_transaction enc (after_request st4 (swap_request q (pubkey_str kp)) [])
  = (Ok sig, st6) ->
  wait_for_transaction_confirmation sig default_max_retries
    (mkState (sent st6) (trace st6 ++ [submitted_print]))
  = (Ok true, st7) ->
  let st8 := before_verification st7 sig in
  sell_tokens contract amount pk st
  = match verification (answer (sent st8) (verify_request token_account))
            decimals current_balance with
    | Ok prints =>
        (Ok sig, after_request st8 (verify_request token_account) prints)
    | Raise e =>
        (Ok JNull,
         after_request st8 (verify_request token_account) [error_print e])
    end.
Proof.
  intros Hkb Hkp Ha Hb Hd Hle Hbal Hlt Hsc Hmul Hint Hquote Has Hss Hsj Hblob
         Hsign Hsend Hwait st8.
  sell_discovery kp contract Hkb Hkp Ha Hb Hd.
  erewrite try_bind_ok by (apply run_raise_if_false; exact Hle).
  erewrite try_bind_ok by (apply run_emit).
  erewrite try_bind_ok.
  2:{ unfold after_request in Hbal. cbn [sent trace].
      rewrite <- app_assoc. cbn [app]. exact Hbal. }
  erewrite try_bind_ok by (apply run_raise_if_false; exact Hlt).
  step_lift Hsc. step_lift Hmul. step_lift Hint. cbn zeta.
  step_with Hquote.
  erewrite try_bind_ok.
  2:{ unfold requests_post. fold (swap_request q (pubkey_str kp)).
      rewrite run_send. rewrite Has.
      fold (after_request st4 (swap_request q (pubkey_str kp)) []).
      reflexivity. }
  erewrite try_bind_ok
    by (apply run_raise_if_false; rewrite Hss; reflexivity).
  erewrite try_bind_ok by (unfold response_json; rewrite Hsj; reflexivity).
  step_lift Hblob. step_lift Hsign. step_with Hsend.
  erewrite try_bind_ok by (apply run_emit).
  step_with Hwait. cbv iota.
  erewrite try_bind_ok by (apply run_emit).
  erewrite try_bind_ok by (apply run_emit).
  cbn [sent trace]. rewrite <- app_assoc. cbn [app].
  fold (confirmed_print sig). fold (before_verification st7 sig). fold st8.
  unfold requests_post. fold (verify_request token_account).
  remember (verify_request token_account) as vreq.
  unfold verification.
  destruct (answer (sent st8) vreq) as [vresp|e] eqn:Hver.
  2:{ erewrite try_bind_raise by (rewrite run_send, Hver; reflexivity).
      unfold after_request. cbn. rewrite <- app_assoc. reflexivity. }
  erewrite try_bind_ok by (rewrite run_send, Hver; reflexivity).
  fold (after_request st8 vreq []).
  destruct (json_body vresp) as [vj|] eqn:Hvj.
  2:{ erewrite try_bind_raise by (unfold response_json; rewrite Hvj; reflexivity).
      unfold after_request. cbn. rewrite <- !app_assoc. reflexivity. }
  erewrite try_bind_ok by (unfold response_json; rewrite Hvj; reflexivity).
  unfold try_except, bind, lift, response_json, ret, raise, print, emit.
  rewrite Hvj.
  destruct (Py.contains "result" vj) as [[|]|]; cbn;
    try (unfold after_request; cbn; rewrite <- ?app_assoc; reflexivity).
  destruct (Py.getitem vj "result") as [vr|]; cbn;
    try (unfold after_request; cbn; rewrite <- ?app_assoc; reflexivity).
  destruct (Py.getitem vr "value") as [vv|]; cbn;
    try (unfold after_request; cbn; rewrite <- ?app_assoc; reflexivity).
  destruct (Py.getitem vv "amount") as [va|]; cbn;
    try (unfold after_request; cbn; rewrite <- ?app_assoc; reflexivity).
  destruct (float_of_json va) as [vf|]; cbn;
    try (unfold after_request; cbn; rewrite <- ?app_assoc; reflexivity).
  rewrite Hscale.
  assert (Hff : factor = scale) by congruence. subst factor. cbn.
  destruct (Py.float_truediv vf scale) as [nb|]; cbn;
    try (unfold after_request; cbn; rewrite <- ?app_assoc; reflexivity).
  destruct (Py.lt (PFloat nb) (PFloat current_balance)); cbn;
    unfold after_request; cbn; rewrite <- ?app_assoc; reflexivity.
Qed.

Lemma buy_tokens_quote_fails contract amount pk st kb kp bal st1 units e st2 :
  b58decode pk = Ok kb ->
  Keypair_from_bytes kb = Ok kp ->
  get_sol_balance (pubkey_str kp) st = (Ok bal, st1) ->
  Py.lt bal (PFloat amount) = false ->
  Py.int_of_float (Float64.mul amount Float64.lit_1e9) = Ok units ->
  get_quote SOL_ADDRESS contract (Py.str_of_int units) st1 = (Raise e, st2) ->
  buy_tokens contract amount pk st
  = (Ok JNull, mkState (sent st2) (trace st2 ++ [error_print e])).
Proof.
  intros Hkb Hkp Hbal Hlt Hunits Hq. unfold buy_tokens.
  step_lift Hkb. step_lift Hkp. cbn zeta. step_with Hbal.
  erewrite try_bind_ok by (apply run_raise_if_false; exact Hlt).
  step_lift (scale_lamports amount).
  erewrite try_bind_ok by (rewrite run_lift; cbn [Py.int]; rewrite Hunits; reflexivity).
  cbn zeta.
  erewrite try_bind_raise by exact Hq. reflexivity.
Qed.

Lemma buy_tokens_conversion_fails contract amount pk st kb kp bal st1 e :
  b58decode pk = Ok kb ->
  Keypair_from_bytes kb = Ok kp ->
  get_sol_balance (pubkey_str kp) st = (Ok bal, st1) ->
  Py.lt bal (PFloat amount) = false ->
  Py.int_of_float (Float64.mul amount Float64.lit_1e9) = Raise e ->
  buy_tokens contract amount pk st
  = (Ok JNull, mkState (sent st1) (trace st1 ++ [error_print e])).
Proof.
  intros Hkb Hkp Hbal Hlt Hunits. unfold buy_tokens.
  step_lift Hkb. step_lift Hkp. cbn zeta. step_with Hbal.
  erewrite try_bind_ok by (apply run_raise_if_false; exact Hlt).
  step_lift (scale_lamports amount).
  erewrite try_bind_raise
    by (rewrite run_lift; cbn [Py.int]; rewrite Hunits; reflexivity).
  reflexivity.
Qed.

End Program.




(* ================================================================= *)
(** ** The stand-in libraries *)

Lemma example_parse_serialize (t : list Byte.byte * bytes) :
  Example.parse (Example.serialize t) = Ok t.
Proof.
  destruct t as [sigs msg]. unfold Example.serialize. cbn [fst snd].
  induction sigs as [|s sigs IH]; cbn [flat_map app Example.parse].
  - reflexivity.
  - now rewrite IH.
Qed.

Lemma example_parse_serialize_v0 (t : list Byte.byte * bytes) :
  Example.parse_v0 (Example.serialize_v0 t) = Ok t.
Proof.
  destruct t as [sigs msg]. unfold Example.serialize_v0. cbn [fst snd].
  induction sigs as [|s sigs IH]; cbn [flat_map app Example.parse_v0].
  - reflexivity.
  - now rewrite IH.
Qed.

Lemma example_decode_encode (b : bytes) :
  Ok (list_byte_of_string (string_of_list_byte b)) = Ok b.
Proof. now rewrite list_byte_of_string_of_list_byte. Qed.

(** The stand-in libraries satisfy the laws. *)
Lemma example_library_laws : LibraryLaws Example.libraries Example.wire.
Proof.
  constructor.
  - exact example_decode_encode.
  - exact example_parse_serialize.
  - reflexivity.
  - reflexivity.
  - intros [sigs msg]. cbn. unfold Example.serialize, Example.write_signatures.
    cbn [fst snd]. now rewrite <- app_assoc.
  - reflexivity.
Qed.

Lemma example_library_laws_v0 :
  LibraryLaws Example.libraries_v0 Example.wire_v0.
Proof.
  constructor.
  - exact example_decode_encode.
  - exact example_parse_serialize_v0.
  - reflexivity.
  - reflexivity.
  - intros [sigs msg]. cbn.
    unfold Example.serialize_v0, Example.write_signatures.
    cbn [fst snd]. now rewrite <- app_assoc.
  - reflexivity.
Qed.

(* ================================================================= *)
(** ** Computations that cannot raise, and inversion of a run *)

Lemma never_raises_ret {A} (a : A) : never_raises (ret a).
Proof. intros st. now exists a. Qed.

Lemma never_raises_emit ev : never_raises (emit ev).
Proof. intros st. now exists tt. Qed.

Lemma never_raises_bind {A B} (m : M A) (k : A -> M B) :
  never_raises m -> (forall a, never_raises (k a)) -> never_raises (bind m k).
Proof.
  intros Hm Hk st. unfold bind. destruct (Hm st) as [a Ha].
  destruct (m st) as [[a'|e] st1]; cbn in Ha; [|discriminate].
  apply Hk.
Qed.

Lemma never_raises_try {A} (m : M A) (h : exn -> M A) :
  (forall e, never_raises (h e)) -> never_raises (try_except m h).
Proof.
  intros Hh st. unfold try_except.
  destruct (m st) as [[a|e] st1]; [now exists a | apply Hh].
Qed.

Lemma bind_inv_ok {A B} (m : M A) (k : A -> M B) st b st' :
  bind m k st = (Ok b, st') ->
  exists a st1, m st = (Ok a, st1) /\ k a st1 = (Ok b, st').
Proof.
  unfold bind. destruct (m st) as [[a|e] st1]; [|discriminate].
  intros H. now exists a, st1.
Qed.

Lemma try_inv_ok {A} (m : M A) (h : exn -> M A) st a st' :
  try_except m h st = (Ok a, st') ->
  m st = (Ok a, st') \/ exists e st1, m st = (Raise e, st1) /\ h e st1 = (Ok a, st').
Proof.
  unfold try_except. destruct (m st) as [[a'|e] st1].
  - intros H. now left.
  - intros H. right. now exists e, st1.
Qed.

Section Outcomes.
Context {net : Network} {builtins : Builtins} {libs : Libraries}.
Import SolSwap Spec.

Lemma never_raises_poll_once sig : never_raises (poll_once sig).
Proof.
  intros st. destruct (poll_once_first sig st) as (r & logs & ->). now exists r.
Qed.

Lemma never_raises_wait_loop n sig : never_raises (wait_loop n sig).
Proof.
  induction n as [|n IH]; cbn [wait_loop]; [apply never_raises_ret|].
  apply never_raises_bind; [apply never_raises_poll_once|].
  intros [b|]; [apply never_raises_ret|].
  apply never_raises_bind; [apply never_raises_emit|]. intros _. exact IH.
Qed.

Lemma never_raises_buy_tokens c a pk : never_raises (buy_tokens c a pk).
Proof.
  unfold buy_tokens. apply never_raises_try. intros e.
  apply never_raises_bind; [apply never_raises_emit|].
  intros _. apply never_raises_ret.
Qed.

Lemma never_raises_sell_tokens c a pk : never_raises (sell_tokens c a pk).
Proof.
  unfold sell_tokens. apply never_raises_try. intros e.
  apply never_raises_bind; [apply never_raises_emit|].
  intros _. apply never_raises_ret.
Qed.

(** The number of requests of [wait_loop] is at most [n]. *)
Lemma wait_loop_bound n : forall sig st,
  exists k, (k <= n)%nat /\
    requests_of (trace (snd (wait_loop n sig st)))
    = requests_of (trace st) ++ repeat (poll_request sig) k
    /\ sent (snd (wait_loop n sig st)) = (sent st + k)%nat
    /\ (sleeps_of (trace (snd (wait_loop n sig st)))
        <= sleeps_of (trace st) + k)%nat.
Proof.
  induction n as [|n IH]; intros sig st.
  - exists 0%nat. cbn. rewrite app_nil_r. repeat split; lia.
  - cbn [wait_loop].
    destruct (transaction_result (answer (sent st) (poll_request sig)))
      as [err|] eqn:H.
    + destruct (poll_once_result sig st err H) as (logs & Hrun & Hsl & Hreq & _).
      rewrite (run_bind_ok _ _ _ _ _ Hrun). unfold ret. cbn [snd].
      destruct (after_request_facts st (poll_request sig) logs Hsl Hreq)
        as (-> & -> & ->).
      exists 1%nat. cbn. repeat split; lia.
    + destruct (poll_once_none sig st H) as (logs & Hrun & Hsl & Hreq & _).
      rewrite (run_bind_ok _ _ _ _ _ Hrun).
      unfold sleep. rewrite (run_bind_ok _ _ _ _ _ (run_emit _ _)).
      destruct (after_request_facts st (poll_request sig) logs Hsl Hreq)
        as (Es & Esl & Erq).
      set (st1 := mkState _ _).
      assert (Es1 : sent st1 = S (sent st)) by exact Es.
      assert (Esl1 : sleeps_of (trace st1) = S (sleeps_of (trace st))).
      { subst st1. cbn [trace]. rewrite sleeps_of_app, Esl. cbn. lia. }
      assert (Erq1 : requests_of (trace st1)
                     = requests_of (trace st) ++ [poll_request sig]).
      { subst st1. cbn [trace]. rewrite requests_of_app, Erq. cbn.
        now rewrite app_nil_r. }
      clearbody st1.
      destruct (IH sig st1) as (k & Hk & Hr & Hs & Hsl').
      exists (S k). rewrite Hr, Hs, Erq1, Es1, <- app_assoc. cbn.
      repeat split; lia.
Qed.

(** [wait_loop] answers [true] only after a poll that returned a
    transaction result without error. *)
Lemma wait_loop_true_inv n : forall sig st st',
  wait_loop n sig st = (Ok true, st') ->
  exists k err,
    (k < n)%nat
    /\ (forall i, (i < k)%nat ->
          transaction_result (answer (sent st + i) (poll_request sig)) = None)
    /\ transaction_result (answer (sent st + k) (poll_request sig)) = Some err
    /\ Py.is_None err = true.
Proof.
  induction n as [|n IH]; intros sig st st'; cbn [wait_loop].
  - unfold ret. intros [= ].
  - destruct (transaction_result (answer (sent st) (poll_request sig)))
      as [err|] eqn:H.
    + destruct (poll_once_result sig st err H) as (logs & Hrun & _).
      rewrite (run_bind_ok _ _ _ _ _ Hrun). unfold ret. intros [= Hn _].
      exists 0%nat, err. rewrite Nat.add_0_r. repeat split; try lia; assumption.
    + destruct (poll_once_none sig st H) as (logs & Hrun & Hsl & Hreq & _).
      rewrite (run_bind_ok _ _ _ _ _ Hrun).
      unfold sleep. rewrite (run_bind_ok _ _ _ _ _ (run_emit _ _)).
      intros Hrec. apply IH in Hrec.
      destruct Hrec as (k & err & Hk & Hnone & Hres & Hn).
      cbn [sent after_request] in Hnone, Hres.
      exists (S k), err. repeat split; try lia; try assumption.
      * intros i Hi. destruct i as [|i]; [now rewrite Nat.add_0_r|].
        replace (sent st + S i)%nat with (S (sent st) + i)%nat by lia.
        apply Hnone. lia.
      * replace (sent st + S k)%nat with (S (sent st) + k)%nat by lia.
        exact Hres.
Qed.
End Outcomes.

(* ================================================================= *)
(** ** What a run that returned went through *)

(** Splits the first step off a run [x <- m;; k] that returned. *)
Ltac inv_bind H x s Hx :=
  cbv beta zeta in H;
  apply bind_inv_ok in H; destruct H as (x & s & Hx & H).

(** The same for a pure step, which leaves the state alone. *)
Ltac inv_lift H x Hx :=
  let s := fresh "s" in
  let Hs := fresh "Hs" in
  inv_bind H x s Hx; rewrite run_lift in Hx;
  injection Hx as Hx Hs; subst s.

Lemma raise_if_inv_ok c e st u st' :
  SolSwap.raise_if c e st = (Ok u, st') -> c = false /\ st' = st.
Proof. destruct c; cbn; [discriminate|]. now intros [= _ <-]. Qed.

Lemma emit_inv_ok ev st u st' :
  emit ev st = (Ok u, st') -> st' = Spec.add_events st [ev].
Proof. now intros [= _ <-]. Qed.

Lemma response_json_inv_ok r st j st' :
  response_json r st = (Ok j, st') -> json_body r = Some j /\ st' = st.
Proof.
  unfold response_json. destruct (json_body r); cbn; [|discriminate].
  now intros [= <- <-].
Qed.

Lemma requests_post_inv_ok {net : Network} url body headers st resp st' :
  requests_post url body headers st = (Ok resp, st') ->
  answer (sent st) (POST url body headers) = Ok resp
  /\ st' = after_request st (POST url body headers) [].
Proof. unfold requests_post. rewrite run_send. now intros [= -> <-]. Qed.

Ltac inv_raise_if H Hc :=
  let u := fresh "u" in
  let s := fresh "s" in
  let Hs := fresh "Hs" in
  inv_bind H u s Hc; apply raise_if_inv_ok in Hc; destruct Hc as [Hc Hs];
  subst s.

Ltac inv_print H :=
  let u := fresh "u" in
  let s := fresh "s" in
  let Hs := fresh "Hs" in
  inv_bind H u s Hs; apply emit_inv_ok in Hs; subst s.

Section Inversion.
Context {net : Network} {builtins : Builtins} {libs : Libraries}.
Import SolSwap Spec.

Lemma buy_tokens_inv contract amount pk st v st' :
  buy_tokens contract amount pk st = (Ok v, st') ->
  v <> JNull ->
  exists kb kp bal st1 units q st2 rs sj blob enc st4 st5,
    b58decode pk = Ok kb
    /\ Keypair_from_bytes kb = Ok kp
    /\ get_sol_balance (pubkey_str kp) st = (Ok bal, st1)
    /\ Py.lt bal (PFloat amount) = false
    /\ Py.int_of_float (Float64.mul amount Float64.lit_1e9) = Ok units
    /\ get_quote SOL_ADDRESS contract (Py.str_of_int units) st1 = (Ok q, st2)
    /\ answer (sent st2) (swap_request q (pubkey_str kp)) = Ok rs
    /\ status_code rs = 200
    /\ json_body rs = Some sj
    /\ Py.getitem sj "swapTransaction" = Ok blob
    /\ sign_transaction kp blob = Ok enc
    /\ send_transaction enc
         (after_request st2 (swap_request q (pubkey_str kp)) [])
       = (Ok v, st4)
    /\ wait_for_transaction_confirmation v default_max_retries
         (add_events st4 [submitted_print])
       = (Ok true, st5)
    /\ st' = add_events st5 [confirmed_print v].
Proof.
  intros H Hv. unfold buy_tokens in H.
  apply try_inv_ok in H. destruct H as [H | (e & s & _ & H)].
  2:{ inv_print H. unfold ret in H. injection H as <- _. contradiction. }
  inv_lift H kb Hkb. inv_lift H kp Hkp.
  inv_bind H bal st1 Hbal.
  inv_raise_if H Hlt.
  inv_bind H scaled s0 Hscaled.
  rewrite run_lift, scale_lamports in Hscaled. injection Hscaled as <- <-.
  inv_lift H units Hunits. cbn [Py.int] in Hunits.
  inv_bind H q st2 Hq.
  inv_bind H rs s3 Hrs. apply requests_post_inv_ok in Hrs.
  destruct Hrs as [Hrs ->].
  inv_raise_if H Hss. apply negb_false_iff, Z.eqb_eq in Hss.
  inv_bind H sj s4 Hsj. apply response_json_inv_ok in Hsj.
  destruct Hsj as [Hsj ->].
  inv_lift H blob Hblob. inv_lift H enc Hsign.
  inv_bind H tx_sig st4 Hsend.
  inv_print H.
  inv_bind H confirmed st5 Hwait.
  destruct confirmed.
  - inv_print H. unfold ret in H. injection H as <- <-.
    exists kb, kp, bal, st1, units, q, st2, rs, sj, blob, enc, st4, st5.
    repeat (split; [assumption|]). reflexivity.
  - inv_print H. unfold ret in H. injection H as <- _. contradiction.
Qed.
Lemma add_events_after_request st r evs :
  add_events (after_request st r []) evs = after_request st r evs.
Proof.
  unfold add_events, after_request. cbn [sent trace].
  now rewrite <- app_assoc.
Qed.

Lemma sell_tokens_inv contract amount pk st v st' :
  sell_tokens contract amount pk st = (Ok v, st') ->
  v <> JNull ->
  exists kb kp resp data token_account decimals current_balance bal st3
         factor scaled units q st4 rs sj blob enc st6 st7 prints,
    b58decode pk = Ok kb
    /\ Keypair_from_bytes kb = Ok kp
    /\ answer (sent st) (token_accounts_request (pubkey_str kp) contract)
       = Ok resp
    /\ json_body resp = Some data
    /\ discovered data token_account decimals current_balance
    /\ Py.le (resolve_amount amount current_balance) (PInt 0) = false
    /\ get_sol_balance (pubkey_str kp)
         (after_request st (token_accounts_request (pubkey_str kp) contract)
            [selling_print (resolve_amount amount current_balance)])
       = (Ok bal, st3)
    /\ Py.lt bal (PFloat Float64.lit_0_002) = false
    /\ pow10 decimals = Ok factor
    /\ Py.mul (resolve_amount amount current_balance) factor = Ok scaled
    /\ Py.int scaled = Ok units
    /\ get_quote contract SOL_ADDRESS (Py.str_of_int units) st3 = (Ok q, st4)
    /\ answer (sent st4) (swap_request q (pubkey_str kp)) = Ok rs
    /\ status_code rs = 200
    /\ json_body rs = Some sj
    /\ Py.getitem sj "swapTransaction" = Ok blob
    /\ sign_transaction kp blob = Ok enc
    /\ send_transaction enc
         (after_request st4 (swap_request q (pubkey_str kp)) [])
       = (Ok v, st6)
    /\ wait_for_transaction_confirmation v default_max_retries
         (add_events st6 [submitted_print])
       = (Ok true, st7)
    /\ verification
         (answer (sent (before_verification st7 v))
            (verify_request token_account))
         decimals current_balance
       = Ok prints
    /\ st' = after_request (before_verification st7 v)
               (verify_request token_account) prints.
Proof.
  intros Hrun Hv. pose proof Hrun as H. unfold sell_tokens in H.
  apply try_inv_ok in H. destruct H as [H | (e & s & _ & H)].
  2:{ inv_print H. unfold ret in H. injection H as <- _. contradiction. }
  inv_lift H kb Hkb. inv_lift H kp Hkp.
  inv_bind H resp s1 Ha. apply requests_post_inv_ok in Ha.
  fold (token_accounts_request (pubkey_str kp) contract) in Ha.
  destruct Ha as [Ha ->].
  inv_bind H data s2 Hb. apply response_json_inv_ok in Hb.
  destruct Hb as [Hb ->].
  inv_lift H has_result Hc.
  inv_bind H u s3 Hchk.
  destruct has_result; cbn [negb] in Hchk; [|discriminate Hchk].
  inv_lift Hchk r Hr. inv_lift Hchk vl Hval.
  apply raise_if_inv_ok in Hchk. destruct Hchk as [Ht ->].
  apply negb_false_iff in Ht.
  inv_lift H acc Hacc. inv_lift H token_account Hpub.
  inv_lift H acc1 Hacc1. rewrite Hacc in Hacc1. injection Hacc1 as <-.
  inv_lift H decimals Hdec.
  inv_lift H acc2 Hacc2. rewrite Hacc in Hacc2. injection Hacc2 as <-.
  inv_lift H raw Hamt. inv_lift H rawf Hf. inv_lift H factor Hscale.
  inv_lift H current_balance Hdiv.
  unfold first_account in Hacc. rewrite Hr, Hval in Hacc.
  inv_raise_if H Hle. inv_print H.
  rewrite add_events_after_request in H.
  inv_bind H bal st3 Hbal.
  inv_raise_if H Hlt.
  inv_lift H factor' Hscale'. rewrite Hscale in Hscale'.
  injection Hscale' as <-.
  inv_lift H scaled Hmul. inv_lift H units Hint.
  inv_bind H q st4 Hq.
  inv_bind H rs s4 Hrs. apply requests_post_inv_ok in Hrs.
  fold (swap_request q (pubkey_str kp)) in Hrs.
  destruct Hrs as [Hrs ->].
  inv_raise_if H Hss. apply negb_false_iff, Z.eqb_eq in Hss.
  inv_bind H sj s5 Hsj. apply response_json_inv_ok in Hsj.
  destruct Hsj as [Hsj ->].
  inv_lift H blob Hblob. inv_lift H enc Hsign.
  inv_bind H tx_sig st6 Hsend.
  inv_print H.
  inv_bind H confirmed st7 Hwait.
  assert (Hd : discovered data token_account decimals current_balance).
  { exists r, vl, acc, raw, rawf, factor. repeat split; assumption. }
  destruct confirmed.
  2:{ inv_print H. unfold ret in H. injection H as <- _. contradiction. }
  clear H.
  pose proof (sell_tokens_after_confirmation _ amount _ st _ _ _ _ _ _ _ _ _
                _ _ _ _ _ _ _ _ _ _ _ _
                Hkb Hkp Ha Hb Hd Hle Hbal Hlt Hscale Hmul Hint Hq Hrs Hss Hsj
                Hblob Hsign Hsend Hwait) as Hfwd.
  cbv zeta in Hfwd. rewrite Hrun in Hfwd.
  destruct (verification
              (answer (sent (before_verification st7 tx_sig))
                 (verify_request token_account))
              decimals current_balance) as [prints|e] eqn:Hver.
  2:{ injection Hfwd as -> _. contradiction. }
  injection Hfwd as -> ->.
  exists kb, kp, resp, data, token_account, decimals, current_balance, bal,
    st3, factor, scaled, units, q, st4, rs, sj, blob, enc, st6, st7, prints.
  repeat (split; [assumption|]). reflexivity.
Qed.
End Inversion.

(* ================================================================= *)
(** ** Malformed answers and other edges *)

Lemma SFcompare_refl_not_Lt (x : float) : SFcompare x x <> Some Lt.
Proof.
  destruct x as [s|s| |s m e]; cbn; try discriminate.
  - destruct s; discriminate.
  - destruct s; rewrite Z.compare_refl, ?Pos.compare_cont_refl;
      cbn; discriminate.
Qed.

Lemma float_lt_irrefl (x : float) : Py.lt (PFloat x) (PFloat x) = false.
Proof.
  unfold Py.lt, Py.compare, Py.cmp_to.
  pose proof (SFcompare_refl_not_Lt x) as H.
  destruct (SFcompare x x) as [[| |]|]; try reflexivity. now elim H.
Qed.

(** An answer without result carries no transaction result. *)
Lemma no_result_yet_none (a : result response) :
  Spec.no_result_yet a = true -> Spec.transaction_result a = None.
Proof.
  unfold Spec.no_result_yet, Spec.transaction_result.
  destruct a as [resp|e]; [|reflexivity].
  destruct (status_code resp =? 200); [|reflexivity].
  destruct (json_body resp) as [[| | | | | |kv]|]; try reflexivity.
  destruct (Py.lookup "result" kv) as [r|]; [|reflexivity].
  destruct r as [|b|z|f|s|l|rkv]; cbn; try reflexivity.
  destruct rkv; [reflexivity|discriminate].
Qed.

Section Edges.
Context {net : Network} {builtins : Builtins} {libs : Libraries}.
Import SolSwap Spec.

Lemma send_relay_bad_body enc st resp :
  answer (sent st) (relay_request enc) = Ok resp ->
  status_code resp = 200 ->
  forall e,
    (json_body resp = None /\ e = json_error resp)
    \/ (exists body, json_body resp = Some body
                     /\ Py.get body "txid" = Raise e) ->
    send_transaction enc st
    = (Raise e, after_request st (relay_request enc) [send_log e]).
Proof.
  intros Ha Hs e Hcase. unfold send_transaction, requests_post.
  fold (relay_request enc). remember (relay_request enc) as req.
  run_monad. rewrite Ha. cbn. rewrite Hs. cbn. unfold after_request.
  destruct Hcase as [[Hb ->] | (body & Hb & Hg)]; rewrite Hb; cbn.
  - rewrite <- app_assoc. reflexivity.
  - rewrite Hg. cbn. rewrite <- app_assoc. reflexivity.
Qed.

Lemma get_sol_balance_raised pk st e :
  answer (sent st) (balance_request pk) = Raise e ->
  get_sol_balance pk st
  = (Ok (PInt 0), after_request st (balance_request pk) [balance_log e]).
Proof.
  intros Ha. unfold get_sol_balance. run_monad. fold (balance_request pk).
  rewrite Ha. cbn. unfold after_request. rewrite <- app_assoc. reflexivity.
Qed.

Lemma get_sol_balance_not_200 pk st resp :
  answer (sent st) (balance_request pk) = Ok resp ->
  status_code resp <> 200 ->
  get_sol_balance pk st
  = (Ok (PInt 0), after_request st (balance_request pk) []).
Proof.
  intros Ha Hs. unfold get_sol_balance. run_monad. fold (balance_request pk).
  rewrite Ha. cbn. apply Z.eqb_neq in Hs. rewrite Hs. reflexivity.
Qed.

Lemma get_sol_balance_no_result pk st resp body :
  answer (sent st) (balance_request pk) = Ok resp ->
  status_code resp = 200 ->
  json_body resp = Some body ->
  Py.contains "result" body = Ok false ->
  get_sol_balance pk st
  = (Ok (PInt 0), after_request st (balance_request pk) []).
Proof.
  intros Ha Hs Hb Hc. unfold get_sol_balance. run_monad.
  fold (balance_request pk).
  rewrite Ha. cbn. rewrite Hs. cbn. rewrite Hb. cbn. rewrite Hc. reflexivity.
Qed.

Lemma get_sol_balance_malformed pk st resp e :
  answer (sent st) (balance_request pk) = Ok resp ->
  status_code resp = 200 ->
  (json_body resp = None /\ e = json_error resp)
  \/ (exists body,
        json_body resp = Some body
        /\ (Py.contains "result" body = Raise e
            \/ (Py.contains "result" body = Ok true
                /\ (Py.getitem body "result" = Raise e
                    \/ exists r,
                         Py.getitem body "result" = Ok r
                         /\ (Py.getitem r "value" = Raise e
                             \/ exists v,
                                  Py.getitem r "value" = Ok v
                                  /\ float_of_json v = Raise e))))) ->
  get_sol_balance pk st
  = (Ok (PInt 0), after_request st (balance_request pk) [balance_log e]).
Proof.
  intros Ha Hs Hcase. unfold get_sol_balance. run_monad.
  fold (balance_request pk).
  rewrite Ha. cbn. rewrite Hs. cbn. unfold after_request.
  destruct Hcase as [[Hb ->] | (body & Hb & Hcase)]; rewrite Hb; cbn.
  { rewrite <- app_assoc. reflexivity. }
  destruct Hcase as [Hc | (Hc & Hcase)]; rewrite Hc; cbn.
  { rewrite <- app_assoc. reflexivity. }
  destruct Hcase as [Hr | (r & Hr & Hcase)]; rewrite Hr; cbn.
  { rewrite <- app_assoc. reflexivity. }
  destruct Hcase as [Hv | (v & Hv & Hf)]; rewrite Hv; cbn.
  { rewrite <- app_assoc. reflexivity. }
  rewrite Hf. cbn. rewrite <- app_assoc. reflexivity.
Qed.

Lemma poll_once_bad_meta sig st resp kv rkv m :
  answer (sent st) (poll_request sig) = Ok resp ->
  status_code resp = 200 ->
  json_body resp = Some (JDict kv) ->
  Py.lookup "result" kv = Some (JDict rkv) ->
  Py.lookup "meta" rkv = Some m ->
  (forall mkv, m <> JDict mkv) ->
  poll_once sig st
  = (Ok None,
     after_request st (poll_request sig) [poll_warning AttributeError]).
Proof.
  intros Ha Hs Hb Hr Hm Hnd. unfold poll_once. run_monad.
  fold (poll_request sig). rewrite Ha. cbn. rewrite Hs. cbn. rewrite Hb. cbn.
  rewrite Hr. cbn.
  assert (Ht : (match rkv with [] => false | _ :: _ => true end) = true).
  { destruct rkv; [discriminate|reflexivity]. }
  rewrite Ht, Hm. unfold after_request.
  destruct m; cbn; try (rewrite <- app_assoc; reflexivity).
  now elim (Hnd kv0).
Qed.

(** The last events of a run of [wait_loop] that ends on a transaction
    result. *)
Lemma wait_loop_result_last k : forall n sig st err,
  (k < n)%nat ->
  (forall i, (i < k)%nat ->
     transaction_result (answer (sent st + i) (poll_request sig)) = None) ->
  transaction_result (answer (sent st + k) (poll_request sig)) = Some err ->
  exists before,
    trace (snd (wait_loop n sig st))
    = before
        ++ EvRequest (poll_request sig)
        :: (if Py.is_None err then []
            else [EvLog ERROR [Lit "Transaction failed: "; Fmt (FJson err)]]).
Proof.
  induction k as [|k IH]; intros n sig st err Hk Hnone Hres.
  - destruct n as [|n]; [lia|]. cbn [wait_loop].
    rewrite Nat.add_0_r in Hres.
    destruct (poll_once_result sig st err Hres)
      as (logs & Hrun & _ & _ & Hf & Ht).
    rewrite (run_bind_ok _ _ _ _ _ Hrun). unfold ret. cbn [snd].
    exists (trace st). unfold after_request. cbn [trace].
    destruct (Py.is_None err); [now rewrite Ht | now rewrite Hf].
  - destruct n as [|n]; [lia|]. cbn [wait_loop].
    assert (H0 : transaction_result (answer (sent st) (poll_request sig)) = None).
    { specialize (Hnone 0%nat). rewrite Nat.add_0_r in Hnone. apply Hnone. lia. }
    destruct (poll_once_none sig st H0) as (logs & Hrun & _).
    rewrite (run_bind_ok _ _ _ _ _ Hrun).
    unfold sleep. rewrite (run_bind_ok _ _ _ _ _ (run_emit _ _)).
    apply IH.
    + lia.
    + intros i Hi. cbn [sent after_request].
      replace (S (sent st) + i)%nat with (sent st + S i)%nat by lia.
      apply Hnone. lia.
    + cbn [sent after_request].
      replace (S (sent st) + k)%nat with (sent st + S k)%nat by lia.
      exact Hres.
Qed.
End Edges.

(* ================================================================= *)
(** ** The command-line session *)

Lemma requests_of_add_prints st evs :
  requests_of evs = [] ->
  requests_of (trace (Spec.add_events st evs)) = requests_of (trace st).
Proof.
  intros H. unfold Spec.add_events. cbn [trace].
  now rewrite requests_of_app, H, app_nil_r.
Qed.

Section Session.
Context {net : Network} {builtins : Builtins} {libs : Libraries}.
Import SolSwap Spec.

(** The four writes that open each turn. *)
Lemma main_loop_menu pk inputs st :
  main_loop pk inputs st
  = match inputs with
    | [] => (Raise EOFError, add_events st menu_events)
    | choice :: inputs1 =>
        if String.eqb choice "3" then
          (Ok tt,
           add_events st
             (menu_events
                ++ [EvPrint [Lit "Thank you for using Solana Token Trader!"]]))
        else if not_buy_or_sell choice then
          main_loop pk inputs1
            (add_events st (menu_events ++ [EvPrint [Lit "Invalid choice"]]))
        else
          match inputs1 with
          | [] => (Raise EOFError, add_events st (menu_events ++ [contract_prompt]))
          | contract_address :: inputs2 =>
              if String.eqb choice "1" then
                match inputs2 with
                | [] =>
                    (Raise EOFError,
                     add_events st
                       (menu_events ++ [contract_prompt; buy_amount_prompt]))
                | amount_input :: inputs3 =>
                    bind
                      (try_except
                         (amount <- lift (float_of_str amount_input);;
                          print [Lit (String "010" "Initiating buy of tokens for ");
                                 Fmt (FNum (PFloat amount)); Lit " SOL..."];;
                          tx_sig <- buy_tokens contract_address amount pk;;
                          report_failure tx_sig)
                         invalid_amount)
                      (fun _ => main_loop pk inputs3)
                      (add_events st
                         (menu_events ++ [contract_prompt; buy_amount_prompt]))
                end
              else
                match inputs2 with
                | [] =>
                    (Raise EOFError,
                     add_events st
                       (menu_events ++ [contract_prompt; sell_amount_prompt]))
                | amount_input :: inputs3 =>
                    bind
                      (try_except
                         (amount <- (if String.eqb amount_input ""
                                     then ret (PInt 0)
                                     else f <- lift (float_of_str amount_input);;
                                          ret (PFloat f));;
                          print [Lit (String "010" "Initiating sell of tokens...")];;
                          tx_sig <- sell_tokens contract_address amount pk;;
                          report_failure tx_sig)
                         invalid_amount)
                      (fun _ => main_loop pk inputs3)
                      (add_events st
                         (menu_events ++ [contract_prompt; sell_amount_prompt]))
                end
          end
    end.
Proof.
  destruct inputs as [|choice inputs1]; cbn [main_loop];
    [|destruct (String.eqb choice "3");
      [|destruct (not_buy_or_sell choice);
        [|destruct inputs1 as [|contract_address inputs2];
          [|destruct (String.eqb choice "1");
            destruct inputs2 as [|amount_input inputs3]]]]];
    unfold write_prompt;
    unfold bind, print, emit, ret, add_events, menu_events,
      contract_prompt, buy_amount_prompt, sell_amount_prompt;
    cbn [sent trace fst snd]; rewrite <- ?app_assoc; cbn [app]; reflexivity.
Qed.

Lemma add_events_app st a b :
  add_events (add_events st a) b = add_events st (a ++ b).
Proof. unfold add_events. cbn [sent trace]. now rewrite app_assoc. Qed.

Lemma add_events_nil st : add_events st [] = st.
Proof. destruct st. unfold add_events. cbn. now rewrite app_nil_r. Qed.

Lemma run_report_failure v st :
  report_failure v st = (Ok tt, add_events st (report_events v)).
Proof.
  unfold report_failure, report_events.
  destruct (Py.truthy v); cbn; [now rewrite add_events_nil | reflexivity].
Qed.

Lemma buy_turn_invalid c s pk st e :
  float_of_str s = Raise e -> is_ValueError e = true ->
  try_except
    (amount <- lift (float_of_str s);;
     print [Lit (String "010" "Initiating buy of tokens for ");
            Fmt (FNum (PFloat amount)); Lit " SOL..."];;
     tx_sig <- buy_tokens c amount pk;;
     report_failure tx_sig)
    invalid_amount st
  = (Ok tt, add_events st [invalid_amount_print]).
Proof.
  intros Hf He.
  erewrite try_bind_raise by (rewrite run_lift, Hf; reflexivity).
  unfold invalid_amount. rewrite He. reflexivity.
Qed.

Lemma buy_turn_runs c s pk st f v st2 :
  float_of_str s = Ok f ->
  buy_tokens c f pk (add_events st [buy_start_print f]) = (Ok v, st2) ->
  try_except
    (amount <- lift (float_of_str s);;
     print [Lit (String "010" "Initiating buy of tokens for ");
            Fmt (FNum (PFloat amount)); Lit " SOL..."];;
     tx_sig <- buy_tokens c amount pk;;
     report_failure tx_sig)
    invalid_amount st
  = (Ok tt, add_events st2 (report_events v)).
Proof.
  intros Hf Hbuy.
  step_lift Hf. erewrite try_bind_ok by (apply run_emit).
  erewrite try_bind_ok by exact Hbuy.
  erewrite run_try_ok; [reflexivity|]. apply run_report_failure.
Qed.

Lemma sell_turn_invalid c s pk st e :
  String.eqb s "" = false ->
  float_of_str s = Raise e -> is_ValueError e = true ->
  try_except
    (amount <- (if String.eqb s "" then ret (PInt 0)
                else f <- lift (float_of_str s);; ret (PFloat f));;
     print [Lit (String "010" "Initiating sell of tokens...")];;
     tx_sig <- sell_tokens c amount pk;;
     report_failure tx_sig)
    invalid_amount st
  = (Ok tt, add_events st [invalid_amount_print]).
Proof.
  intros Hs Hf He. rewrite Hs.
  erewrite try_bind_raise
    by (erewrite run_bind_raise by (rewrite run_lift, Hf; reflexivity);
        reflexivity).
  unfold invalid_amount. rewrite He. reflexivity.
Qed.

Lemma sell_amount_of_raise s e :
  sell_amount_of s = Raise e ->
  String.eqb s "" = false /\ float_of_str s = Raise e.
Proof.
  unfold sell_amount_of. destruct (String.eqb s ""); [discriminate|].
  destruct (float_of_str s); [discriminate|]. now intros [= ->].
Qed.

Lemma sell_turn_runs c s pk st amount v st2 :
  sell_amount_of s = Ok amount ->
  sell_tokens c amount pk (add_events st [sell_start_print]) = (Ok v, st2) ->
  try_except
    (amount <- (if String.eqb s "" then ret (PInt 0)
                else f <- lift (float_of_str s);; ret (PFloat f));;
     print [Lit (String "010" "Initiating sell of tokens...")];;
     tx_sig <- sell_tokens c amount pk;;
     report_failure tx_sig)
    invalid_amount st
  = (Ok tt, add_events st2 (report_events v)).
Proof.
  unfold sell_amount_of. intros Ha Hsell.
  erewrite try_bind_ok.
  2:{ destruct (String.eqb s ""); [injection Ha as <-; reflexivity|].
      destruct (float_of_str s) as [f|] eqn:Hf; [|discriminate].
      injection Ha as <-.
      erewrite run_bind_ok by (rewrite run_lift; reflexivity).
      reflexivity. }
  erewrite try_bind_ok by (apply run_emit).
  erewrite try_bind_ok by exact Hsell.
  erewrite run_try_ok; [reflexivity|]. apply run_report_failure.
Qed.

(** The loop ends by the menu's exit, which takes a line "3", or by the
    [EOFError] of [input], and in no other way, when [float] raises
    nothing but [ValueError] on strings. *)
Lemma main_loop_ends pk :
  (forall s e, float_of_str s = Raise e -> is_ValueError e = true) ->
  forall n inputs st,
    (List.length inputs <= n)%nat ->
    (fst (main_loop pk inputs st) = Ok tt /\ In "3" inputs)
    \/ fst (main_loop pk inputs st) = Raise EOFError.
Proof.
  intros Hfloat.
  assert (Hnext : forall (pre rest : list string) (r : result unit),
            (r = Ok tt /\ In "3" rest) \/ r = Raise EOFError ->
            (r = Ok tt /\ In "3" (pre ++ rest)) \/ r = Raise EOFError).
  { intros pre rest r [[Hok Hin] | Heof]; [left | now right].
    split; [exact Hok|]. apply in_or_app. now right. }
  induction n as [|n IH]; intros inputs st Hlen.
  - destruct inputs; [|cbn in Hlen; lia]. rewrite main_loop_menu. now right.
  - rewrite main_loop_menu.
    destruct inputs as [|choice inputs1]; [now right|].
    cbn [List.length] in Hlen.
    destruct (String.eqb choice "3") eqn:H3.
    { apply String.eqb_eq in H3. subst choice. left. split; [reflexivity|].
      now left. }
    destruct (not_buy_or_sell choice).
    { apply (Hnext [choice]). apply IH. lia. }
    destruct inputs1 as [|c inputs2]; [now right|].
    cbn [List.length] in Hlen.
    destruct (String.eqb choice "1").
    + destruct inputs2 as [|s inputs3]; [now right|].
      cbn [List.length] in Hlen.
      set (st1 := add_events st _).
      destruct (float_of_str s) as [f|e] eqn:Hf; rewrite <- Hf.
      * destruct (never_raises_buy_tokens c f pk
                    (add_events st1 [buy_start_print f])) as [v Hv].
        destruct (buy_tokens c f pk (add_events st1 [buy_start_print f]))
          as [r st2] eqn:Hrun.
        cbn in Hv. subst r.
        erewrite run_bind_ok by (apply (buy_turn_runs _ _ _ _ _ _ _ Hf Hrun)).
        apply (Hnext [choice; c; s]). apply IH. lia.
      * erewrite run_bind_ok
          by (apply (buy_turn_invalid _ _ _ _ _ Hf (Hfloat _ _ Hf))).
        apply (Hnext [choice; c; s]). apply IH. lia.
    + destruct inputs2 as [|s inputs3]; [now right|].
      cbn [List.length] in Hlen.
      set (st1 := add_events st _).
      destruct (sell_amount_of s) as [amount|e] eqn:Ha.
      * destruct (never_raises_sell_tokens c amount pk
                    (add_events st1 [sell_start_print])) as [v Hv].
        destruct (sell_tokens c amount pk (add_events st1 [sell_start_print]))
          as [r st2] eqn:Hrun.
        cbn in Hv. subst r.
        erewrite run_bind_ok by (apply (sell_turn_runs _ _ _ _ _ _ _ Ha Hrun)).
        apply (Hnext [choice; c; s]). apply IH. lia.
      * destruct (sell_amount_of_raise _ _ Ha) as [Hs Hf].
        erewrite run_bind_ok
          by (apply (sell_turn_invalid _ _ _ _ _ Hs Hf (Hfloat _ _ Hf))).
        apply (Hnext [choice; c; s]). apply IH. lia.
Qed.

(** A session without a buy or sell choice issues no request. *)
Lemma main_loop_idle pk : forall inputs st,
  (forall c, In c inputs -> c <> "1" /\ c <> "2") ->
  requests_of (trace (snd (main_loop pk inputs st))) = requests_of (trace st)
  /\ fst (main_loop pk inputs st)
     = (if existsb (String.eqb "3") inputs then Ok tt else Raise EOFError).
Proof.
  induction inputs as [|choice inputs IH]; intros st Hc; rewrite main_loop_menu.
  - cbn [snd fst existsb]. split; [|reflexivity].
    now apply requests_of_add_prints.
  - cbn [existsb]. rewrite (String.eqb_sym "3" choice).
    destruct (String.eqb choice "3") eqn:H3.
    + cbn [snd fst orb]. split; [|reflexivity].
      now apply requests_of_add_prints.
    + assert (Hn : not_buy_or_sell choice = true).
      { destruct (Hc choice (or_introl eq_refl)) as [H1 H2].
        unfold not_buy_or_sell.
        apply String.eqb_neq in H1, H2. now rewrite H1, H2. }
      rewrite Hn. cbn [orb].
      destruct (IH (add_events st (menu_events ++ [EvPrint [Lit "Invalid choice"]])))
        as [Hr Hf].
      { intros c Hin. apply Hc. now right. }
      rewrite Hr, Hf. split; [|reflexivity].
      now apply requests_of_add_prints.
Qed.
End Session.

Lemma parsing_builtins_value_error (s : string) (e : exn) :
  @float_of_str Example.parsing_builtins s = Raise e ->
  SolSwap.is_ValueError e = true.
Proof.
  cbn. destruct s as [|a s]; [now intros [= <-]|].
  destruct (Example.digits (String a s) 0); [discriminate|]. now intros [= <-].
Qed.

(* ================================================================= *)
(** ** The claims *)

Import SolSwap Spec.

(** C7. [get_sol_balance] never raises; on a 200 answer whose body has
    an integer [result.value] it returns that integer divided by 10^9
    (binary64 division); on a network exception, on a status other than
    200 and on a body without [result] it returns 0; and whenever it
    returns something other than 0, the answer was a 200 response with a
    [result.value] that converts to a float. *)
Theorem get_sol_balance_spec {net : Network} {builtins : Builtins}
        (public_key : string) (st : state) :
  let a := answer (sent st) (balance_request public_key) in
  let r := fst (get_sol_balance public_key st) in
  (exists v, r = Ok v)
  /\ (forall resp body res z,
        a = Ok resp -> status_code resp = 200 ->
        json_body resp = Some body ->
        Py.getitem body "result" = Ok res ->
        Py.getitem res "value" = Ok (JInt z) ->
        Float64.is_infinite (Float64.of_Z z) = false ->
        r = Ok (PFloat (Float64.div (Float64.of_Z z) Float64.lit_1e9)))
  /\ (forall e, a = Raise e -> r = Ok (PInt 0))
  /\ (forall resp, a = Ok resp -> status_code resp <> 200 -> r = Ok (PInt 0))
  /\ (forall resp kv,
        a = Ok resp -> json_body resp = Some (JDict kv) ->
        Py.lookup "result" kv = None -> r = Ok (PInt 0))
  /\ (forall v, r = Ok v -> v <> PInt 0 ->
        exists resp body res val f,
          a = Ok resp /\ status_code resp = 200 /\ json_body resp = Some body
          /\ Py.getitem body "result" = Ok res
          /\ Py.getitem res "value" = Ok val
          /\ float_of_json val = Ok f
          /\ v = PFloat (Float64.div f Float64.lit_1e9)).
Proof.
  cbn zeta. repeat split.
  - destruct (get_sol_balance_run public_key st) as (v & logs & H & _).
    exists v. now rewrite H.
  - intros resp body res z Ha Hs Hb Hr Hv Hfin.
    now rewrite (get_sol_balance_success _ _ _ _ _ _ Ha Hs Hb Hr Hv Hfin).
  - intros e Ha. unfold get_sol_balance. run_monad.
    fold (balance_request public_key). now rewrite Ha.
  - intros resp Ha Hs. unfold get_sol_balance. run_monad.
    fold (balance_request public_key). rewrite Ha. cbn.
    apply Z.eqb_neq in Hs. now rewrite Hs.
  - intros resp kv Ha Hb Hl. unfold get_sol_balance. run_monad.
    fold (balance_request public_key). rewrite Ha. cbn.
    destruct (status_code resp =? 200); [|reflexivity].
    cbn. rewrite Hb. cbn. now rewrite Hl.
  - intros v Hv Hne. revert Hv. unfold get_sol_balance. run_monad.
    fold (balance_request public_key).
    destruct (answer (sent st) (balance_request public_key)) as [resp|e]; cbn;
      [|intros [= <-]; contradiction].
    destruct (status_code resp =? 200) eqn:Hs; cbn;
      [|intros [= <-]; contradiction].
    apply Z.eqb_eq in Hs.
    destruct (json_body resp) as [body|] eqn:Hb; cbn;
      [|intros [= <-]; contradiction].
    destruct (Py.contains "result" body) as [[|]|]; cbn;
      try (intros [= <-]; contradiction).
    destruct (Py.getitem body "result") as [res|] eqn:Hres; cbn;
      [|intros [= <-]; contradiction].
    destruct (Py.getitem res "value") as [val|] eqn:Hval; cbn;
      [|intros [= <-]; contradiction].
    destruct (float_of_json val) as [f|] eqn:Hf; cbn;
      [|intros [= <-]; contradiction].
    intros [= <-]. exists resp, body, res, val, f. repeat split; assumption || reflexivity.
Qed.

Lemma get_sol_balance_spec_witness :
  fst (@get_sol_balance Example.balance_world Example.builtins "wallet" initial)
  = Ok (PFloat (S754_finite false 6755399441055744 (-52))).
Proof.
  refine (proj1 (proj2 (@get_sol_balance_spec Example.balance_world Example.builtins
                          "wallet" initial))
            _ _ _ 1500000000 eq_refl eq_refl eq_refl eq_refl eq_refl eq_refl).
Defined.


(** C1 (as amended).  [max_retries] defaults to 30.
    [wait_for_transaction_confirmation] polls with the same request.
    Whenever, after polls without result, a poll returns a transaction
    result (poll [k], counting from 0, with [k] below [max_retries]),
    the function returns success exactly when the error field of that
    result is empty ([null]) and failure when it is not, at once: after
    exactly [k + 1] requests and [k] one-second sleeps.  If all
    [max_retries] polls yield no result it returns failure after exactly
    [max_retries] requests and as many sleeps.  A poll that ends in a
    network error, or that is answered with a status other than 200, has
    no result yet and is not fatal: the first leaves a warning in the
    log, the second leaves nothing in the log.

    Nothing is said here of a poll whose result is present and cannot be
    read by line 63 (a result that is not an object, or whose [meta] is
    present and is not an object, such as [null]): such an answer is
    neither [no_result_yet] nor a [transaction_result]. *)
Theorem wait_for_transaction_confirmation_spec {net : Network}
        (signature : json) (max_retries : Z) (st : state) :
  let n := Z.to_nat max_retries in
  let req := poll_request signature in
  let run := wait_for_transaction_confirmation signature max_retries st in
  default_max_retries = 30
  /\ (forall k err,
        (k < n)%nat ->
        (forall i, (i < k)%nat ->
           no_result_yet (answer (sent st + i) req) = true) ->
        transaction_result (answer (sent st + k) req) = Some err ->
        fst run = Ok (Py.is_None err)
        /\ requests_of (trace (snd run))
           = requests_of (trace st) ++ repeat req (S k)
        /\ sleeps_of (trace (snd run)) = (sleeps_of (trace st) + k)%nat)
  /\ ((forall i, (i < n)%nat ->
         no_result_yet (answer (sent st + i) req) = true) ->
      fst run = Ok false
      /\ requests_of (trace (snd run)) = requests_of (trace st) ++ repeat req n
      /\ sleeps_of (trace (snd run)) = (sleeps_of (trace st) + n)%nat)
  /\ (forall e,
        answer (sent st) req = Raise e ->
        no_result_yet (answer (sent st) req) = true
        /\ poll_once signature st
           = (Ok None, after_request st req [poll_warning e]))
  /\ (forall resp,
        answer (sent st) req = Ok resp -> status_code resp <> 200 ->
        no_result_yet (answer (sent st) req) = true
        /\ poll_once signature st = (Ok None, after_request st req [])).
Proof.
  cbn zeta. unfold wait_for_transaction_confirmation.
  split; [reflexivity|]. split; [|split; [|split]].
  - intros k err Hk Hnone Hres.
    destruct (wait_loop_result k _ signature st err Hk
                (fun i Hi => no_result_yet_none _ (Hnone i Hi)) Hres)
      as (st' & -> & _ & Hs & Hr).
    now repeat split.
  - intros Hnone.
    destruct (wait_loop_timeout _ signature st
                (fun i Hi => no_result_yet_none _ (Hnone i Hi)))
      as (st' & -> & _ & Hs & Hr).
    now repeat split.
  - intros e Ha. split; [now rewrite Ha|].
    destruct (poll_once_none signature st) as (logs & -> & _ & _ & Hl & _).
    + now rewrite Ha.
    + now rewrite (Hl e Ha).
  - intros resp Ha Hs.
    assert (Hno : no_result_yet (answer (sent st) (poll_request signature))
                  = true).
    { rewrite Ha. cbn. apply Z.eqb_neq in Hs. now rewrite Hs. }
    split; [exact Hno|].
    destruct (poll_once_none signature st (no_result_yet_none _ Hno))
      as (logs & -> & _ & _ & _ & Hl).
    now rewrite (Hl resp Ha Hs).
Qed.

Lemma wait_for_transaction_confirmation_spec_witness :
  let run := @wait_for_transaction_confirmation Example.poll_world
               (JStr "5sig") 30 initial in
  fst run = Ok true
  /\ requests_of (trace (snd run)) = repeat (poll_request (JStr "5sig")) 4
  /\ sleeps_of (trace (snd run)) = 3%nat.
Proof.
  refine (proj1 (proj2 (@wait_for_transaction_confirmation_spec
                          Example.poll_world (JStr "5sig") 30 initial))
            3%nat JNull _ _ eq_refl).
  - apply Nat.ltb_lt. reflexivity.
  - intros i Hi.
    destruct i as [|[|[|i]]]; try reflexivity.
    exfalso. apply Nat.ltb_lt in Hi. discriminate Hi.
Defined.

(** C1 (as stated) fails on a poll answered with a status other than
    200: the poll is followed by the one-second sleep, but nothing is
    logged. *)
Lemma wait_non200_poll_not_logged :
  let run := @wait_for_transaction_confirmation Example.unavailable_world
               (JStr "5sig") 1 initial in
  @answer Example.unavailable_world 0%nat (poll_request (JStr "5sig"))
  = Ok (mkResponse 503 "Service Unavailable" None)
  /\ run = (Ok false,
            mkState 1 [EvRequest (poll_request (JStr "5sig")); EvSleep 1])
  /\ logs_of (trace (snd run)) = [].
Proof. repeat split. Qed.

(** C3.  When the balance that [buy_tokens] has checked is strictly less
    than the requested amount, the insufficient-funds error is raised
    and the operation ends there: the balance request is the only
    request of the run, so the quote endpoint is never contacted. *)
Theorem buy_tokens_insufficient_funds
        {net : Network} {builtins : Builtins} {libs : Libraries}
        (contract_address : string) (amount : float) (private_key : string)
        (st : state) kb kp (sol_balance : pynum) (st1 : state) :
  b58decode private_key = Ok kb ->
  Keypair_from_bytes kb = Ok kp ->
  get_sol_balance (pubkey_str kp) st = (Ok sol_balance, st1) ->
  Py.lt sol_balance (PFloat amount) = true ->
  let run := buy_tokens contract_address amount private_key st in
  run = (Ok JNull,
         mkState (sent st1)
           (trace st1 ++ [error_print (insufficient_sol sol_balance amount)]))
  /\ requests_of (trace (snd run))
     = requests_of (trace st) ++ [balance_request (pubkey_str kp)]
  /\ (forall i o a, balance_request (pubkey_str kp) <> quote_request i o a).
Proof.
  intros Hkb Hkp Hbal Hlt run. subst run.
  rewrite (buy_tokens_insufficient _ _ _ _ _ _ _ _ Hkb Hkp Hbal Hlt).
  split; [reflexivity|]. split; [|discriminate].
  cbn [snd trace]. rewrite requests_of_app. cbn.
  destruct (get_sol_balance_requests _ _ _ _ Hbal) as [-> _].
  now rewrite app_nil_r.
Qed.

Lemma buy_tokens_insufficient_funds_witness :
  requests_of
    (trace (snd (@buy_tokens Example.balance_world Example.builtins
                   Example.libraries Example.mint (Float64.of_Z 2)
                   Example.wallet_key initial)))
  = [balance_request Example.wallet_pubkey].
Proof.
  refine (proj1 (proj2
    (@buy_tokens_insufficient_funds Example.balance_world Example.builtins
       Example.libraries Example.mint (Float64.of_Z 2) Example.wallet_key
       initial _ _ _ _ eq_refl eq_refl eq_refl eq_refl))).
Defined.

(** C10.  When the balance lookup has failed, so that [get_sol_balance]
    returned its failure value [0], a buy of any strictly positive
    amount ends with the insufficient-funds error after the balance
    request alone; and the comparison that decides it gives the same
    answer for the failure value as for a genuine zero balance. *)
Theorem buy_tokens_balance_lookup_failed
        {net : Network} {builtins : Builtins} {libs : Libraries}
        (contract_address : string) (amount : float) (private_key : string)
        (st : state) kb kp (st1 : state) :
  b58decode private_key = Ok kb ->
  Keypair_from_bytes kb = Ok kp ->
  get_sol_balance (pubkey_str kp) st = (Ok (PInt 0), st1) ->
  Py.gt (PFloat amount) (PInt 0) = true ->
  let run := buy_tokens contract_address amount private_key st in
  run = (Ok JNull,
         mkState (sent st1)
           (trace st1 ++ [error_print (insufficient_sol (PInt 0) amount)]))
  /\ requests_of (trace (snd run))
     = requests_of (trace st) ++ [balance_request (pubkey_str kp)]
  /\ (forall s, Py.lt (PFloat (S754_zero s)) (PFloat amount)
                = Py.lt (PInt 0) (PFloat amount)).
Proof.
  intros Hkb Hkp Hbal Hpos run. subst run.
  rewrite (buy_tokens_insufficient _ _ _ _ _ _ _ _ Hkb Hkp Hbal Hpos).
  split; [reflexivity|]. split; [|intros s; apply lt_zero_alike].
  cbn [snd trace]. rewrite requests_of_app. cbn.
  destruct (get_sol_balance_requests _ _ _ _ Hbal) as [-> _].
  now rewrite app_nil_r.
Qed.

Lemma buy_tokens_balance_lookup_failed_witness :
  @buy_tokens Example.offline_world Example.builtins Example.libraries
    Example.mint Float64.lit_0_5 Example.wallet_key initial
  = (Ok JNull,
     mkState 1
       [EvRequest (balance_request Example.wallet_pubkey);
        balance_log (RequestException "read timed out");
        error_print (insufficient_sol (PInt 0) Float64.lit_0_5)]).
Proof.
  refine (proj1
    (@buy_tokens_balance_lookup_failed Example.offline_world Example.builtins
       Example.libraries Example.mint Float64.lit_0_5 Example.wallet_key
       initial _ _ _ eq_refl eq_refl eq_refl eq_refl)).
Defined.

(** C6.  For every quote response and sender public key,
    [create_swap_data] builds a body with [wrapUnwrapSOL],
    [useVersionedTransaction] and [dynamicComputeUnitLimit] set to true,
    [dynamicSlippage.maxBps] equal to 300, and
    [prioritizationFeeLamports.priorityLevelWithMaxLamports] made of
    [maxLamports = 10000000], [priorityLevel = "veryHigh"] and
    [global = false]; and when the balance check of a buy passes and the
    quote is obtained, the request that follows the quote is the POST of
    exactly this body to the swap-build endpoint. *)
Theorem create_swap_data_spec
        {net : Network} {builtins : Builtins} {libs : Libraries}
        (quote_response : json) (sender_public_key : string) :
  let body := create_swap_data quote_response sender_public_key in
  Py.getitem body "quoteResponse" = Ok quote_response
  /\ Py.getitem body "userPublicKey" = Ok (JStr sender_public_key)
  /\ Py.getitem body "wrapUnwrapSOL" = Ok (JBool true)
  /\ Py.getitem body "useVersionedTransaction" = Ok (JBool true)
  /\ Py.getitem body "dynamicComputeUnitLimit" = Ok (JBool true)
  /\ Py.getitem body "dynamicSlippage" = Ok (JDict [("maxBps", JInt 300)])
  /\ Py.getitem body "prioritizationFeeLamports"
     = Ok (JDict [("priorityLevelWithMaxLamports",
                   JDict [("maxLamports", JInt 10000000);
                          ("priorityLevel", JStr "veryHigh");
                          ("global", JBool false)])])
  /\ (forall contract_address amount private_key st kb kp sol_balance st1
             units rq,
        b58decode private_key = Ok kb ->
        Keypair_from_bytes kb = Ok kp ->
        pubkey_str kp = sender_public_key ->
        get_sol_balance sender_public_key st = (Ok sol_balance, st1) ->
        Py.lt sol_balance (PFloat amount) = false ->
        Py.int_of_float (Float64.mul amount Float64.lit_1e9) = Ok units ->
        answer (sent st1)
          (quote_request SOL_ADDRESS contract_address (Py.str_of_int units))
        = Ok rq ->
        (400 <=? status_code rq) && (status_code rq <? 600) = false ->
        json_body rq = Some quote_response ->
        exists suffix,
          trace (snd (buy_tokens contract_address amount private_key st))
          = trace st1
              ++ [EvRequest (quote_request SOL_ADDRESS contract_address
                               (Py.str_of_int units));
                  EvRequest (POST JUPITER_SWAP_URL body [])]
              ++ suffix).
Proof.
  cbn zeta. repeat (split; [reflexivity|]).
  intros contract_address amount private_key st kb kp sol_balance st1 units rq
         Hkb Hkp Hpk Hbal Hlt Hunits Ha Hs Hq.
  subst sender_public_key.
  exact (buy_tokens_reaches_swap _ _ _ _ _ _ _ _ _ _ _
           Hkb Hkp Hbal Hlt Hunits Ha Hs Hq).
Qed.

Lemma create_swap_data_spec_witness :
  exists suffix,
    trace (snd (@buy_tokens Example.buy_world Example.builtins
                  Example.libraries Example.mint Float64.lit_0_5
                  Example.wallet_key initial))
    = [EvRequest (balance_request Example.wallet_pubkey)]
        ++ [EvRequest (quote_request SOL_ADDRESS Example.mint "500000000");
            EvRequest
              (POST JUPITER_SWAP_URL
                 (create_swap_data
                    (JDict [("inputMint", JStr SOL_ADDRESS);
                            ("outAmount", JStr "12345")])
                    Example.wallet_pubkey) [])]
        ++ suffix.
Proof.
  refine (proj2 (proj2 (proj2 (proj2 (proj2 (proj2 (proj2
    (@create_swap_data_spec Example.buy_world Example.builtins
       Example.libraries _ Example.wallet_pubkey)))))))
    Example.mint Float64.lit_0_5 Example.wallet_key initial
    _ _ _ _ 500000000 _
    eq_refl eq_refl eq_refl eq_refl eq_refl eq_refl eq_refl eq_refl eq_refl).
Defined.

(** C8 (as amended).  When a buy passes the balance check and the
    product of the amount and 10^9 is finite, the quote is requested for
    the decimal string of that binary64 product truncated toward zero;
    a buy of 0.5 gives the string "500000000". *)
Theorem buy_tokens_quote_amount
        {net : Network} {builtins : Builtins} {libs : Libraries}
        (contract_address : string) (amount : float) (private_key : string)
        (st : state) kb kp (sol_balance : pynum) (st1 : state) (units : Z) :
  b58decode private_key = Ok kb ->
  Keypair_from_bytes kb = Ok kp ->
  get_sol_balance (pubkey_str kp) st = (Ok sol_balance, st1) ->
  Py.lt sol_balance (PFloat amount) = false ->
  Py.int_of_float (Float64.mul amount Float64.lit_1e9) = Ok units ->
  (exists suffix,
      trace (snd (buy_tokens contract_address amount private_key st))
      = trace st1
          ++ [EvRequest (quote_request SOL_ADDRESS contract_address
                           (Py.str_of_int units))]
          ++ suffix)
  /\ (forall q,
        Float64.to_Q (Float64.mul amount Float64.lit_1e9) = Some q ->
        units = if Qle_bool 0 q then Qfloor q else Qceiling q)
  /\ (amount = Float64.lit_0_5 -> Py.str_of_int units = "500000000").
Proof.
  intros Hkb Hkp Hbal Hlt Hunits. split; [|split].
  - exact (buy_tokens_reaches_quote _ _ _ _ _ _ _ _ _ Hkb Hkp Hbal Hlt Hunits).
  - intros q Hq. exact (int_of_float_trunc _ _ _ Hunits Hq).
  - intros ->. cbn in Hunits. injection Hunits as <-. reflexivity.
Qed.

Lemma buy_tokens_quote_amount_witness :
  exists suffix,
    trace (snd (@buy_tokens Example.buy_world Example.builtins
                  Example.libraries Example.mint Float64.lit_0_5
                  Example.wallet_key initial))
    = [EvRequest (balance_request Example.wallet_pubkey)]
        ++ [EvRequest (quote_request SOL_ADDRESS Example.mint "500000000")]
        ++ suffix.
Proof.
  refine (proj1
    (@buy_tokens_quote_amount Example.buy_world Example.builtins
       Example.libraries Example.mint Float64.lit_0_5 Example.wallet_key
       initial _ _ _ _ 500000000 eq_refl eq_refl eq_refl eq_refl eq_refl)).
Defined.

(** C8 (as stated) fails on a buy of 2^-31 SOL: the quote is requested
    for "0", while the amount times 10^9 is 1953125/4194304. *)
Lemma buy_quote_amount_not_scaled :
  let amount := S754_finite false 4503599627370496 (-83) in
  nth 1 (requests_of
           (trace (snd (@buy_tokens Example.buy_world Example.builtins
                          Example.libraries Example.mint amount
                          Example.wallet_key initial))))
        (GET "")
  = quote_request SOL_ADDRESS Example.mint (Py.str_of_int 0)
  /\ Py.str_of_int 0 = "0"
  /\ exists q,
       Float64.to_Q amount = Some q
       /\ (q * inject_Z (10 ^ 9) == 1953125 # 4194304)%Q
       /\ ~ (q * inject_Z (10 ^ 9) == inject_Z 0)%Q.
Proof.
  cbn zeta. split; [vm_compute; reflexivity|]. split; [reflexivity|].
  eexists. split; [reflexivity|]. split.
  - vm_compute. reflexivity.
  - intros H. vm_compute in H. discriminate H.
Qed.

(** C9.  When the relay answers 200 with a JSON object that has no
    [txid] member, [send_transaction] returns [None] after that single
    request: it does not fall back to the RPC provider and does not
    raise.  [buy_tokens] then prints that the transaction was submitted
    and polls for confirmation with that null identifier. *)
Theorem send_transaction_missing_txid
        {net : Network} {builtins : Builtins} {libs : Libraries} :
  (forall encoded_tx st resp kv,
      answer (sent st) (relay_request encoded_tx) = Ok resp ->
      status_code resp = 200 ->
      json_body resp = Some (JDict kv) ->
      Py.lookup "txid" kv = None ->
      send_transaction encoded_tx st
      = (Ok JNull, after_request st (relay_request encoded_tx) []))
  /\ (forall contract_address amount private_key st kb kp sol_balance st1
             units rq q rs sj blob encoded_tx resp kv,
        b58decode private_key = Ok kb ->
        Keypair_from_bytes kb = Ok kp ->
        get_sol_balance (pubkey_str kp) st = (Ok sol_balance, st1) ->
        Py.lt sol_balance (PFloat amount) = false ->
        Py.int_of_float (Float64.mul amount Float64.lit_1e9) = Ok units ->
        answer (sent st1)
          (quote_request SOL_ADDRESS contract_address (Py.str_of_int units))
        = Ok rq ->
        (400 <=? status_code rq) && (status_code rq <? 600) = false ->
        json_body rq = Some q ->
        answer (S (sent st1)) (swap_request q (pubkey_str kp)) = Ok rs ->
        status_code rs = 200 ->
        json_body rs = Some sj ->
        Py.getitem sj "swapTransaction" = Ok blob ->
        sign_transaction kp blob = Ok encoded_tx ->
        answer (S (S (sent st1))) (relay_request encoded_tx) = Ok resp ->
        status_code resp = 200 ->
        json_body resp = Some (JDict kv) ->
        Py.lookup "txid" kv = None ->
        exists suffix,
          trace (snd (buy_tokens contract_address amount private_key st))
          = trace st1
              ++ [EvRequest (quote_request SOL_ADDRESS contract_address
                               (Py.str_of_int units));
                  EvRequest (swap_request q (pubkey_str kp));
                  EvRequest (relay_request encoded_tx);
                  submitted_print;
                  EvRequest (poll_request JNull)]
              ++ suffix).
Proof.
  split.
  - intros encoded_tx st resp kv Ha Hs Hb Hl.
    rewrite (send_relay_ok _ _ _ _ Ha Hs Hb), Hl. reflexivity.
  - intros contract_address amount private_key st kb kp sol_balance st1
           units rq q rs sj blob encoded_tx resp kv
           Hkb Hkp Hbal Hlt Hunits Ha Hs Hq Has Hss Hsj Hblob Hsign
           Har Hsr Hbr Hl.
    set (st3 := after_request
                  (after_request st1
                     (quote_request SOL_ADDRESS contract_address
                        (Py.str_of_int units)) [])
                  (swap_request q (pubkey_str kp)) []).
    assert (Hsend : send_transaction encoded_tx st3
                    = (Ok JNull, after_request st3 (relay_request encoded_tx) [])).
    { rewrite (send_relay_ok encoded_tx st3 resp kv Har Hsr Hbr), Hl.
      reflexivity. }
    destruct (buy_tokens_reaches_poll _ _ _ _ _ _ _ _ _ _ _ _ _ _ _ _ _
                Hkb Hkp Hbal Hlt Hunits Ha Hs Hq Has Hss Hsj Hblob Hsign Hsend)
      as [suffix Hsuf].
    exists suffix. rewrite Hsuf. subst st3. unfold after_request. cbn [trace].
    rewrite <- !app_assoc. reflexivity.
Qed.

Lemma send_transaction_missing_txid_witness :
  exists suffix,
    trace (snd (@buy_tokens Example.buy_world Example.builtins
                  Example.libraries Example.mint Float64.lit_0_5
                  Example.wallet_key initial))
    = [EvRequest (balance_request Example.wallet_pubkey)]
        ++ [EvRequest (quote_request SOL_ADDRESS Example.mint "500000000");
            EvRequest
              (swap_request
                 (JDict [("inputMint", JStr SOL_ADDRESS);
                         ("outAmount", JStr "12345")])
                 Example.wallet_pubkey);
            EvRequest
(relay_request Example.signed_blob);
            submitted_print;
            EvRequest (poll_request JNull)]
        ++ suffix.
Proof.
  refine (proj2
    (@send_transaction_missing_txid Example.buy_world Example.builtins
       Example.libraries)
    Example.mint Float64.lit_0_5 Example.wallet_key initial
    _ _ _ _ 500000000 _ _ _ _ _ _ _ _
    eq_refl eq_refl eq_refl eq_refl eq_refl eq_refl eq_refl eq_refl
    eq_refl eq_refl eq_refl eq_refl eq_refl eq_refl eq_refl eq_refl eq_refl).
Defined.

(** C5.  [send_transaction] "with fallback" does not fall back when
    the attempt on the relay fails by an exception of the request.  The
    relay cannot be reached and the RPC provider would accept the
    transaction: the exception of the relay request is raised again
    after that single request, and the RPC provider is never asked.
    When the same relay answers with status 502 instead, the function
    does fall back and returns the provider's result. *)
Theorem send_relay_exception_no_fallback :
  let run := @send_transaction Example.relay_down_world
               Example.signed_blob initial in
  @answer Example.relay_down_world 0%nat (relay_request Example.signed_blob)
  = Raise (RequestException "read timed out")
  /\ @answer Example.relay_down_world 1%nat
       (fallback_request Example.signed_blob)
     = Ok (Example.json_response 200 (Example.rpc_result (JStr "5sig")))
  /\ fst run = Raise (RequestException "read timed out")
  /\ requests_of (trace (snd run)) = [relay_request Example.signed_blob]
  /\ (let back := @send_transaction Example.fallback_world
                     Example.signed_blob initial in
      fst back = Ok (JStr "5sig")
      /\ requests_of (trace (snd back))
         = [relay_request Example.signed_blob;
            fallback_request Example.signed_blob]).
Proof. repeat split. Qed.

(** C2.  In [sell_tokens], once the token account and its balance are
    discovered: a requested amount that equals zero or strictly exceeds
    the current balance is replaced by the full current balance, and any
    other amount is kept; the sale then stops with the "No tokens to
    sell" error if and only if the resolved amount is [<= 0], and
    otherwise goes on with the resolved amount to the fee check. *)
Theorem sell_tokens_resolved_amount
        {net : Network} {builtins : Builtins} {libs : Libraries}
        (contract_address : string) (amount : pynum) (private_key : string)
        (st : state) kb kp resp data token_account decimals
        (current_balance : float) :
  b58decode private_key = Ok kb ->
  Keypair_from_bytes kb = Ok kp ->
  answer (sent st) (token_accounts_request (pubkey_str kp) contract_address)
  = Ok resp ->
  json_body resp = Some data ->
  discovered data token_account decimals current_balance ->
  let resolved := resolve_amount amount current_balance in
  let run := sell_tokens contract_address amount private_key st in
  let aborted :=
    after_request st (token_accounts_request (pubkey_str kp) contract_address)
      [error_print no_tokens_to_sell] in
  (Py.eq amount (PInt 0) = true \/ Py.gt amount (PFloat current_balance) = true ->
   resolved = PFloat current_balance)
  /\ (Py.eq amount (PInt 0) = false ->
      Py.gt amount (PFloat current_balance) = false ->
      resolved = amount)
  /\ (Py.le resolved (PInt 0) = true -> run = (Ok JNull, aborted))
  /\ (Py.le resolved (PInt 0) = false ->
      exists suffix,
        trace (snd run)
        = trace st
            ++ [EvRequest (token_accounts_request (pubkey_str kp)
                             contract_address);
                selling_print resolved;
                EvRequest (balance_request (pubkey_str kp))]
            ++ suffix)
  /\ (snd run = aborted <-> Py.le resolved (PInt 0) = true).
Proof.
  intros Hkb Hkp Ha Hb Hd resolved run aborted.
  assert (Habort : Py.le resolved (PInt 0) = true -> run = (Ok JNull, aborted)).
  { intros Hle.
    exact (sell_tokens_no_tokens _ _ _ _ _ _ _ _ _ _ _ Hkb Hkp Ha Hb Hd Hle). }
  assert (Hgo : Py.le resolved (PInt 0) = false ->
                exists suffix,
                  trace (snd run)
                  = trace st
                      ++ [EvRequest (token_accounts_request (pubkey_str kp)
                                       contract_address);
                          selling_print resolved;
                          EvRequest (balance_request (pubkey_str kp))]
                      ++ suffix).
  { intros Hle.
    exact (sell_tokens_proceeds _ _ _ _ _ _ _ _ _ _ _ Hkb Hkp Ha Hb Hd Hle). }
  split; [|split; [|split; [exact Habort|split; [exact Hgo|]]]].
  - subst resolved. unfold resolve_amount. intros [-> | ->]; cbn.
    + reflexivity.
    + now rewrite orb_true_r.
  - subst resolved. unfold resolve_amount. now intros -> ->.
  - split.
    + intros Hst. destruct (Py.le resolved (PInt 0)) eqn:Hle; [reflexivity|].
      destruct (Hgo eq_refl) as [suffix Hsuf].
      rewrite Hst in Hsuf. subst aborted. unfold after_request in Hsuf.
      cbn [trace] in Hsuf. apply app_inv_head in Hsuf.
      cbn in Hsuf. discriminate Hsuf.
    + intros Hle. now rewrite (Habort Hle).
Qed.

Lemma sell_tokens_resolved_amount_witness :
  exists suffix,
    trace (snd (@sell_tokens Example.sell_world Example.builtins
                  Example.libraries Example.mint (PInt 0)
                  Example.wallet_key initial))
    = [] ++ [EvRequest (token_accounts_request Example.wallet_pubkey
                          Example.mint);
             selling_print (PFloat (Float64.of_Z 100));
             EvRequest (balance_request Example.wallet_pubkey)]
         ++ suffix.
Proof.
  refine (proj1 (proj2 (proj2 (proj2
    (@sell_tokens_resolved_amount Example.sell_world Example.builtins
       Example.libraries Example.mint (PInt 0) Example.wallet_key initial
       _ _ _ _ (JStr "TokenAccount") (JInt 6) (Float64.of_Z 100)
       eq_refl eq_refl eq_refl eq_refl _)))) eq_refl).
  unfold discovered. do 6 eexists.
  repeat (split; [reflexivity|]). reflexivity.
Defined.

(** The sell-all scenario of the specification: with 100 tokens of a
    mint with 6 decimals and no amount given, the quote is requested for
    "100000000". *)
Example sell_all_scenario :
  nth 2 (requests_of
           (trace (snd (@sell_tokens Example.sell_world Example.builtins
                          Example.libraries Example.mint (PInt 0)
                          Example.wallet_key initial))))
        (GET "")
  = quote_request Example.mint SOL_ADDRESS "100000000".
Proof. vm_compute. reflexivity. Qed.

(** C4.  The signing step of [buy_tokens] and [sell_tokens] decodes the
    blob, signs and re-encodes.  Whenever it succeeds, the transaction
    it encodes is made of one signature followed by the message of the
    decoded transaction, written as it was in the blob; and the step
    leaves the state as it found it, so it issues no request.  But the
    signature is computed over [bytes(unsigned_tx.message)]: for a
    version-0 message these are the bytes of the blob's message without
    their first byte, the version byte [0x80], so the signature is not
    over the message bytes that the aggregator produced.  For a legacy
    message the two are the same bytes. *)
Theorem sign_transaction_signed_bytes
        {libs : Libraries} {wire : WireFormat libs}
        {laws : LibraryLaws libs wire} (sender_keypair : keypair) :
  (forall swap_instruction encoded_tx,
      sign_transaction sender_keypair swap_instruction = Ok encoded_tx ->
      exists blob raw unsigned_tx,
        swap_instruction = JStr blob
        /\ b64decode blob = Ok raw
        /\ VersionedTransaction_from_bytes raw = Ok unsigned_tx
        /\ let m := tx_message unsigned_tx in
           let attached := sign_message sender_keypair (message_bytes m) in
           encoded_tx
           = b64encode (signatures_bytes [attached] ++ to_bytes_versioned m)
           /\ transaction_bytes unsigned_tx
              = signatures_bytes (tx_signatures unsigned_tx)
                  ++ to_bytes_versioned m
           /\ (is_versioned m = true ->
               to_bytes_versioned m = Byte.x80 :: message_bytes m
               /\ message_bytes m <> to_bytes_versioned m)
           /\ (is_versioned m = false ->
               message_bytes m = to_bytes_versioned m))
  /\ (forall t0,
        sign_transaction sender_keypair
          (JStr (b64encode (transaction_bytes t0)))
        = Ok (b64encode
                (signatures_bytes
                   [sign_message sender_keypair (message_bytes (tx_message t0))]
                 ++ to_bytes_versioned (tx_message t0))))
  /\ (forall swap_instruction st,
        lift (sign_transaction sender_keypair swap_instruction) st
        = (sign_transaction sender_keypair swap_instruction, st)).
Proof.
  split; [|split].
  - intros swap_instruction encoded_tx. unfold sign_transaction.
    destruct swap_instruction as [| | | |blob| |]; try discriminate.
    destruct (b64decode blob) as [raw|] eqn:Hraw; [|discriminate].
    destruct (VersionedTransaction_from_bytes raw) as [u|] eqn:Hu;
      [|discriminate].
    intros [= <-]. exists blob, raw, u.
    split; [reflexivity|]. split; [exact Hraw|]. split; [exact Hu|].
    cbn zeta.
    rewrite (transaction_layout (VersionedTransaction_populate _ _)),
      message_populate, signatures_populate.
    split; [reflexivity|]. split; [apply transaction_layout|].
    rewrite (versioned_message_bytes (tx_message u)).
    split; intros ->; [|reflexivity].
    split; [reflexivity|].
    intros H. apply (f_equal (@List.length Byte.byte)) in H.
    cbn [List.length] in H. lia.
  - intros t0. unfold sign_transaction.
    rewrite b64decode_b64encode, from_bytes_to_bytes.
    rewrite (transaction_layout (VersionedTransaction_populate _ _)),
      message_populate, signatures_populate.
    reflexivity.
  - reflexivity.
Qed.

(** A version-0 transaction with the message bytes [80 68 69]: the
    attached signature is over [68 69], and it is not the signature of
    the wallet over [80 68 69]. *)
Lemma sign_transaction_signed_bytes_witness :
  let key := list_byte_of_string Example.wallet_key in
  @sign_transaction Example.libraries_v0 key (JStr Example.unsigned_blob_v0)
  = Ok (@b64encode Example.libraries_v0
          (Example.write_signatures
             [@sign_message Example.libraries_v0 key [Byte.x68; Byte.x69]]
           ++ [Byte.x80; Byte.x68; Byte.x69]))
  /\ @sign_message Example.libraries_v0 key [Byte.x68; Byte.x69]
     <> @sign_message Example.libraries_v0 key [Byte.x80; Byte.x68; Byte.x69].
Proof.
  split.
  - exact (proj1 (proj2
      (@sign_transaction_signed_bytes Example.libraries_v0 Example.wire_v0
         example_library_laws_v0 (list_byte_of_string Example.wallet_key)))
      ([], [Byte.x68; Byte.x69])).
  - discriminate.
Defined.

(* ================================================================= *)
(** ** Further properties of the program *)

(** X1.  [wait_for_transaction_confirmation] never raises, whatever the
    network does.  It issues at most [max_retries] requests, each of them
    the same [getTransaction] request, and sleeps at most once per
    request; with [max_retries <= 0] it answers [False] at once, without
    any request. *)
Theorem wait_for_transaction_confirmation_bounded {net : Network}
        (signature : json) (max_retries : Z) (st : state) :
  let run := wait_for_transaction_confirmation signature max_retries st in
  (exists b k,
      fst run = Ok b
      /\ (k <= Z.to_nat max_retries)%nat
      /\ requests_of (trace (snd run))
         = requests_of (trace st) ++ repeat (poll_request signature) k
      /\ (sleeps_of (trace (snd run)) <= sleeps_of (trace st) + k)%nat)
  /\ (max_retries <= 0 -> run = (Ok false, st)).
Proof.
  cbn zeta. unfold wait_for_transaction_confirmation. split.
  - destruct (never_raises_wait_loop (Z.to_nat max_retries) signature st)
      as [b Hb].
    destruct (wait_loop_bound (Z.to_nat max_retries) signature st)
      as (k & Hk & Hr & _ & Hs).
    exists b, k. repeat split; assumption.
  - intros Hle. replace (Z.to_nat max_retries) with 0%nat by lia. reflexivity.
Qed.

Lemma wait_for_transaction_confirmation_bounded_witness :
  @wait_for_transaction_confirmation Example.poll_world (JStr "5sig") (-1)
    initial
  = (Ok false, initial).
Proof.
  refine (proj2 (@wait_for_transaction_confirmation_bounded Example.poll_world
                   (JStr "5sig") (-1) initial) _).
  discriminate.
Defined.

(** X2.  [wait_for_transaction_confirmation] answers [True] only when
    one of its polls, below [max_retries], returned a transaction result
    whose error field is [null], all polls before it having returned
    none. *)
Theorem wait_true_only_if_confirmed {net : Network}
        (signature : json) (max_retries : Z) (st : state) :
  fst (wait_for_transaction_confirmation signature max_retries st) = Ok true ->
  exists k err,
    (k < Z.to_nat max_retries)%nat
    /\ (forall i, (i < k)%nat ->
          transaction_result (answer (sent st + i) (poll_request signature))
          = None)
    /\ transaction_result (answer (sent st + k) (poll_request signature))
       = Some err
    /\ Py.is_None err = true.
Proof.
  unfold wait_for_transaction_confirmation. intros H.
  destruct (wait_loop (Z.to_nat max_retries) signature st) as [r st'] eqn:Hrun.
  cbn in H. subst r. exact (wait_loop_true_inv _ _ _ _ Hrun).
Qed.

Lemma wait_true_only_if_confirmed_witness :
  exists k err,
    (k < 30)%nat
    /\ (forall i, (i < k)%nat ->
          transaction_result
            (@answer Example.poll_world (0 + i) (poll_request (JStr "5sig")))
          = None)
    /\ transaction_result
         (@answer Example.poll_world (0 + k) (poll_request (JStr "5sig")))
       = Some err
    /\ Py.is_None err = true.
Proof.
  exact (@wait_true_only_if_confirmed Example.poll_world (JStr "5sig") 30
           initial eq_refl).
Defined.

(** X3.  [buy_tokens] and [sell_tokens] never raise: whatever the
    network, the libraries and the arguments, they return. *)
Theorem operations_never_raise
        {net : Network} {builtins : Builtins} {libs : Libraries}
        (contract_address private_key : string) (st : state) :
  (forall amount,
      exists v, fst (buy_tokens contract_address amount private_key st) = Ok v)
  /\ (forall amount,
        exists v, fst (sell_tokens contract_address amount private_key st) = Ok v).
Proof.
  split; intros amount.
  - apply never_raises_buy_tokens.
  - apply never_raises_sell_tokens.
Qed.

(** X4.  [buy_tokens] returns something other than [None] only at the
    end of a complete run: the key was decoded, the balance was not
    below the amount, the quote and the swap transaction were obtained
    and the transaction was signed; the value returned is the one that
    [send_transaction] returned in the state left by the swap request;
    and the poller, started right after the "submitted" line, ended on
    its poll number [k], a [getTransaction] request for that value which
    the network answered with a transaction result whose error field is
    [null].  The run ends with the confirmation line. *)
Theorem buy_tokens_returns_confirmed
        {net : Network} {builtins : Builtins} {libs : Libraries}
        (contract_address : string) (amount : float) (private_key : string)
        (st : state) (v : json) :
  let run := buy_tokens contract_address amount private_key st in
  fst run = Ok v ->
  v <> JNull ->
  exists kb kp sol_balance st1 units q st2 rs sj blob encoded_tx st4 st5 k err,
    b58decode private_key = Ok kb
    /\ Keypair_from_bytes kb = Ok kp
    /\ get_sol_balance (pubkey_str kp) st = (Ok sol_balance, st1)
    /\ Py.lt sol_balance (PFloat amount) = false
    /\ Py.int_of_float (Float64.mul amount Float64.lit_1e9) = Ok units
    /\ get_quote SOL_ADDRESS contract_address (Py.str_of_int units) st1
       = (Ok q, st2)
    /\ answer (sent st2) (swap_request q (pubkey_str kp)) = Ok rs
    /\ status_code rs = 200
    /\ json_body rs = Some sj
    /\ Py.getitem sj "swapTransaction" = Ok blob
    /\ sign_transaction kp blob = Ok encoded_tx
    /\ send_transaction encoded_tx
         (after_request st2 (swap_request q (pubkey_str kp)) [])
       = (Ok v, st4)
    /\ wait_for_transaction_confirmation v default_max_retries
         (add_events st4 [submitted_print])
       = (Ok true, st5)
    /\ snd run = add_events st5 [confirmed_print v]
    /\ (k < Z.to_nat default_max_retries)%nat
    /\ (forall i, (i < k)%nat ->
          transaction_result (answer (sent st4 + i) (poll_request v)) = None)
    /\ transaction_result (answer (sent st4 + k) (poll_request v)) = Some err
    /\ Py.is_None err = true
    /\ sent st5 = (sent st4 + S k)%nat.
Proof.
  intros run H Hv. subst run.
  destruct (buy_tokens contract_address amount private_key st) as [r st']
    eqn:Hrun.
  cbn [fst] in H. subst r. cbn [snd].
  destruct (buy_tokens_inv _ _ _ _ _ _ Hrun Hv)
    as (kb & kp & bal & st1 & units & q & st2 & rs & sj & blob & enc & st4
        & st5 & Hkb & Hkp & Hbal & Hlt & Hunits & Hq & Hrs & Hss & Hsj & Hblob
        & Hsign & Hsend & Hwait & Hst).
  pose proof Hwait as Hloop. unfold wait_for_transaction_confirmation in Hloop.
  destruct (wait_loop_true_inv _ _ _ _ Hloop)
    as (k & err & Hk & Hnone & Hres & Hn).
  destruct (wait_loop_result k _ _ _ err Hk Hnone Hres)
    as (st5' & Hagain & Hsent & _).
  rewrite Hloop in Hagain. injection Hagain as _ <-.
  cbn [sent add_events] in Hnone, Hres, Hsent.
  exists kb, kp, bal, st1, units, q, st2, rs, sj, blob, enc, st4, st5, k, err.
  repeat (split; [assumption|]). exact Hsent.
Qed.

Lemma buy_tokens_returns_confirmed_witness :
  exists st5,
    snd (@buy_tokens Example.buy_confirmed_world Example.builtins
           Example.libraries Example.mint Float64.lit_0_5
           Example.wallet_key initial)
    = add_events st5 [confirmed_print (JStr "5sig")].
Proof.
  destruct (@buy_tokens_returns_confirmed Example.buy_confirmed_world
              Example.builtins Example.libraries Example.mint Float64.lit_0_5
              Example.wallet_key initial (JStr "5sig") eq_refl)
    as (kb & kp & bal & st1 & units & q & st2 & rs & sj & blob & enc & st4
        & st5 & k & err & _ & _ & _ & _ & _ & _ & _ & _ & _ & _ & _ & _ & _
        & Hend & _).
  - discriminate.
  - exists st5. exact Hend.
Defined.

(** X5.  [sell_tokens] returns something other than [None] only at the
    end of a complete run: the key was decoded, the token account was
    discovered, the resolved amount was positive, the SOL balance was
    not below 0.002, the quote and the swap transaction were obtained
    and the transaction was signed; the value returned is the one that
    [send_transaction] returned in the state left by the swap request;
    the poller, started right after the "submitted" line, ended on its
    poll number [k], a [getTransaction] request for that value which the
    network answered with a transaction result whose error field is
    [null]; and the check of the new balance that followed raised
    nothing. *)
Theorem sell_tokens_returns_confirmed
        {net : Network} {builtins : Builtins} {libs : Libraries}
        (contract_address : string) (amount : pynum) (private_key : string)
        (st : state) (v : json) :
  let run := sell_tokens contract_address amount private_key st in
  fst run = Ok v ->
  v <> JNull ->
  exists kb kp resp data token_account decimals current_balance sol_balance
         st3 factor scaled units q st4 rs sj blob encoded_tx st6 st7 prints
         k err,
    b58decode private_key = Ok kb
    /\ Keypair_from_bytes kb = Ok kp
    /\ answer (sent st)
         (token_accounts_request (pubkey_str kp) contract_address)
       = Ok resp
    /\ json_body resp = Some data
    /\ discovered data token_account decimals current_balance
    /\ Py.le (resolve_amount amount current_balance) (PInt 0) = false
    /\ get_sol_balance (pubkey_str kp)
         (after_request st
            (token_accounts_request (pubkey_str kp) contract_address)
            [selling_print (resolve_amount amount current_balance)])
       = (Ok sol_balance, st3)
    /\ Py.lt sol_balance (PFloat Float64.lit_0_002) = false
    /\ pow10 decimals = Ok factor
    /\ Py.mul (resolve_amount amount current_balance) factor = Ok scaled
    /\ Py.int scaled = Ok units
    /\ get_quote contract_address SOL_ADDRESS (Py.str_of_int units) st3
       = (Ok q, st4)
    /\ answer (sent st4) (swap_request q (pubkey_str kp)) = Ok rs
    /\ status_code rs = 200
    /\ json_body rs = Some sj
    /\ Py.getitem sj "swapTransaction" = Ok blob
    /\ sign_transaction kp blob = Ok encoded_tx
    /\ send_transaction encoded_tx
         (after_request st4 (swap_request q (pubkey_str kp)) [])
       = (Ok v, st6)
    /\ wait_for_transaction_confirmation v default_max_retries
         (add_events st6 [submitted_print])
       = (Ok true, st7)
    /\ verification
         (answer (sent (before_verification st7 v))
            (verify_request token_account))
         decimals current_balance
       = Ok prints
    /\ snd run
       = after_request (before_verification st7 v)
           (verify_request token_account) prints
    /\ (k < Z.to_nat default_max_retries)%nat
    /\ (forall i, (i < k)%nat ->
          transaction_result (answer (sent st6 + i) (poll_request v)) = None)
    /\ transaction_result (answer (sent st6 + k) (poll_request v)) = Some err
    /\ Py.is_None err = true
    /\ sent st7 = (sent st6 + S k)%nat.
Proof.
  intros run H Hv. subst run.
  destruct (sell_tokens contract_address amount private_key st) as [r st']
    eqn:Hrun.
  cbn [fst] in H. subst r. cbn [snd].
  destruct (sell_tokens_inv _ _ _ _ _ _ Hrun Hv)
    as (kb & kp & resp & data & ta & dec & cb & bal & st3 & factor & scaled
        & units & q & st4 & rs & sj & blob & enc & st6 & st7 & prints
        & Hkb & Hkp & Ha & Hb & Hd & Hle & Hbal & Hlt & Hsc & Hmul & Hint
        & Hq & Hrs & Hss & Hsj & Hblob & Hsign & Hsend & Hwait & Hver & Hst).
  pose proof Hwait as Hloop. unfold wait_for_transaction_confirmation in Hloop.
  destruct (wait_loop_true_inv _ _ _ _ Hloop)
    as (k & err & Hk & Hnone & Hres & Hn).
  destruct (wait_loop_result k _ _ _ err Hk Hnone Hres)
    as (st7' & Hagain & Hsent & _).
  rewrite Hloop in Hagain. injection Hagain as _ <-.
  cbn [sent add_events] in Hnone, Hres, Hsent.
  exists kb, kp, resp, data, ta, dec, cb, bal, st3, factor, scaled, units, q,
    st4, rs, sj, blob, enc, st6, st7, prints, k, err.
  repeat (split; [assumption|]). exact Hsent.
Qed.

Lemma sell_tokens_returns_confirmed_witness :
  exists st7 prints,
    snd (@sell_tokens Example.sell_confirmed_world Example.builtins
           Example.libraries Example.mint (PInt 0) Example.wallet_key initial)
    = after_request (before_verification st7 (JStr "5sig"))
        (verify_request (JStr "TokenAccount")) prints.
Proof.
  destruct (@sell_tokens_returns_confirmed Example.sell_confirmed_world
              Example.builtins Example.libraries Example.mint (PInt 0)
              Example.wallet_key initial (JStr "5sig") eq_refl)
    as (kb & kp & resp & data & ta & dec & cb & bal & st3 & factor & scaled
        & units & q & st4 & rs & sj & blob & enc & st6 & st7 & prints
        & k & err & Hkb & Hkp & Ha & Hb & Hd & _ & _ & _ & _ & _ & _ & _
        & _ & _ & _ & _ & _ & _ & _ & _ & Hend & _).
  - discriminate.
  - exists st7, prints.
    assert (Hta : ta = JStr "TokenAccount").
    { injection Ha as <-. injection Hb as <-.
      destruct Hd as (r & vl & acc & raw & rawf & sc & _ & Hr & Hvl & _ & Hx
                      & Hpub & _).
      injection Hr as <-. injection Hvl as <-. injection Hx as <-.
      now injection Hpub as <-. }
    rewrite <- Hta. exact Hend.
Defined.

(** X6.  [get_quote] issues exactly one request, the GET of the quote
    URL with the two mints, the amount and the flag that restricts
    intermediate tokens, and never sleeps or retries.  It returns the
    decoded body unless the status is in 400..599; a status in 400..599
    raises [HTTPError], and an exception of the request is raised again;
    what is raised is logged first as "Quote failed". *)
Theorem get_quote_spec {net : Network}
        (input_mint output_mint amount : string) (st : state) :
  let req := quote_request input_mint output_mint amount in
  let a := answer (sent st) req in
  let run := get_quote input_mint output_mint amount st in
  req = GET ("https://quote-api.jup.ag/v6/quote?inputMint=" ++ input_mint
               ++ "&outputMint=" ++ output_mint
               ++ "&amount=" ++ amount
               ++ "&restrictIntermediateTokens=true")%string
  /\ requests_of (trace (snd run)) = requests_of (trace st) ++ [req]
  /\ sleeps_of (trace (snd run)) = sleeps_of (trace st)
  /\ (forall resp q,
        a = Ok resp ->
        (400 <=? status_code resp) && (status_code resp <? 600) = false ->
        json_body resp = Some q ->
        run = (Ok q, after_request st req []))
  /\ (forall resp,
        a = Ok resp ->
        (400 <=? status_code resp) && (status_code resp <? 600) = true ->
        run = (Raise (HTTPError (status_code resp)),
               after_request st req [quote_log (HTTPError (status_code resp))]))
  /\ (forall e,
        a = Raise e ->
        run = (Raise e, after_request st req [quote_log e])).
Proof.
  cbn zeta. split; [reflexivity|].
  destruct (get_quote_run input_mint output_mint amount st)
    as (r & logs & Hrun & Hreq & Hsl).
  destruct (after_request_facts st
              (quote_request input_mint output_mint amount) logs Hsl Hreq)
    as (_ & Es & Er).
  rewrite Hrun. cbn [snd]. rewrite Es, Er. rewrite <- Hrun.
  repeat split.
  - intros resp q Ha Hs Hb. exact (get_quote_ok _ _ _ _ _ _ Ha Hs Hb).
  - intros resp Ha Hs. exact (get_quote_http_error _ _ _ _ _ Ha Hs).
  - intros e Ha. exact (get_quote_network_error _ _ _ _ _ Ha).
Qed.

Lemma get_quote_spec_witness :
  @get_quote Example.unavailable_world SOL_ADDRESS Example.mint "500000000"
    initial
  = (Raise (HTTPError 503),
     after_request initial
       (quote_request SOL_ADDRESS Example.mint "500000000")
       [quote_log (HTTPError 503)]).
Proof.
  exact (proj1 (proj2 (proj2 (proj2 (proj2
    (@get_quote_spec Example.unavailable_world SOL_ADDRESS Example.mint
       "500000000" initial)))))
    _ eq_refl eq_refl).
Defined.

(** X7.  When the swap-build endpoint answers a buy with a status other
    than 200, [buy_tokens] prints "Swap transaction failed: " followed by
    the response text and returns [None]; the requests of the run are
    the balance check, the quote and the swap-build request, so nothing
    is signed or sent. *)
Theorem buy_tokens_swap_build_refused
        {net : Network} {builtins : Builtins} {libs : Libraries}
        (contract_address : string) (amount : float) (private_key : string)
        (st : state) kb kp sol_balance st1 units rq q rs :
  b58decode private_key = Ok kb ->
  Keypair_from_bytes kb = Ok kp ->
  get_sol_balance (pubkey_str kp) st = (Ok sol_balance, st1) ->
  Py.lt sol_balance (PFloat amount) = false ->
  Py.int_of_float (Float64.mul amount Float64.lit_1e9) = Ok units ->
  answer (sent st1)
    (quote_request SOL_ADDRESS contract_address (Py.str_of_int units))
  = Ok rq ->
  (400 <=? status_code rq) && (status_code rq <? 600) = false ->
  json_body rq = Some q ->
  answer (S (sent st1)) (swap_request q (pubkey_str kp)) = Ok rs ->
  status_code rs <> 200 ->
  let run := buy_tokens contract_address amount private_key st in
  fst run = Ok JNull
  /\ (exists before,
        trace (snd run)
        = before
            ++ [error_print
                  (PyException [FLit "Swap transaction failed: ";
                                FLit (text rs)])])
  /\ requests_of (trace (snd run))
     = requests_of (trace st)
         ++ [balance_request (pubkey_str kp);
             quote_request SOL_ADDRESS contract_address (Py.str_of_int units);
             swap_request q (pubkey_str kp)].
Proof.
  intros Hkb Hkp Hbal Hlt Hunits Ha Hs Hq Has Hss run. subst run.
  rewrite (buy_tokens_swap_refused _ _ _ _ _ _ _ _ _ _ _ _
             Hkb Hkp Hbal Hlt Hunits Ha Hs Hq Has Hss).
  cbn [fst snd]. split; [reflexivity|]. unfold after_request. cbn [trace].
  split.
  - exists ((trace st1
               ++ [EvRequest (quote_request SOL_ADDRESS contract_address
                                (Py.str_of_int units))])
              ++ [EvRequest (swap_request q (pubkey_str kp))]).
    rewrite <- !app_assoc. reflexivity.
  - rewrite !requests_of_app. cbn.
    destruct (get_sol_balance_requests _ _ _ _ Hbal) as [-> _].
    rewrite <- !app_assoc. reflexivity.
Qed.

Lemma buy_tokens_swap_build_refused_witness :
  requests_of
    (trace (snd (@buy_tokens Example.swap_refused_world Example.builtins
                   Example.libraries Example.mint Float64.lit_0_5
                   Example.wallet_key initial)))
  = [] ++ [balance_request Example.wallet_pubkey;
           quote_request SOL_ADDRESS Example.mint "500000000";
           swap_request
             (JDict [("inputMint", JStr SOL_ADDRESS);
                     ("outAmount", JStr "12345")])
             Example.wallet_pubkey].
Proof.
  refine (proj2 (proj2
    (@buy_tokens_swap_build_refused Example.swap_refused_world
       Example.builtins Example.libraries Example.mint Float64.lit_0_5
       Example.wallet_key initial _ _ _ _ 500000000 _ _ _
       eq_refl eq_refl eq_refl eq_refl eq_refl eq_refl eq_refl eq_refl
       eq_refl _))).
  discriminate.
Defined.

(** X8.  When the private key cannot be decoded, or no key pair can be
    made of its bytes, [buy_tokens] and [sell_tokens] print the error
    and return [None] without issuing any request. *)
Theorem operations_reject_bad_key
        {net : Network} {builtins : Builtins} {libs : Libraries}
        (contract_address private_key : string) (st : state) (e : exn) :
  b58decode private_key = Raise e
  \/ (exists kb,
        b58decode private_key = Ok kb /\ Keypair_from_bytes kb = Raise e) ->
  let ended := (Ok JNull, mkState (sent st) (trace st ++ [error_print e])) in
  (forall amount, buy_tokens contract_address amount private_key st = ended)
  /\ (forall amount, sell_tokens contract_address amount private_key st = ended)
  /\ requests_of (trace (snd ended)) = requests_of (trace st).
Proof.
  intros H ended. subst ended. repeat split.
  - intros amount. now apply buy_tokens_bad_key.
  - intros amount. now apply sell_tokens_bad_key.
  - cbn [snd trace]. rewrite requests_of_app. cbn. now rewrite app_nil_r.
Qed.

Lemma operations_reject_bad_key_witness :
  @sell_tokens Example.sell_world Example.builtins Example.libraries
    Example.mint (PInt 0) "" initial
  = (Ok JNull, mkState 0 [error_print (LibraryError "empty key")]).
Proof.
  refine (proj1 (proj2
    (@operations_reject_bad_key Example.sell_world Example.builtins
       Example.libraries Example.mint "" initial (LibraryError "empty key") _))
    (PInt 0)).
  right. exists []. split; reflexivity.
Defined.

(** X9.  When the answer to the token-account query has no [result], or
    its [result.value] is empty, [sell_tokens] stops after that single
    request with the error "No token account found" and returns
    [None]. *)
Theorem sell_tokens_no_token_account
        {net : Network} {builtins : Builtins} {libs : Libraries}
        (contract_address : string) (amount : pynum) (private_key : string)
        (st : state) kb kp resp data :
  b58decode private_key = Ok kb ->
  Keypair_from_bytes kb = Ok kp ->
  answer (sent st) (token_accounts_request (pubkey_str kp) contract_address)
  = Ok resp ->
  json_body resp = Some data ->
  Py.contains "result" data = Ok false
  \/ (exists r v,
        Py.contains "result" data = Ok true
        /\ Py.getitem data "result" = Ok r
        /\ Py.getitem r "value" = Ok v
        /\ Py.truthy v = false) ->
  sell_tokens contract_address amount private_key st
  = (Ok JNull,
     after_request st (token_accounts_request (pubkey_str kp) contract_address)
       [error_print (PyException [FLit "No token account found"])]).
Proof.
  intros Hkb Hkp Ha Hb Hcase.
  exact (sell_tokens_no_account _ _ _ _ _ _ _ _ Hkb Hkp Ha Hb Hcase).
Qed.

Lemma sell_tokens_no_token_account_witness :
  @sell_tokens Example.no_account_world Example.builtins Example.libraries
    Example.mint (PInt 0) Example.wallet_key initial
  = (Ok JNull,
     after_request initial
       (token_accounts_request Example.wallet_pubkey Example.mint)
       [error_print (PyException [FLit "No token account found"])]).
Proof.
  refine (@sell_tokens_no_token_account Example.no_account_world
            Example.builtins Example.libraries Example.mint (PInt 0)
            Example.wallet_key initial _ _ _ _ eq_refl eq_refl eq_refl eq_refl _).
  right. do 2 eexists. repeat split; reflexivity.
Defined.

(** X10.  When the SOL balance that [sell_tokens] checks is below 0.002,
    the sale stops with the fee error and returns [None]; the requests
    of the run are the token-account query and the balance check, so no
    quote is asked for.  The value 0 that a failed balance lookup yields
    is below the threshold. *)
Theorem sell_tokens_fee_threshold
        {net : Network} {builtins : Builtins} {libs : Libraries}
        (contract_address : string) (amount : pynum) (private_key : string)
        (st : state) kb kp resp data token_account decimals
        (current_balance : float) (sol_balance : pynum) (st3 : state) :
  b58decode private_key = Ok kb ->
  Keypair_from_bytes kb = Ok kp ->
  answer (sent st) (token_accounts_request (pubkey_str kp) contract_address)
  = Ok resp ->
  json_body resp = Some data ->
  discovered data token_account decimals current_balance ->
  Py.le (resolve_amount amount current_balance) (PInt 0) = false ->
  get_sol_balance (pubkey_str kp)
    (after_request st
       (token_accounts_request (pubkey_str kp) contract_address)
       [selling_print (resolve_amount amount current_balance)])
  = (Ok sol_balance, st3) ->
  Py.lt sol_balance (PFloat Float64.lit_0_002) = true ->
  let run := sell_tokens contract_address amount private_key st in
  run = (Ok JNull,
         mkState (sent st3)
           (trace st3 ++ [error_print (no_fee_error sol_balance)]))
  /\ requests_of (trace (snd run))
     = requests_of (trace st)
         ++ [token_accounts_request (pubkey_str kp) contract_address;
             balance_request (pubkey_str kp)]
  /\ Py.lt (PInt 0) (PFloat Float64.lit_0_002) = true.
Proof.
  intros Hkb Hkp Ha Hb Hd Hle Hbal Hlt run. subst run.
  rewrite (sell_tokens_no_fee _ _ _ _ _ _ _ _ _ _ _ _ _
             Hkb Hkp Ha Hb Hd Hle Hbal Hlt).
  split; [reflexivity|]. split; [|reflexivity].
  cbn [snd trace]. rewrite requests_of_app. cbn. rewrite app_nil_r.
  destruct (get_sol_balance_requests _ _ _ _ Hbal) as [-> _].
  unfold after_request. cbn [trace]. rewrite requests_of_app. cbn.
  rewrite <- app_assoc. reflexivity.
Qed.

Lemma sell_tokens_fee_threshold_witness :
  requests_of
    (trace (snd (@sell_tokens Example.no_fee_world Example.builtins
                   Example.libraries Example.mint (PInt 0)
                   Example.wallet_key initial)))
  = [] ++ [token_accounts_request Example.wallet_pubkey Example.mint;
           balance_request Example.wallet_pubkey].
Proof.
  refine (proj1 (proj2
    (@sell_tokens_fee_threshold Example.no_fee_world Example.builtins
       Example.libraries Example.mint (PInt 0) Example.wallet_key initial
       _ _ _ _ (JStr "TokenAccount") (JInt 6) (Float64.of_Z 100) _ _
       eq_refl eq_refl eq_refl eq_refl _ eq_refl eq_refl eq_refl))).
  unfold discovered. do 6 eexists.
  repeat (split; [reflexivity|]). reflexivity.
Defined.

(** X11.  When a sale passes the fee check, the quote is requested from
    the token to SOL, for the decimal string of the resolved amount
    multiplied by 10 to the power of the token's decimals and truncated
    by [int]. *)
Theorem sell_tokens_quote_amount
        {net : Network} {builtins : Builtins} {libs : Libraries}
        (contract_address : string) (amount : pynum) (private_key : string)
        (st : state) kb kp resp data token_account decimals
        (current_balance : float) (sol_balance : pynum) (st3 : state)
        (factor scaled : pynum) (units : Z) :
  b58decode private_key = Ok kb ->
  Keypair_from_bytes kb = Ok kp ->
  answer (sent st) (token_accounts_request (pubkey_str kp) contract_address)
  = Ok resp ->
  json_body resp = Some data ->
  discovered data token_account decimals current_balance ->
  Py.le (resolve_amount amount current_balance) (PInt 0) = false ->
  get_sol_balance (pubkey_str kp)
    (after_request st
       (token_accounts_request (pubkey_str kp) contract_address)
       [selling_print (resolve_amount amount current_balance)])
  = (Ok sol_balance, st3) ->
  Py.lt sol_balance (PFloat Float64.lit_0_002) = false ->
  pow10 decimals = Ok factor ->
  Py.mul (resolve_amount amount current_balance) factor = Ok scaled ->
  Py.int scaled = Ok units ->
  exists suffix,
    trace (snd (sell_tokens contract_address amount private_key st))
    = trace st3
        ++ [EvRequest (quote_request contract_address SOL_ADDRESS
                         (Py.str_of_int units))]
        ++ suffix.
Proof.
  intros Hkb Hkp Ha Hb Hd Hle Hbal Hlt Hsc Hmul Hint.
  exact (sell_tokens_reaches_quote _ _ _ _ _ _ _ _ _ _ _ _ _ _ _ _
           Hkb Hkp Ha Hb Hd Hle Hbal Hlt Hsc Hmul Hint).
Qed.

Lemma sell_tokens_quote_amount_witness :
  exists suffix,
    trace (snd (@sell_tokens Example.sell_world Example.builtins
                  Example.libraries Example.mint (PInt 0)
                  Example.wallet_key initial))
    = [EvRequest (token_accounts_request Example.wallet_pubkey Example.mint);
       selling_print (PFloat (Float64.of_Z 100));
       EvRequest (balance_request Example.wallet_pubkey)]
        ++ [EvRequest (quote_request Example.mint SOL_ADDRESS "100000000")]
        ++ suffix.
Proof.
  refine (@sell_tokens_quote_amount Example.sell_world Example.builtins
            Example.libraries Example.mint (PInt 0) Example.wallet_key initial
            _ _ _ _ (JStr "TokenAccount") (JInt 6) (Float64.of_Z 100) _ _
            _ _ 100000000
            eq_refl eq_refl eq_refl eq_refl _ eq_refl eq_refl eq_refl
            eq_refl eq_refl eq_refl).
  unfold discovered. do 6 eexists.
  repeat (split; [reflexivity|]). reflexivity.
Defined.

(** X12.  Once a buy has submitted its transaction, what [buy_tokens]
    returns is decided by the poller alone: the identifier that
    [send_transaction] returned when the poller answers [True], and
    [None] when it answers [False], although the transaction was
    submitted; the last line printed says which. *)
Theorem buy_tokens_after_submission_spec
        {net : Network} {builtins : Builtins} {libs : Libraries}
        (contract_address : string) (amount : float) (private_key : string)
        (st : state) kb kp sol_balance st1 units rq q rs sj blob encoded_tx
        (tx_signature : json) (st4 : state) (confirmed : bool) (st5 : state) :
  b58decode private_key = Ok kb ->
  Keypair_from_bytes kb = Ok kp ->
  get_sol_balance (pubkey_str kp) st = (Ok sol_balance, st1) ->
  Py.lt sol_balance (PFloat amount) = false ->
  Py.int_of_float (Float64.mul amount Float64.lit_1e9) = Ok units ->
  answer (sent st1)
    (quote_request SOL_ADDRESS contract_address (Py.str_of_int units))
  = Ok rq ->
  (400 <=? status_code rq) && (status_code rq <? 600) = false ->
  json_body rq = Some q ->
  answer (S (sent st1)) (swap_request q (pubkey_str kp)) = Ok rs ->
  status_code rs = 200 ->
  json_body rs = Some sj ->
  Py.getitem sj "swapTransaction" = Ok blob ->
  sign_transaction kp blob = Ok encoded_tx ->
  send_transaction encoded_tx
    (after_request
       (after_request st1
          (quote_request SOL_ADDRESS contract_address (Py.str_of_int units)) [])
       (swap_request q (pubkey_str kp)) [])
  = (Ok tx_signature, st4) ->
  wait_for_transaction_confirmation tx_signature default_max_retries
    (mkState (sent st4) (trace st4 ++ [submitted_print]))
  = (Ok confirmed, st5) ->
  buy_tokens contract_address amount private_key st
  = (Ok (if confirmed then tx_signature else JNull),
     mkState (sent st5)
       (trace st5
          ++ [if confirmed then confirmed_print tx_signature
              else unconfirmed_print])).
Proof.
  intros Hkb Hkp Hbal Hlt Hunits Ha Hs Hq Has Hss Hsj Hblob Hsign Hsend Hwait.
  exact (buy_tokens_after_submission _ _ _ _ _ _ _ _ _ _ _ _ _ _ _ _ _ _ _
           Hkb Hkp Hbal Hlt Hunits Ha Hs Hq Has Hss Hsj Hblob Hsign Hsend Hwait).
Qed.

Lemma buy_tokens_after_submission_spec_witness :
  fst (@buy_tokens Example.buy_failed_world Example.builtins
         Example.libraries Example.mint Float64.lit_0_5 Example.wallet_key
         initial)
  = Ok JNull.
Proof.
  refine (f_equal fst
    (@buy_tokens_after_submission_spec Example.buy_failed_world
       Example.builtins Example.libraries Example.mint Float64.lit_0_5
       Example.wallet_key initial _ _ _ _ 500000000 _ _ _ _ _ _
       (JStr "5sig") _ false _
       eq_refl eq_refl eq_refl eq_refl eq_refl eq_refl eq_refl eq_refl
       eq_refl eq_refl eq_refl eq_refl eq_refl eq_refl eq_refl)).
Defined.

(** X13.  After a sale is confirmed, [sell_tokens] waits two seconds and
    asks for the new token balance, and what it returns depends on that
    request.  When the request raises or its body cannot be decoded, the
    error is printed and [None] is returned, although the sale was
    confirmed.  When the body has no [result], the identifier is returned
    and nothing more is printed.  When the new balance can be read, the
    identifier is returned after one line: the reduced balance when it
    is below the former one, a warning otherwise. *)
Theorem sell_tokens_verification
        {net : Network} {builtins : Builtins} {libs : Libraries}
        (contract_address : string) (amount : pynum) (private_key : string)
        (st : state) kb kp resp data token_account decimals
        (current_balance : float) (sol_balance : pynum) (st3 : state)
        (factor scaled : pynum) (units : Z) q st4 rs sj blob encoded_tx
        (tx_signature : json) (st6 st7 : state) :
  b58decode private_key = Ok kb ->
  Keypair_from_bytes kb = Ok kp ->
  answer (sent st) (token_accounts_request (pubkey_str kp) contract_address)
  = Ok resp ->
  json_body resp = Some data ->
  discovered data token_account decimals current_balance ->
  Py.le (resolve_amount amount current_balance) (PInt 0) = false ->
  get_sol_balance (pubkey_str kp)
    (after_request st
       (token_accounts_request (pubkey_str kp) contract_address)
       [selling_print (resolve_amount amount current_balance)])
  = (Ok sol_balance, st3) ->
  Py.lt sol_balance (PFloat Float64.lit_0_002) = false ->
  pow10 decimals = Ok factor ->
  Py.mul (resolve_amount amount current_balance) factor = Ok scaled ->
  Py.int scaled = Ok units ->
  get_quote contract_address SOL_ADDRESS (Py.str_of_int units) st3
  = (Ok q, st4) ->
  answer (sent st4) (swap_request q (pubkey_str kp)) = Ok rs ->
  status_code rs = 200 ->
  json_body rs = Some sj ->
  Py.getitem sj "swapTransaction" = Ok blob ->
  sign_transaction kp blob = Ok encoded_tx ->
  send_transaction encoded_tx
    (after_request st4 (swap_request q (pubkey_str kp)) [])
  = (Ok tx_signature, st6) ->
  wait_for_transaction_confirmation tx_signature default_max_retries
    (mkState (sent st6) (trace st6 ++ [submitted_print]))
  = (Ok true, st7) ->
  let st8 := before_verification st7 tx_signature in
  let req := verify_request token_account in
  let a := answer (sent st8) req in
  let run := sell_tokens contract_address amount private_key st in
  (forall e,
      a = Raise e ->
      run = (Ok JNull, after_request st8 req [error_print e]))
  /\ (forall vresp,
        a = Ok vresp -> json_body vresp = None ->
        run = (Ok JNull,
               after_request st8 req [error_print (json_error vresp)]))
  /\ (forall vresp vj,
        a = Ok vresp -> json_body vresp = Some vj ->
        Py.contains "result" vj = Ok false ->
        run = (Ok tx_signature, after_request st8 req []))
  /\ (forall vresp vj vr vv va vf new_balance,
        a = Ok vresp -> json_body vresp = Some vj ->
        Py.contains "result" vj = Ok true ->
        Py.getitem vj "result" = Ok vr ->
        Py.getitem vr "value" = Ok vv ->
        Py.getitem vv "amount" = Ok va ->
        float_of_json va = Ok vf ->
        Py.float_truediv vf factor = Ok new_balance ->
        run = (Ok tx_signature,
               after_request st8 req
                 [if Py.lt (PFloat new_balance) (PFloat current_balance)
                  then balance_reduced_print current_balance new_balance
                  else balance_warning_print])).
Proof.
  intros Hkb Hkp Ha Hb Hd Hle Hbal Hlt Hsc Hmul Hint Hquote Has Hss Hsj Hblob
         Hsign Hsend Hwait st8 req a run.
  pose proof (sell_tokens_after_confirmation _ _ _ _ _ _ _ _ _ _ _ _ _ _ _ _
                _ _ _ _ _ _ _ _ _
                Hkb Hkp Ha Hb Hd Hle Hbal Hlt Hsc Hmul Hint Hquote Has Hss Hsj
                Hblob Hsign Hsend Hwait) as Hrun.
  cbv zeta in Hrun. fold st8 req a run in Hrun.
  unfold verification in Hrun.
  repeat split.
  - intros e He. rewrite He in Hrun. exact Hrun.
  - intros vresp He Hj. rewrite He, Hj in Hrun. exact Hrun.
  - intros vresp vj He Hj Hc. rewrite He, Hj, Hc in Hrun. exact Hrun.
  - intros vresp vj vr vv va vf nb He Hj Hc Hr Hv Hamt Hf Hdiv.
    rewrite He, Hj, Hc, Hr, Hv, Hamt, Hf, Hsc, Hdiv in Hrun. exact Hrun.
Qed.

Lemma sell_tokens_verification_witness :
  fst (@sell_tokens Example.sell_unverified_world Example.builtins
         Example.libraries Example.mint (PInt 0) Example.wallet_key initial)
  = Ok JNull.
Proof.
  refine (f_equal fst
    (proj1
      (@sell_tokens_verification Example.sell_unverified_world
         Example.builtins Example.libraries Example.mint (PInt 0)
         Example.wallet_key initial
         _ _ _ _ (JStr "TokenAccount") (JInt 6) (Float64.of_Z 100) _ _
         _ _ 100000000 _ _ _ _ _ _ (JStr "5sig") _ _
         eq_refl eq_refl eq_refl eq_refl _ eq_refl eq_refl eq_refl
         eq_refl eq_refl eq_refl eq_refl eq_refl eq_refl eq_refl eq_refl
         eq_refl eq_refl eq_refl)
      (RequestException "connection refused") eq_refl)).
  unfold discovered. do 6 eexists.
  repeat (split; [reflexivity|]). reflexivity.
Defined.

(** X14.  When the relay answers 200 with a body that cannot be decoded,
    or that is not a JSON object, [send_transaction] logs and raises
    after that single request: the exception of the decoding in the
    first case, [AttributeError] in the second.  A 200 answer is never
    followed by a fallback. *)
Theorem send_transaction_relay_body_not_object {net : Network}
        (encoded_tx : string) (st : state) (resp : response) :
  answer (sent st) (relay_request encoded_tx) = Ok resp ->
  status_code resp = 200 ->
  let run := send_transaction encoded_tx st in
  let logged e := after_request st (relay_request encoded_tx) [send_log e] in
  (json_body resp = None ->
   run = (Raise (json_error resp), logged (json_error resp)))
  /\ (forall body,
        json_body resp = Some body ->
        (forall kv, body <> JDict kv) ->
        run = (Raise AttributeError, logged AttributeError))
  /\ requests_of (trace (snd run))
     = requests_of (trace st) ++ [relay_request encoded_tx].
Proof.
  intros Ha Hs run logged. subst run logged. repeat split.
  - intros Hb. apply (send_relay_bad_body _ _ _ Ha Hs). now left.
  - intros body Hb Hnd. apply (send_relay_bad_body _ _ _ Ha Hs).
    right. exists body. split; [exact Hb|].
    destruct body; try reflexivity. now elim (Hnd kv).
  - rewrite send_transaction_requests, Ha.
    apply Z.eqb_eq in Hs. now rewrite Hs.
Qed.

(** A relay whose 200 answer holds an integer too long for [json] to
    convert: the [ValueError] of the conversion is what is raised. *)
Lemma send_transaction_relay_body_not_object_witness :
  let resp := Response 200 "{'txid': 1000...}" None ValueError in
  @send_transaction (Example.always (Ok resp)) Example.signed_blob initial
  = (Raise ValueError,
     after_request initial (relay_request Example.signed_blob)
       [send_log ValueError]).
Proof.
  exact (proj1
    (@send_transaction_relay_body_not_object
       (Example.always
          (Ok (Response 200 "{'txid': 1000...}" None ValueError)))
       Example.signed_blob initial _ eq_refl eq_refl)
    eq_refl).
Defined.

(** X15.  The amount that a sale goes on with never exceeds the
    discovered balance, and it is either the requested amount or the
    balance itself. *)
Theorem resolve_amount_within_balance (amount : pynum) (current_balance : float) :
  Py.gt (resolve_amount amount current_balance) (PFloat current_balance) = false
  /\ (resolve_amount amount current_balance = amount
      \/ resolve_amount amount current_balance = PFloat current_balance).
Proof.
  unfold resolve_amount.
  destruct (Py.eq amount (PInt 0)) eqn:He; cbn [orb].
  - split; [apply float_lt_irrefl | now right].
  - destruct (Py.gt amount (PFloat current_balance)) eqn:Hg.
    + split; [apply float_lt_irrefl | now right].
    + split; [exact Hg | now left].
Qed.

(** X16.  [get_sol_balance] issues exactly one request and never sleeps.
    A network exception and a malformed 200 answer (undecodable body,
    missing [value], a value that is not a number) give 0 with a log
    line; a status other than 200 and a body without [result] give 0
    without any log line. *)
Theorem get_sol_balance_logging {net : Network} {builtins : Builtins}
        (public_key : string) (st : state) :
  let req := balance_request public_key in
  let a := answer (sent st) req in
  let run := get_sol_balance public_key st in
  requests_of (trace (snd run)) = requests_of (trace st) ++ [req]
  /\ sleeps_of (trace (snd run)) = sleeps_of (trace st)
  /\ (forall e, a = Raise e ->
        run = (Ok (PInt 0), after_request st req [balance_log e]))
  /\ (forall resp, a = Ok resp -> status_code resp <> 200 ->
        run = (Ok (PInt 0), after_request st req []))
  /\ (forall resp body, a = Ok resp -> status_code resp = 200 ->
        json_body resp = Some body ->
        Py.contains "result" body = Ok false ->
        run = (Ok (PInt 0), after_request st req []))
  /\ (forall resp, a = Ok resp -> status_code resp = 200 ->
        json_body resp = None ->
        run = (Ok (PInt 0),
               after_request st req [balance_log (json_error resp)]))
  /\ (forall resp body r e, a = Ok resp -> status_code resp = 200 ->
        json_body resp = Some body ->
        Py.contains "result" body = Ok true ->
        Py.getitem body "result" = Ok r ->
        Py.getitem r "value" = Raise e ->
        run = (Ok (PInt 0), after_request st req [balance_log e]))
  /\ (forall resp body r v e, a = Ok resp -> status_code resp = 200 ->
        json_body resp = Some body ->
        Py.contains "result" body = Ok true ->
        Py.getitem body "result" = Ok r ->
        Py.getitem r "value" = Ok v ->
        float_of_json v = Raise e ->
        run = (Ok (PInt 0), after_request st req [balance_log e])).
Proof.
  cbn zeta.
  destruct (get_sol_balance_run public_key st) as (v & logs & Hrun & Hreq & Hsl).
  destruct (after_request_facts st (balance_request public_key) logs Hsl Hreq)
    as (_ & Es & Er).
  split; [rewrite Hrun; exact Er|]. split; [rewrite Hrun; exact Es|].
  clear. repeat split.
  - intros e Ha. exact (get_sol_balance_raised _ _ _ Ha).
  - intros resp Ha Hs. exact (get_sol_balance_not_200 _ _ _ Ha Hs).
  - intros resp body Ha Hs Hb Hc.
    exact (get_sol_balance_no_result _ _ _ _ Ha Hs Hb Hc).
  - intros resp Ha Hs Hb. apply (get_sol_balance_malformed _ _ _ _ Ha Hs).
    now left.
  - intros resp body r e Ha Hs Hb Hc Hr Hv.
    apply (get_sol_balance_malformed _ _ _ _ Ha Hs).
    right. exists body. split; [exact Hb|]. right. split; [exact Hc|].
    right. exists r. split; [exact Hr|]. now left.
  - intros resp body r v e Ha Hs Hb Hc Hr Hv Hf.
    apply (get_sol_balance_malformed _ _ _ _ Ha Hs).
    right. exists body. split; [exact Hb|]. right. split; [exact Hc|].
    right. exists r. split; [exact Hr|]. right. exists v. now split.
Qed.

Lemma get_sol_balance_logging_witness :
  @get_sol_balance
    (Example.always
       (Ok (Example.json_response 200
              (Example.rpc_result (JDict [("value", JNull)])))))
    Example.builtins "wallet" initial
  = (Ok (PInt 0),
     after_request initial (balance_request "wallet") [balance_log TypeError]).
Proof.
  exact (proj2 (proj2 (proj2 (proj2 (proj2 (proj2 (proj2
    (@get_sol_balance_logging
       (Example.always
          (Ok (Example.json_response 200
                 (Example.rpc_result (JDict [("value", JNull)])))))
       Example.builtins "wallet" initial)))))))
    _ _ _ _ TypeError eq_refl eq_refl eq_refl eq_refl eq_refl eq_refl eq_refl).
Defined.

(** X17.  A poll whose answer carries a non-empty [result] whose [meta]
    is present but is not an object (for instance [null]) is not taken
    as a confirmation nor as a failure: the poll logs a warning for the
    [AttributeError] and the loop goes on. *)
Theorem poll_result_without_meta_object {net : Network}
        (signature : json) (st : state) resp kv rkv m :
  answer (sent st) (poll_request signature) = Ok resp ->
  status_code resp = 200 ->
  json_body resp = Some (JDict kv) ->
  Py.lookup "result" kv = Some (JDict rkv) ->
  Py.lookup "meta" rkv = Some m ->
  (forall mkv, m <> JDict mkv) ->
  poll_once signature st
  = (Ok None,
     after_request st (poll_request signature) [poll_warning AttributeError])
  /\ forall n,
       wait_loop (S n) signature st
       = wait_loop n signature
           (mkState (S (sent st))
              (trace st
                 ++ [EvRequest (poll_request signature);
                     poll_warning AttributeError; EvSleep 1])).
Proof.
  intros Ha Hs Hb Hr Hm Hnd.
  pose proof (poll_once_bad_meta _ _ _ _ _ _ Ha Hs Hb Hr Hm Hnd) as Hrun.
  split; [exact Hrun|].
  intros n. cbn [wait_loop]. rewrite (run_bind_ok _ _ _ _ _ Hrun).
  unfold sleep. rewrite (run_bind_ok _ _ _ _ _ (run_emit _ _)).
  unfold after_request. cbn [sent trace]. rewrite <- app_assoc. reflexivity.
Qed.

Lemma poll_result_without_meta_object_witness :
  @poll_once
    (Example.always
       (Ok (Example.json_response 200
              (Example.rpc_result
                 (JDict [("slot", JInt 7); ("meta", JNull)])))))
    (JStr "5sig") initial
  = (Ok None,
     after_request initial (poll_request (JStr "5sig"))
       [poll_warning AttributeError]).
Proof.
  refine (proj1
    (@poll_result_without_meta_object
       (Example.always
          (Ok (Example.json_response 200
                 (Example.rpc_result
                    (JDict [("slot", JInt 7); ("meta", JNull)])))))
       (JStr "5sig") initial _ _ _ JNull
       eq_refl eq_refl eq_refl eq_refl eq_refl _)).
  intros mkv. discriminate.
Defined.

(** X18.  When the first transaction result that the poller receives has
    a non-empty error field, the run ends on that poll: the answer is
    [False] and the last events are the request and the log line
    "Transaction failed: " followed by the error, with no sleep after
    them. *)
Theorem wait_failure_is_logged {net : Network}
        (signature : json) (max_retries : Z) (st : state) (k : nat) (err : json) :
  (k < Z.to_nat max_retries)%nat ->
  (forall i, (i < k)%nat ->
     transaction_result (answer (sent st + i) (poll_request signature)) = None) ->
  transaction_result (answer (sent st + k) (poll_request signature)) = Some err ->
  Py.is_None err = false ->
  let run := wait_for_transaction_confirmation signature max_retries st in
  fst run = Ok false
  /\ exists before,
       trace (snd run)
       = before
           ++ [EvRequest (poll_request signature);
               EvLog ERROR [Lit "Transaction failed: "; Fmt (FJson err)]].
Proof.
  intros Hk Hnone Hres Herr run. subst run.
  unfold wait_for_transaction_confirmation. split.
  - destruct (wait_loop_result k _ signature st err Hk Hnone Hres)
      as (st' & -> & _).
    cbn. now rewrite Herr.
  - destruct (wait_loop_result_last k _ signature st err Hk Hnone Hres)
      as (before & Hb).
    exists before. rewrite Hb, Herr. reflexivity.
Qed.

Lemma wait_failure_is_logged_witness :
  fst (@wait_for_transaction_confirmation
         (Example.always Example.failed_answer) (JStr "5sig") 30 initial)
  = Ok false.
Proof.
  refine (proj1
    (@wait_failure_is_logged (Example.always Example.failed_answer)
       (JStr "5sig") 30 initial 0 (JDict [("InstructionError", JInt 0)])
       _ _ eq_refl eq_refl)).
  - apply Nat.ltb_lt. reflexivity.
  - intros i Hi. exfalso. apply Nat.ltb_lt in Hi. discriminate Hi.
Defined.

(** X19.  When [float] raises nothing but [ValueError] on strings, a
    session of [main] ends in one of two ways, whatever the lines typed,
    the network and the libraries: it returns, by the menu's exit, which
    takes a line "3" after the private key; or it raises the [EOFError]
    of [input] because the input has ended.  Nothing else is raised: no
    failure of a buy or of a sale leaves the loop. *)
Theorem main_ends_by_exit_or_eof
        {net : Network} {builtins : Builtins} {libs : Libraries}
        (inputs : list string) (st : state) :
  (forall s e, float_of_str s = Raise e -> is_ValueError e = true) ->
  (fst (main inputs st) = Ok tt /\ In "3" (tl inputs))
  \/ fst (main inputs st) = Raise EOFError.
Proof.
  intros Hfloat. unfold main, write_prompt, print.
  rewrite (run_bind_ok _ _ _ _ _ (run_emit _ _)).
  rewrite (run_bind_ok _ _ _ _ _ (run_emit _ _)).
  destruct inputs as [|pk inputs1]; [now right|].
  exact (main_loop_ends pk Hfloat (List.length inputs1) inputs1 _
           (Nat.le_refl _)).
Qed.

(** A buy with an amount that is not a number and a sale that finds no
    service, after which the input ends. *)
Lemma main_ends_by_exit_or_eof_witness :
  fst (@main Example.offline_world Example.parsing_builtins Example.libraries
         ["secret"; "1"; "MINT"; "abc"; "2"; "MINT"; ""] initial)
  = Raise EOFError.
Proof.
  destruct (@main_ends_by_exit_or_eof Example.offline_world
              Example.parsing_builtins Example.libraries
              ["secret"; "1"; "MINT"; "abc"; "2"; "MINT"; ""] initial
              parsing_builtins_value_error) as [[_ Hin] | Heof].
  - exfalso. cbn in Hin.
    repeat (destruct Hin as [Hin | Hin]; [discriminate Hin|]). exact Hin.
  - exact Heof.
Defined.

(** X20.  A session in which no line after the private key is "1" or
    "2" issues no request; it ends by the exit when one of these lines
    is "3", and by the [EOFError] of [input] at the end of the input
    otherwise. *)
Theorem main_idle_session
        {net : Network} {builtins : Builtins} {libs : Libraries}
        (inputs : list string) (st : state) :
  (forall c, In c (tl inputs) -> c <> "1" /\ c <> "2") ->
  requests_of (trace (snd (main inputs st))) = requests_of (trace st)
  /\ fst (main inputs st)
     = (if existsb (String.eqb "3") (tl inputs) then Ok tt
        else Raise EOFError).
Proof.
  intros Hc. unfold main, write_prompt, print.
  rewrite (run_bind_ok _ _ _ _ _ (run_emit _ _)).
  rewrite (run_bind_ok _ _ _ _ _ (run_emit _ _)).
  cbn [sent trace]. rewrite <- app_assoc. cbn [app].
  destruct inputs as [|pk inputs1].
  - cbn. rewrite requests_of_app. cbn. now rewrite app_nil_r.
  - cbn [tl] in Hc |- *.
    match goal with
    | |- context [main_loop pk inputs1 ?s] =>
        destruct (main_loop_idle pk inputs1 s Hc) as [Hr Hf]
    end.
    rewrite Hr, Hf. cbn [trace]. rewrite requests_of_app. cbn.
    now rewrite app_nil_r.
Qed.

Lemma main_idle_session_witness :
  requests_of
    (trace (snd (@main Example.balance_world Example.builtins
                   Example.libraries ["secret"; "buy"; "3"] initial)))
  = []
  /\ fst (@main Example.balance_world Example.builtins Example.libraries
            ["secret"; "buy"; "3"] initial)
     = Ok tt.
Proof.
  refine (@main_idle_session Example.balance_world Example.builtins
            Example.libraries ["secret"; "buy"; "3"] initial _).
  intros c [<- | [<- | []]]; split; discriminate.
Defined.

(** X21.  When the amount typed for a buy, or a non-empty amount typed
    for a sale, is not a number, that turn of [main] prints "Invalid
    amount" and issues no request, and the loop goes on with the next
    line. *)
Theorem main_invalid_amount
        {net : Network} {builtins : Builtins} {libs : Libraries}
        (private_key contract_address amount_input : string)
        (rest : list string) (st : state) (e : exn) :
  float_of_str amount_input = Raise e ->
  is_ValueError e = true ->
  main_loop private_key ("1" :: contract_address :: amount_input :: rest) st
  = main_loop private_key rest
      (add_events st
         (menu_events
            ++ [contract_prompt; buy_amount_prompt; invalid_amount_print]))
  /\ (amount_input <> "" ->
      main_loop private_key ("2" :: contract_address :: amount_input :: rest) st
      = main_loop private_key rest
          (add_events st
             (menu_events
                ++ [contract_prompt; sell_amount_prompt; invalid_amount_print]))).
Proof.
  intros Hf He. split.
  - rewrite main_loop_menu. cbn [String.eqb Ascii.eqb Bool.eqb not_buy_or_sell
                                 orb negb andb].
    erewrite run_bind_ok by (apply (buy_turn_invalid _ _ _ _ _ Hf He)).
    now rewrite add_events_app, <- app_assoc.
  - intros Hne. apply String.eqb_neq in Hne.
    rewrite main_loop_menu. cbn [String.eqb Ascii.eqb Bool.eqb not_buy_or_sell
                                 orb negb andb].
    erewrite run_bind_ok by (apply (sell_turn_invalid _ _ _ _ _ Hne Hf He)).
    now rewrite add_events_app, <- app_assoc.
Qed.

Lemma main_invalid_amount_witness :
  @main_loop Example.balance_world Example.parsing_builtins Example.libraries
    "secret" ["1"; "MINT"; "abc"; "3"] initial
  = (Ok tt,
     add_events initial
       (menu_events
          ++ [contract_prompt; buy_amount_prompt; invalid_amount_print]
          ++ menu_events
          ++ [EvPrint [Lit "Thank you for using Solana Token Trader!"]])).
Proof.
  rewrite (proj1
    (@main_invalid_amount Example.balance_world Example.parsing_builtins
       Example.libraries "secret" "MINT" "abc" ["3"] initial ValueError
       eq_refl eq_refl)).
  reflexivity.
Defined.

(** X22.  A buy or sell turn of [main] runs the operation once and goes
    on with the next line whatever it returned: [buy_tokens] gets the
    parsed amount, [sell_tokens] gets the [int] 0 for an empty line and
    the parsed amount otherwise, and "Transaction failed" is printed
    exactly when the operation returned a false value. *)
Theorem main_runs_operation
        {net : Network} {builtins : Builtins} {libs : Libraries}
        (private_key contract_address amount_input : string)
        (rest : list string) (st : state) :
  (forall f v st2,
      float_of_str amount_input = Ok f ->
      buy_tokens contract_address f private_key
        (add_events st
           (menu_events
              ++ [contract_prompt; buy_amount_prompt; buy_start_print f]))
      = (Ok v, st2) ->
      main_loop private_key ("1" :: contract_address :: amount_input :: rest) st
      = main_loop private_key rest (add_events st2 (report_events v)))
  /\ (forall amount v st2,
        sell_amount_of amount_input = Ok amount ->
        sell_tokens contract_address amount private_key
          (add_events st
             (menu_events
                ++ [contract_prompt; sell_amount_prompt; sell_start_print]))
        = (Ok v, st2) ->
        main_loop private_key ("2" :: contract_address :: amount_input :: rest) st
        = main_loop private_key rest (add_events st2 (report_events v)))
  /\ sell_amount_of "" = Ok (PInt 0).
Proof.
  split; [|split; [|reflexivity]].
  - intros f v st2 Hf Hbuy.
    rewrite main_loop_menu. cbn [String.eqb Ascii.eqb Bool.eqb not_buy_or_sell
                                 orb negb andb].
    erewrite run_bind_ok; [reflexivity|].
    apply (buy_turn_runs _ _ _ _ _ _ _ Hf).
    now rewrite add_events_app, <- app_assoc.
  - intros amount v st2 Ha Hsell.
    rewrite main_loop_menu. cbn [String.eqb Ascii.eqb Bool.eqb not_buy_or_sell
                                 orb negb andb].
    erewrite run_bind_ok; [reflexivity|].
    apply (sell_turn_runs _ _ _ _ _ _ _ Ha).
    now rewrite add_events_app, <- app_assoc.
Qed.

Lemma main_runs_operation_witness :
  fst (@main_loop Example.no_account_world Example.parsing_builtins
         Example.libraries Example.wallet_key
         ["2"; Example.mint; ""; "3"] initial)
  = Ok tt.
Proof.
  rewrite (proj1 (proj2
    (@main_runs_operation Example.no_account_world Example.parsing_builtins
       Example.libraries Example.wallet_key Example.mint "" ["3"] initial))
    (PInt 0) JNull _ eq_refl eq_refl).
  reflexivity.
Defined.

(** X23.  When the quote of a buy fails (a status in 400..599, an
    exception of the request, an undecodable body), [buy_tokens] prints
    the error and returns [None]; the requests of the run are the
    balance check and the single quote request: the quote is not asked
    again and no swap is built. *)
Theorem buy_tokens_quote_failed
        {net : Network} {builtins : Builtins} {libs : Libraries}
        (contract_address : string) (amount : float) (private_key : string)
        (st : state) kb kp sol_balance st1 units (e : exn) (st2 : state) :
  b58decode private_key = Ok kb ->
  Keypair_from_bytes kb = Ok kp ->
  get_sol_balance (pubkey_str kp) st = (Ok sol_balance, st1) ->
  Py.lt sol_balance (PFloat amount) = false ->
  Py.int_of_float (Float64.mul amount Float64.lit_1e9) = Ok units ->
  get_quote SOL_ADDRESS contract_address (Py.str_of_int units) st1
  = (Raise e, st2) ->
  let run := buy_tokens contract_address amount private_key st in
  run = (Ok JNull, mkState (sent st2) (trace st2 ++ [error_print e]))
  /\ requests_of (trace (snd run))
     = requests_of (trace st)
         ++ [balance_request (pubkey_str kp);
             quote_request SOL_ADDRESS contract_address (Py.str_of_int units)].
Proof.
  intros Hkb Hkp Hbal Hlt Hunits Hq run. subst run.
  rewrite (buy_tokens_quote_fails _ _ _ _ _ _ _ _ _ _ _
             Hkb Hkp Hbal Hlt Hunits Hq).
  split; [reflexivity|]. cbn [snd trace].
  rewrite requests_of_app. cbn. rewrite app_nil_r.
  destruct (get_quote_run SOL_ADDRESS contract_address (Py.str_of_int units) st1)
    as (r & logs & Hrun & Hreq & Hsl).
  rewrite Hrun in Hq. injection Hq as _ <-.
  destruct (after_request_facts st1
              (quote_request SOL_ADDRESS contract_address (Py.str_of_int units))
              logs Hsl Hreq) as (_ & _ & ->).
  destruct (get_sol_balance_requests _ _ _ _ Hbal) as [-> _].
  rewrite <- app_assoc. reflexivity.
Qed.

Lemma buy_tokens_quote_failed_witness :
  @buy_tokens Example.quote_refused_world Example.builtins Example.libraries
    Example.mint Float64.lit_0_5 Example.wallet_key initial
  = (Ok JNull,
     mkState 2
       [EvRequest (balance_request Example.wallet_pubkey);
        EvRequest (quote_request SOL_ADDRESS Example.mint "500000000");
        quote_log (HTTPError 404);
        error_print (HTTPError 404)]).
Proof.
  refine (proj1
    (@buy_tokens_quote_failed Example.quote_refused_world Example.builtins
       Example.libraries Example.mint Float64.lit_0_5 Example.wallet_key
       initial _ _ _ _ 500000000 (HTTPError 404) _
       eq_refl eq_refl eq_refl eq_refl eq_refl eq_refl)).
Defined.

(** X24.  A buy of [nan] passes the balance check, whatever the balance,
    and stops at the conversion to lamports: [int] raises [ValueError],
    which is printed; the balance check is the only request of the
    run. *)
Theorem buy_tokens_nan_amount
        {net : Network} {builtins : Builtins} {libs : Libraries}
        (contract_address private_key : string) (st : state) kb kp
        (sol_balance : pynum) (st1 : state) :
  b58decode private_key = Ok kb ->
  Keypair_from_bytes kb = Ok kp ->
  get_sol_balance (pubkey_str kp) st = (Ok sol_balance, st1) ->
  let run := buy_tokens contract_address S754_nan private_key st in
  Py.lt sol_balance (PFloat S754_nan) = false
  /\ run = (Ok JNull, mkState (sent st1) (trace st1 ++ [error_print ValueError]))
  /\ requests_of (trace (snd run))
     = requests_of (trace st) ++ [balance_request (pubkey_str kp)].
Proof.
  intros Hkb Hkp Hbal run. subst run.
  assert (Hlt : Py.lt sol_balance (PFloat S754_nan) = false).
  { destruct sol_balance as [z|x]; [reflexivity|]. now destruct x. }
  split; [exact Hlt|].
  rewrite (buy_tokens_conversion_fails _ _ _ _ _ _ _ _ ValueError
             Hkb Hkp Hbal Hlt eq_refl).
  split; [reflexivity|]. cbn [snd trace].
  rewrite requests_of_app. cbn. rewrite app_nil_r.
  now destruct (get_sol_balance_requests _ _ _ _ Hbal) as [-> _].
Qed.

Lemma buy_tokens_nan_amount_witness :
  @buy_tokens Example.buy_world Example.builtins Example.libraries
    Example.mint S754_nan Example.wallet_key initial
  = (Ok JNull,
     mkState 1
       [EvRequest (balance_request Example.wallet_pubkey);
        error_print ValueError]).
Proof.
  refine (proj1 (proj2
    (@buy_tokens_nan_amount Example.buy_world Example.builtins
       Example.libraries Example.mint Example.wallet_key initial _ _ _ _
       eq_refl eq_refl eq_refl))).
Defined.

(** X25.  [buy_tokens] does not check the sign of the amount: a strictly
    negative amount passes the balance check even when the balance
    lookup failed and returned 0, and the quote is then requested for
    the converted amount. *)
Theorem buy_tokens_negative_amount
        {net : Network} {builtins : Builtins} {libs : Libraries}
        (contract_address : string) (amount : float) (private_key : string)
        (st : state) kb kp (st1 : state) (units : Z) :
  b58decode private_key = Ok kb ->
  Keypair_from_bytes kb = Ok kp ->
  get_sol_balance (pubkey_str kp) st = (Ok (PInt 0), st1) ->
  Py.lt (PFloat amount) (PInt 0) = true ->
  Py.int_of_float (Float64.mul amount Float64.lit_1e9) = Ok units ->
  Py.lt (PInt 0) (PFloat amount) = false
  /\ exists suffix,
       trace (snd (buy_tokens contract_address amount private_key st))
       = trace st1
           ++ [EvRequest (quote_request SOL_ADDRESS contract_address
                            (Py.str_of_int units))]
           ++ suffix.
Proof.
  intros Hkb Hkp Hbal Hneg Hunits.
  assert (Hlt : Py.lt (PInt 0) (PFloat amount) = false).
  { revert Hneg. unfold Py.lt, Py.compare, Py.cmp_to.
    destruct (Float64.compare_Z amount 0) as [[| |]|]; cbn;
      try discriminate; reflexivity. }
  split; [exact Hlt|].
  exact (buy_tokens_reaches_quote _ _ _ _ _ _ _ _ _ Hkb Hkp Hbal Hlt Hunits).
Qed.

Lemma buy_tokens_negative_amount_witness :
  exists suffix,
    trace (snd (@buy_tokens
                  (Example.scripted [Example.unavailable; Example.quote_answer])
                  Example.builtins Example.libraries Example.mint
                  (S754_finite true 4503599627370496 (-53))
                  Example.wallet_key initial))
    = [EvRequest (balance_request Example.wallet_pubkey)]
        ++ [EvRequest (quote_request SOL_ADDRESS Example.mint "-500000000")]
        ++ suffix.
Proof.
  refine (proj2
    (@buy_tokens_negative_amount
       (Example.scripted [Example.unavailable; Example.quote_answer])
       Example.builtins Example.libraries Example.mint
       (S754_finite true 4503599627370496 (-53)) Example.wallet_key initial
       _ _ _ (-500000000) eq_refl eq_refl eq_refl eq_refl eq_refl)).
Defined.

(** X26.  [send_transaction] first posts the signed transaction to the
    relay.  When the relay answers 200 with a JSON object, the result is
    its [txid] member ([None] when absent) and no other request is made.
    When the relay answers with a status other than 200, the
    transaction is posted to the RPC provider as a [sendTransaction]
    call with base64 encoding, [skipPreflight] true and [maxRetries] 3,
    and the result is the [result] member of the provider's answer; an
    answer with a status other than 200 raises "Send failed: " followed
    by the response text, an answer with an [error] member raises
    "Send failed: " followed by the body, and an exception of the
    request is raised again; whatever is raised is logged first.  When
    the request to the relay itself raises, the function logs and
    raises again after that single request. *)
Theorem send_transaction_spec {net : Network}
        (encoded_tx : string) (st : state) :
  let relay := answer (sent st) (relay_request encoded_tx) in
  let back := answer (S (sent st)) (fallback_request encoded_tx) in
  let run := send_transaction encoded_tx st in
  requests_of (trace (snd run))
  = requests_of (trace st)
      ++ relay_request encoded_tx
      :: match relay with
         | Ok resp =>
             if status_code resp =? 200 then []
             else [fallback_request encoded_tx]
         | Raise _ => []
         end
  /\ fallback_request encoded_tx
     = POST HELIUS_URL
         (JDict [("jsonrpc", JStr "2.0"); ("id", JInt 1);
                 ("method", JStr "sendTransaction");
                 ("params",
                  JList [JStr encoded_tx;
                         JDict [("encoding", JStr "base64");
                                ("skipPreflight", JBool true);
                                ("maxRetries", JInt 3)]])])
         [("Content-Type", "application/json")]
  /\ (forall resp kv,
        relay = Ok resp -> status_code resp = 200 ->
        json_body resp = Some (JDict kv) ->
        fst run
        = Ok (match Py.lookup "txid" kv with Some v => v | None => JNull end))
  /\ (forall e,
        relay = Raise e ->
        run = (Raise e, after_request st (relay_request encoded_tx) [send_log e]))
  /\ (forall resp,
        relay = Ok resp -> status_code resp <> 200 ->
        (forall r2 kv sig,
            back = Ok r2 -> status_code r2 = 200 ->
            json_body r2 = Some (JDict kv) ->
            Py.lookup "error" kv = None -> Py.lookup "result" kv = Some sig ->
            fst run = Ok sig)
        /\ (forall r2,
              back = Ok r2 -> status_code r2 <> 200 ->
              fst run
              = Raise (PyException [FLit "Send failed: "; FLit (text r2)]))
        /\ (forall r2 kv err,
              back = Ok r2 -> status_code r2 = 200 ->
              json_body r2 = Some (JDict kv) ->
              Py.lookup "error" kv = Some err ->
              fst run
              = Raise (PyException [FLit "Send failed: "; FJson (JDict kv)]))
        /\ (forall e, back = Raise e -> fst run = Raise e)
        /\ (forall e, fst run = Raise e ->
                      exists before, trace (snd run) = before ++ [send_log e])).
Proof.
  cbn zeta. split; [apply send_transaction_requests|].
  split; [reflexivity|]. split; [|split].
  - intros resp kv Ha Hs Hb. now rewrite (send_relay_ok _ _ _ _ Ha Hs Hb).
  - intros e Ha. exact (send_relay_raise _ _ _ Ha).
  - intros resp Ha Hs. rewrite (send_fallback _ _ _ Ha Hs). cbn [fst snd].
    repeat split.
    + intros r2 kv sig Hb Hs2 Hj He Hr. rewrite Hb. cbn.
      rewrite Hs2. cbn. rewrite Hj. cbn. rewrite He, Hr. reflexivity.
    + intros r2 Hb Hs2. rewrite Hb. cbn.
      apply Z.eqb_neq in Hs2. now rewrite Hs2.
    + intros r2 kv err Hb Hs2 Hj He. rewrite Hb. cbn.
      rewrite Hs2. cbn. rewrite Hj. cbn. now rewrite He.
    + intros e Hb. now rewrite Hb.
    + intros e He. rewrite He. unfold after_request. cbn [trace].
      exists ((trace st ++ [EvRequest (relay_request encoded_tx)])
                ++ [EvRequest (fallback_request encoded_tx)]).
      rewrite <- !app_assoc. reflexivity.
Qed.

Lemma send_transaction_spec_witness :
  fst (@send_transaction Example.fallback_world Example.signed_blob initial)
  = Ok (JStr "5sig").
Proof.
  refine (proj1 (proj2 (proj2 (proj2 (proj2
    (@send_transaction_spec Example.fallback_world Example.signed_blob
       initial)))) _ eq_refl _)
    _ _ (JStr "5sig") eq_refl eq_refl eq_refl eq_refl eq_refl).
  discriminate.
Defined.
